(** * classroom_simulation.py: a shallow embedding and its properties

    The program is a load-test harness: a [Teacher] drives a lesson through
    HTTP calls, many [Student]s hold a Socket.IO connection each, and an
    [EventTracker] records which student identities received which pushed
    event.  [run_simulation] sequences the phases.

    Python objects become records, [Optional[str]] becomes [option string],
    [Set[str]] becomes [gset string] and a decoded JSON object becomes a
    [gmap string _].  Everything the program cannot decide for itself (HTTP
    replies, what the socket library reports, which events arrive while a
    coroutine is suspended, random draws) is an explicit argument. *)

From Stdlib Require Import ZArith String Ascii List Sorted.
From stdpp Require Import base decidable option list gmap sets strings sorting.

Set Warnings "-clear-no-such-hyp".

Local Open Scope Z_scope.
Local Open Scope string_scope.
Local Open Scope list_scope.

(** ** Python values and idioms *)

Module Py.

(** Exceptions the program can meet.  [RequestException] stands for the
    whole [requests.exceptions.RequestException] family. *)
Inductive exn :=
| RequestException (detail : string) (response_text : option string)
| KeyError (key : string)
| AttributeError (name : string)
| TypeError (detail : string)
| ValueError (detail : string)
| OtherException (detail : string).

(** How a call ends: with a value or with an exception leaving it. *)
Inductive res (A : Type) :=
| Return (a : A)
| Raise (e : exn).
Arguments Return {A} a.
Arguments Raise {A} e.

Definition raises {A} (r : res A) : Prop :=
  match r with Raise _ => True | Return _ => False end.

(** A decoded JSON value at a place where the program uses it as an [A]
    (an object it subscripts or calls [.get] on, a sequence it iterates,
    a value it takes the length of): either it can be used so, or it is of
    another type and the use raises. *)
Inductive json (A : Type) :=
| Is (a : A)
| IsNot.
Arguments Is {A} a.
Arguments IsNot {A}.

(** The empty object [{}] and the empty list [[]]. *)
Global Instance json_empty {A} `{Empty A} : Empty (json A) := Is ∅.

(** Truth value of an [Optional[str]]: [None] and the empty string are
    both false. *)
Definition truthy (o : option string) : bool :=
  match o with
  | Some s => negb (String.eqb s "")
  | None => false
  end.

(** Truth value of an [Optional[int]]. *)
Definition truthy_int (o : option Z) : bool :=
  match o with
  | Some n => negb (n =? 0)%Z
  | None => false
  end.

(** [range(start, stop, step)] for a positive step. *)
Definition range (start stop step : Z) : list Z :=
  (λ j : nat, start + Z.of_nat j * step) <$>
    seq 0 (Z.to_nat ((stop - start + step - 1) / step)).

(** The slice [l[i : j]] for [0 <= i]. *)
Definition slice {A} (l : list A) (i j : Z) : list A :=
  take (Z.to_nat (j - i)) (drop (Z.to_nat i) l).

(** The order of [sorted] on strings, byte by byte (which on UTF-8 text is
    the order of the code points). *)
Definition str_le (a b : string) : Prop := String.leb a b = true.

Global Instance str_le_dec : RelDecision str_le.
Proof. intros a b. unfold str_le. apply _. Defined.

Global Instance str_le_total : Total str_le.
Proof. intros a b. apply String.leb_total. Qed.

Definition sorted (X : gset string) : list string :=
  merge_sort str_le (elements X).

(** [str.rstrip("/")]. *)
Fixpoint rstrip_slash (s : string) : string :=
  match s with
  | EmptyString => EmptyString
  | String c rest =>
      match rstrip_slash rest with
      | EmptyString => if Ascii.eqb c "/"%char then EmptyString else String c EmptyString
      | rest' => String c rest'
      end
  end.

End Py.

Export Py(res(..), exn(..)).

(** ** Logging

    A record keeps the level, the format string of the source (without its
    pictograms) and, where a property needs them, the strings and the
    numbers interpolated into it. *)

Inductive level := DEBUG | INFO | WARNING | ERROR.

Global Instance level_eq_dec : EqDecision level.
Proof. solve_decision. Defined.

Record LogRec := LogLine {
  lvl : level;
  fmt : string;
  ids : list string;
  nums : list Z
}.

Global Instance LogRec_eq_dec : EqDecision LogRec.
Proof. solve_decision. Defined.

Definition mkLog (l : level) (f : string) (i : list string) : LogRec :=
  LogLine l f i [].

Definition log_if (b : bool) (l : list LogRec) : list LogRec :=
  if b then l else [].

(** ** What a call does to the outside

    The requests sent, the messages emitted on the socket and the
    suspensions, in program order. *)

Module Http.

(** The JSON body of a request; the quiz fixture of
    [create_batch_quizzes] is kept by the two values interpolated in it. *)
Inductive payload :=
| NoBody
| QuizzesBody (lesson_id collection_id : string)
| StatusBody (status : string)
| PointsBody (students : list (option string * Z))
| SeatBody (serial_number : Z) (sid device_id : string) (is_incognito : bool)
| AnswersBody (student_id : option string) (answers : list (option string * list Z)).

Record request := Request {
  method : string;
  url : string;
  bearer : option string;
  body : payload
}.

(** A response as far as the program looks at it: the status, the raw
    text, and the decoded JSON body ([None] when the text is not JSON). *)
Record response (B : Type) := Response {
  status_code : Z;
  text : string;
  json : option B
}.
Arguments Response {B} status_code text json.
Arguments status_code {B} r.
Arguments text {B} r.
Arguments json {B} r.

(** What [requests.post/put/get] comes back with: an exception of the
    library (connection refused, timeout, ...) or a response. *)
Inductive reply (B : Type) :=
| Failed (detail : string)
| Replied (r : response B).
Arguments Failed {B} detail.
Arguments Replied {B} r.

(** [response = requests.X(...); response.raise_for_status()]: the
    [RequestException] raised, or the response.  [raise_for_status]
    raises [HTTPError], which carries the response, for 4xx and 5xx. *)
Definition checked {B} (r : reply B) : exn + response B :=
  match r with
  | Failed detail => inl (RequestException detail None)
  | Replied resp =>
      if (400 <=? status_code resp)%Z && (status_code resp <? 600)%Z
      then inl (RequestException "HTTPError" (Some (text resp)))
      else inr resp
  end.

(** [response.json()]: [requests.exceptions.JSONDecodeError] is a
    [RequestException] (requests 2.27 and later) without a response. *)
Definition decoded {B} (resp : response B) : exn + B :=
  match json resp with
  | None => inl (RequestException "JSONDecodeError" None)
  | Some data => inr data
  end.

End Http.

Inductive effect :=
| HttpRequest (r : Http.request)
| Emit (event : string) (data : gmap string string) (namespace : string)
| Sleep (ms : Z)
| SioConnect (url : string)
| SioDisconnect.

(** What a call of a method leaves behind: the value or exception, the
    object afterwards, the log lines written and the effects performed. *)
Record outcome (S A : Type) := Out {
  ret : res A;
  after : S;
  logged : list LogRec;
  effects : list effect
}.
Arguments Out {S A} ret after logged effects.
Arguments ret {S A} o.
Arguments after {S A} o.
Arguments logged {S A} o.
Arguments effects {S A} o.

(** The [except requests.exceptions.RequestException as e] block shared by
    all operations: the error line and, when the exception carries a
    response, its text. *)
Definition log_request_exception (fmt : string) (who : list string) (e : exn)
    : list LogRec :=
  mkLog ERROR fmt who ::
  match e with
  | RequestException _ (Some response_text) =>
      [mkLog ERROR "Response: {e.response.text}" [response_text]]
  | _ => []
  end.

(** ** EventTracker *)

Module EventTracker.

Record t := mk {
  batch_quizzes_created : gset string;
  batch_quizzes_finished : gset string;
  batch_quizzes_disclosed : gset string;
  batch_quizzes_closed : gset string;
  student_points : gset string
}.

(** [EventTracker()]: every field starts as an empty set. *)
Definition new : t := mk ∅ ∅ ∅ ∅ ∅.

(** The five event kinds, that is the five fields. *)
Inductive kind :=
| Created | Finished | Disclosed | Closed | Points.

Global Instance kind_eq_dec : EqDecision kind.
Proof. solve_decision. Defined.

Definition all_kinds : list kind := [Created; Finished; Disclosed; Closed; Points].

Definition name (k : kind) : string :=
  match k with
  | Created => "batch_quizzes_created"
  | Finished => "batch_quizzes_finished"
  | Disclosed => "batch_quizzes_disclosed"
  | Closed => "batch_quizzes_closed"
  | Points => "student_points"
  end.

Definition field (self : t) (k : kind) : gset string :=
  match k with
  | Created => batch_quizzes_created self
  | Finished => batch_quizzes_finished self
  | Disclosed => batch_quizzes_disclosed self
  | Closed => batch_quizzes_closed self
  | Points => student_points self
  end.

(** [getattr(self, event_name)], as far as it yields a set: any other
    name either is no attribute or names something that is not a set, and
    the subsequent set operations raise. *)
Definition kind_of_name (event_name : string) : option kind :=
  snd <$> list_find (λ k, name k = event_name) all_kinds.

Definition getattr (self : t) (event_name : string) : option (gset string) :=
  field self <$> kind_of_name event_name.

(** [self.<kind>.add(student_id)] *)
Definition add (k : kind) (student_id : string) (self : t) : t :=
  match k with
  | Created => mk ({[student_id]} ∪ batch_quizzes_created self)
                 (batch_quizzes_finished self) (batch_quizzes_disclosed self)
                 (batch_quizzes_closed self) (student_points self)
  | Finished => mk (batch_quizzes_created self)
                 ({[student_id]} ∪ batch_quizzes_finished self)
                 (batch_quizzes_disclosed self)
                 (batch_quizzes_closed self) (student_points self)
  | Disclosed => mk (batch_quizzes_created self) (batch_quizzes_finished self)
                 ({[student_id]} ∪ batch_quizzes_disclosed self)
                 (batch_quizzes_closed self) (student_points self)
  | Closed => mk (batch_quizzes_created self) (batch_quizzes_finished self)
                 (batch_quizzes_disclosed self)
                 ({[student_id]} ∪ batch_quizzes_closed self) (student_points self)
  | Points => mk (batch_quizzes_created self) (batch_quizzes_finished self)
                 (batch_quizzes_disclosed self) (batch_quizzes_closed self)
                 ({[student_id]} ∪ student_points self)
  end.

Definition assert_all_received (self : t) (event_name : string)
    (expected_student_ids : gset string) (total_students : option Z)
    : outcome t bool :=
  match getattr self event_name with
  | None => Out (Raise (AttributeError event_name)) self [] []
  | Some event_set =>
      let received := Z.of_nat (size event_set) in
      let expected_count := Z.of_nat (size expected_student_ids) in
      let total := default 0 total_students in
      let log0 :=
        log_if (Py.truthy_int total_students && negb (total =? expected_count)%Z)
          [mkLog INFO "Event '{event_name}': {received} received | {expected_count} expected (seated) | {total_students} total students" []] in
      if (received =? expected_count)%Z
         && bool_decide (event_set = expected_student_ids)
      then
        Out (Return true) self
          (log0
           ++ [mkLog INFO "All {expected_count} students received '{event_name}' event" []]
           ++ log_if (Py.truthy_int total_students && (expected_count <? total)%Z)
                [mkLog WARNING "   Note: {total_students - expected_count} students didn't choose seats (expected {expected_count} seated out of {total_students} total)" []]) []
      else
        let missing := expected_student_ids ∖ event_set in
        let unexpected := event_set ∖ expected_student_ids in
        Out (Return false) self
          (log0
           ++ [mkLog ERROR "Only {received}/{expected_count} students received '{event_name}' event" []]
           ++ log_if (negb (bool_decide (missing = ∅)))
                [mkLog ERROR "   Missing student_ids: {sorted(missing)}" (Py.sorted missing)]
           ++ log_if (negb (bool_decide (unexpected = ∅)))
                [mkLog WARNING "   Unexpected student_ids (received but not expected): {sorted(unexpected)}" (Py.sorted unexpected)]
           ++ log_if (Py.truthy_int total_students && (expected_count <? total)%Z)
                [mkLog WARNING "   Note: Only {expected_count}/{total_students} students chose seats" []]) []
  end.

(** The identities a log reports under a given format string. *)
Definition reported (f : string) (log : list LogRec) : gset string :=
  list_to_set (concat (ids <$> filter (λ r, fmt r = f) log)).

Definition fmt_missing : string := "   Missing student_ids: {sorted(missing)}".
Definition fmt_unexpected : string :=
  "   Unexpected student_ids (received but not expected): {sorted(unexpected)}".

End EventTracker.

(** ** Teacher *)

Module Teacher.

Record t := mk {
  api_url : string;
  access_token : string;
  room_id : string;
  collection_id : string;
  lesson_id : option string
}.

(** [Teacher(api_url, access_token, room_id, collection_id)] *)
Definition init (api_url access_token room_id collection_id : string) : t :=
  mk (Py.rstrip_slash api_url) access_token room_id collection_id None.

Definition set_lesson_id (v : option string) (self : t) : t :=
  mk (api_url self) (access_token self) (room_id self) (collection_id self) v.

(** The decoded body of a response to the teacher, as far as
    [data["data"][key]] looks into it: the body, and then what it holds
    under ["data"], is an object or a value of another type (a list, a
    string, a number, a boolean or [null]). *)
Abbreviation nested_body :=
  (Py.json (gmap string (Py.json (gmap string string)))).

(** [data["data"][key]]: subscripting a value that is not an object with
    a string raises [TypeError], a missing key raises [KeyError]. *)
Definition subscript2 (data : nested_body) (key : string) : res string :=
  match data with
  | Py.IsNot => Raise (TypeError "data")
  | Py.Is fields =>
      match fields !! "data" with
      | None => Raise (KeyError "data")
      | Some Py.IsNot => Raise (TypeError key)
      | Some (Py.Is inner) =>
          match inner !! key with
          | None => Raise (KeyError key)
          | Some v => Return v
          end
      end
  end.

Definition create_lesson (self : t) (reply : Http.reply nested_body)
    : outcome t (option string) :=
  let url := api_url self +:+ "/api/v3/rooms/" +:+ room_id self +:+ "/lessons" in
  let sent := [HttpRequest (Http.Request "POST" url (Some (access_token self)) Http.NoBody)] in
  let log0 := [mkLog INFO "Teacher creating lesson for room: {self.room_id}" [room_id self]] in
  let failure e :=
    Out (Return None) self
      (log0 ++ log_request_exception "Failed to create lesson: {e}" [] e) sent in
  match Http.checked reply with
  | inl e => failure e
  | inr response =>
      match Http.decoded response with
      | inl e => failure e
      | inr data =>
          match subscript2 data "lesson_id" with
          | Raise e => Out (Raise e) self log0 sent
          | Return v =>
              Out (Return (Some v)) (set_lesson_id (Some v) self)
                (log0 ++ [mkLog INFO "Lesson created successfully: {self.lesson_id}" [v]])
                sent
          end
      end
  end.

Definition create_batch_quizzes (self : t) (lesson_id : string)
    (reply : Http.reply nested_body) : outcome t (option string) :=
  let url := api_url self +:+ "/api/v3/lessons/" +:+ lesson_id +:+ "/quizzes/batch_quizzes" in
  let sent := [HttpRequest (Http.Request "POST" url (Some (access_token self))
                 (Http.QuizzesBody lesson_id (collection_id self)))] in
  let log0 := [mkLog INFO "Teacher creating batch quizzes for lesson: {lesson_id}" [lesson_id]] in
  let failure e :=
    Out (Return None) self
      (log0 ++ log_request_exception "Failed to create batch quizzes: {e}" [] e) sent in
  match Http.checked reply with
  | inl e => failure e
  | inr response =>
      match Http.decoded response with
      | inl e => failure e
      | inr data =>
          match subscript2 data "batch_quizzes_id" with
          | Raise e => Out (Raise e) self log0 sent
          | Return batch_quizzes_id =>
              Out (Return (Some batch_quizzes_id)) self
                (log0 ++ [mkLog INFO "Batch quizzes created successfully: {batch_quizzes_id}" [batch_quizzes_id]])
                sent
          end
      end
  end.

Definition update_batch_quiz_status {B} (self : t)
    (lesson_id batch_quizzes_id status : string) (reply : Http.reply B)
    : outcome t bool :=
  let url := api_url self +:+ "/api/v3/lessons/" +:+ lesson_id
             +:+ "/quizzes/batch_quizzes/" +:+ batch_quizzes_id in
  let sent := [HttpRequest (Http.Request "PUT" url (Some (access_token self))
                 (Http.StatusBody status))] in
  let log0 := [mkLog INFO "Teacher updating batch quiz status to: {status}" [status]] in
  match Http.checked reply with
  | inl e =>
      Out (Return false) self
        (log0 ++ log_request_exception "Failed to update batch quiz status: {e}" [] e) sent
  | inr _ =>
      Out (Return true) self
        (log0 ++ [mkLog INFO "Batch quiz status updated to {status}" [status]]) sent
  end.

Definition disclose_batch_quiz {B} (self : t)
    (lesson_id batch_quizzes_id : string) (reply : Http.reply B)
    : outcome t bool :=
  let url := api_url self +:+ "/api/v3/lessons/" +:+ lesson_id
             +:+ "/quizzes/batch_quizzes/" +:+ batch_quizzes_id +:+ "/disclose" in
  let sent := [HttpRequest (Http.Request "PUT" url (Some (access_token self)) Http.NoBody)] in
  let log0 := [mkLog INFO "Teacher disclosing batch quiz: {batch_quizzes_id}" [batch_quizzes_id]] in
  match Http.checked reply with
  | inl e =>
      Out (Return false) self
        (log0 ++ log_request_exception "Failed to disclose batch quiz: {e}" [] e) sent
  | inr _ =>
      Out (Return true) self (log0 ++ [mkLog INFO "Batch quiz disclosed" []]) sent
  end.

Definition add_student_points {B} (self : t) (lesson_id : string)
    (students : list (option string * Z)) (reply : Http.reply B)
    : outcome t bool :=
  let url := api_url self +:+ "/api/v3/lessons/" +:+ lesson_id +:+ "/batch_points" in
  let sent := [HttpRequest (Http.Request "PUT" url (Some (access_token self))
                 (Http.PointsBody students))] in
  let log0 := [mkLog INFO "Teacher adding points to {len(students)} students" []] in
  match Http.checked reply with
  | inl e =>
      Out (Return false) self
        (log0 ++ log_request_exception "Failed to add points: {e}" [] e) sent
  | inr _ =>
      Out (Return true) self (log0 ++ [mkLog INFO "Points added successfully" []]) sent
  end.

End Teacher.

(** ** Student *)

(** What [self.sio] reports when asked: [sio.connected] and
    [sio.get_sid(PARTICIPANT_NS)]. *)
Module Sio.
Record view := View { connected : bool; get_sid : option string }.

(** The payload of a pushed event, as the handlers use it: a JSON object,
    of which they read fields with [data.get], or a value of another type,
    on which [data.get] raises [AttributeError]. *)
Inductive payload :=
| Object (fields : gmap string string)
| NotObject.

(** The empty object [{}]. *)
Global Instance payload_empty : Empty payload := Object ∅.
End Sio.

Module Student.

Definition PARTICIPANT_NS : string := "/participant".

(** A quiz of the latest-batch-quiz response that is an object: what
    [quiz.get] gives for the three keys read.  [option_list] is absent, a
    value with a length, or a value without one (a number, a boolean or
    [null]). *)
Record quiz := Quiz {
  quiz_id : option string;
  quiz_type : option string;
  option_list : option (Py.json (list Z))
}.

(** What is found under ["quizzes"]: a sequence of quizzes, each an object
    or not, or a value that cannot be iterated. *)
Abbreviation quiz_list := (Py.json (list (Py.json quiz))).

(** The decoded body of the latest-batch-quiz response, as [quiz_data]
    keeps it: an object [{"data": {"quizzes": [...]}}], keys possibly
    absent and values possibly of another type, or a value that is not an
    object (a list, a string, a number or a boolean) with its truth
    value. *)
Inductive quiz_body :=
| Body (fields : gmap string (Py.json (gmap string quiz_list)))
| Other (truth : bool).

Record t := mk {
  student_number : Z;
  api_url : string;
  socket_url : string;
  device_id : string;
  sid : option string;
  student_id : option string;
  socket_token : option string;
  connected : bool;
  latest_batch_quizzes_id : option string;
  quiz_data : option quiz_body;
  lesson_id : option string;
  disconnect_reason : option string
}.

(** [Student(student_number, api_url, socket_url, event_tracker)]; the
    fresh [uuid4] is an argument, the tracker is shared and kept beside
    the students. *)
Definition init (student_number : Z) (api_url socket_url uuid : string) : t :=
  mk student_number (Py.rstrip_slash api_url) socket_url uuid
     None None None false None None None None.

Definition set_sid (v : option string) (s : t) : t :=
  mk (student_number s) (api_url s) (socket_url s) (device_id s)
     v (student_id s) (socket_token s) (connected s)
     (latest_batch_quizzes_id s) (quiz_data s) (lesson_id s) (disconnect_reason s).

Definition set_connected (v : bool) (s : t) : t :=
  mk (student_number s) (api_url s) (socket_url s) (device_id s)
     (sid s) (student_id s) (socket_token s) v
     (latest_batch_quizzes_id s) (quiz_data s) (lesson_id s) (disconnect_reason s).

Definition set_latest_batch_quizzes_id (v : option string) (s : t) : t :=
  mk (student_number s) (api_url s) (socket_url s) (device_id s)
     (sid s) (student_id s) (socket_token s) (connected s)
     v (quiz_data s) (lesson_id s) (disconnect_reason s).

Definition set_quiz_data (v : option quiz_body) (s : t) : t :=
  mk (student_number s) (api_url s) (socket_url s) (device_id s)
     (sid s) (student_id s) (socket_token s) (connected s)
     (latest_batch_quizzes_id s) v (lesson_id s) (disconnect_reason s).

Definition set_disconnect_reason (v : option string) (s : t) : t :=
  mk (student_number s) (api_url s) (socket_url s) (device_id s)
     (sid s) (student_id s) (socket_token s) (connected s)
     (latest_batch_quizzes_id s) (quiz_data s) (lesson_id s) v.

(** The three assignments of [choose_seat]. *)
Definition set_seat (id token lesson : option string) (s : t) : t :=
  mk (student_number s) (api_url s) (socket_url s) (device_id s)
     (sid s) id token (connected s)
     (latest_batch_quizzes_id s) (quiz_data s) lesson (disconnect_reason s).

(** *** Socket handlers *)

Definition join_lesson_data (lesson_id student_id socket_token : string)
    : gmap string string :=
  {[ "lesson_id" := lesson_id; "user_id" := student_id;
     "role" := "student"; "access_token" := socket_token ]}.

(** [on_connect]; [namespace_sid] is what [get_sid] returns after the
    0.1 s wait, [emit_error] the exception of [sio.emit], if it raises. *)
Definition on_connect (self : t) (namespace_sid : option string)
    (emit_error : option string) : outcome t unit :=
  let self1 := set_connected true self in
  if Py.truthy namespace_sid then
    let old_sid := sid self1 in
    let self2 := set_sid namespace_sid self1 in
    let log1 :=
      if Py.truthy old_sid && negb (bool_decide (old_sid = namespace_sid))
      then [mkLog INFO "Student {self.student_number} refreshed SID on reconnect: {old_sid} -> {namespace_sid}" []]
      else [mkLog INFO "Student {self.student_number} connected with SID: {self.sid} (namespace: {PARTICIPANT_NS})" []] in
    if Py.truthy (lesson_id self2) && Py.truthy (student_id self2)
       && Py.truthy (socket_token self2)
    then
      let emitted :=
        Emit "join_lesson"
          (join_lesson_data (default "" (lesson_id self2))
             (default "" (student_id self2)) (default "" (socket_token self2)))
          PARTICIPANT_NS in
      let log2 := [mkLog INFO "Student {self.student_id} emitting join_lesson on connect/reconnect" []] in
      match emit_error with
      | None =>
          Out (Return tt) self2
            (log1 ++ log2 ++ [mkLog INFO "Student {self.student_id} emitted join_lesson event on connect with SID: {self.sid}" []])
            [Sleep 100; emitted]
      | Some e =>
          Out (Return tt) self2
            (log1 ++ log2
             ++ [mkLog ERROR "Student {self.student_id} failed to emit join_lesson on connect: {e}" [e];
                 mkLog ERROR "{traceback.format_exc()}" []])
            [Sleep 100; emitted]
      end
    else Out (Return tt) self2 log1 [Sleep 100]
  else
    Out (Return tt) self1
      [mkLog WARNING "Student {self.student_number} connected but namespace sid is None - this might cause issues" []]
      [Sleep 100].

(** [on_disconnect], with its positional and its keyword arguments *)
Definition on_disconnect (self : t) (args : list (option string))
    (kwargs : gmap string (option string)) : outcome t unit :=
  let reason0 := match args with a :: _ => a | [] => None end in
  let reason :=
    if negb (Py.truthy reason0) && bool_decide (is_Some (kwargs !! "reason"))
    then default None (kwargs !! "reason") else reason0 in
  let self1 :=
    set_disconnect_reason
      (if Py.truthy reason then reason else Some "Unknown") self in
  let was_connected := connected self1 in
  let self2 := set_connected false self1 in
  Out (Return tt) self2
    (if was_connected then
       [mkLog WARNING "Student {self.student_number} DISCONNECTED (had SID: {self.sid})" [];
        mkLog WARNING "   Disconnect Reason: {self.disconnect_reason}"
          [default "" (disconnect_reason self2)];
        mkLog WARNING "   State: student_id={..}, socket_token={..}, lesson_id={..}" []]
     else [mkLog INFO "Student {self.student_id} disconnected (expected)" []])
    [].

Definition on_connect_error (self : t) (data : string) : outcome t unit :=
  Out (Return tt) self
    [mkLog ERROR "Student {self.student_number} connection error: {data}" [data]] [].

(** The acknowledgment a handler returns to the server. *)
Abbreviation ack := (gmap string (option string)).

Definition on_any_event (self : t) (event : string) : outcome t ack :=
  Out (Return {[ "status" := Some "received" ]}) self
    [mkLog DEBUG "Student {self.student_number} received event '{event}': {args}" [event]] [].

(** [if self.student_id: self.event_tracker.<kind>.add(self.student_id)] *)
Definition record_event (k : EventTracker.kind) (self : t)
    (tracker : EventTracker.t) : EventTracker.t :=
  if Py.truthy (student_id self)
  then EventTracker.add k (default "" (student_id self)) tracker
  else tracker.

Definition received_ack (self : t) : ack :=
  {[ "status" := Some "received"; "student_id" := student_id self ]}.

(** [on_batch_quizzes_created]: the identity is recorded before
    [data.get] is called. *)
Definition on_batch_quizzes_created (self : t) (tracker : EventTracker.t)
    (data : Sio.payload) : outcome (t * EventTracker.t) ack :=
  let tracker1 := record_event EventTracker.Created self tracker in
  match data with
  | Sio.NotObject => Out (Raise (AttributeError "get")) (self, tracker1) [] []
  | Sio.Object fields =>
      let self1 := set_latest_batch_quizzes_id (fields !! "batch_quizzes_id") self in
      Out (Return (received_ack self1)) (self1, tracker1)
        [mkLog INFO "Student {self.student_number} (ID: {self.student_id}) received batch_quizzes_created: {self.latest_batch_quizzes_id}" []] []
  end.

Definition on_batch_quizzes_finished (self : t) (tracker : EventTracker.t)
    (data : Sio.payload) : outcome (t * EventTracker.t) ack :=
  let tracker1 := record_event EventTracker.Finished self tracker in
  Out (Return (received_ack self)) (self, tracker1)
    [mkLog INFO "Student {self.student_number} (ID: {self.student_id}) received batch_quizzes_finished event" []] [].

Definition on_batch_quizzes_disclosed (self : t) (tracker : EventTracker.t)
    (data : Sio.payload) : outcome (t * EventTracker.t) ack :=
  let tracker1 := record_event EventTracker.Disclosed self tracker in
  Out (Return (received_ack self)) (self, tracker1)
    [mkLog INFO "Student {self.student_number} (ID: {self.student_id}) received batch_quizzes_disclosed event" []] [].

Definition on_batch_quizzes_closed (self : t) (tracker : EventTracker.t)
    (data : Sio.payload) : outcome (t * EventTracker.t) ack :=
  let tracker1 := record_event EventTracker.Closed self tracker in
  Out (Return (received_ack self)) (self, tracker1)
    [mkLog INFO "Student {self.student_number} (ID: {self.student_id}) received batch_quizzes_closed event" []] [].

(** [on_student_points]: the identity is recorded before [data.get] is
    called. *)
Definition on_student_points (self : t) (tracker : EventTracker.t)
    (data : Sio.payload) : outcome (t * EventTracker.t) ack :=
  let tracker1 := record_event EventTracker.Points self tracker in
  match data with
  | Sio.NotObject => Out (Raise (AttributeError "get")) (self, tracker1) [] []
  | Sio.Object fields =>
      let points := default "0" (fields !! "points") in
      Out (Return (<["points" := Some points]> (received_ack self))) (self, tracker1)
        [mkLog INFO "Student {self.student_number} (ID: {self.student_id}) received student_points: {points} points" []] []
  end.

(** What the socket library can call on a student: the handlers
    registered in [__init__], with their arguments. *)
Inductive socket_event :=
| Connect (namespace_sid : option string) (emit_error : option string)
| Disconnect (args : list (option string)) (kwargs : gmap string (option string))
| ConnectError (data : string)
| Pushed (k : EventTracker.kind) (data : Sio.payload)
| AnyOther (event : string).

(** The dispatch table of [self.sio.on(...)]. *)
Definition handle (ev : socket_event) (self : t) (tracker : EventTracker.t)
    : outcome (t * EventTracker.t) (option ack) :=
  let lift {A B} (f : A → B) (o : outcome t A) : outcome (t * EventTracker.t) B :=
    Out (match ret o with Return a => Return (f a) | Raise e => Raise e end)
        (after o, tracker) (logged o) (effects o) in
  let some (o : outcome (t * EventTracker.t) ack) : outcome (t * EventTracker.t) (option ack) :=
    Out (match ret o with Return a => Return (Some a) | Raise e => Raise e end)
        (after o) (logged o) (effects o) in
  match ev with
  | Connect namespace_sid emit_error =>
      lift (λ _, None) (on_connect self namespace_sid emit_error)
  | Disconnect args kwargs => lift (λ _, None) (on_disconnect self args kwargs)
  | ConnectError data => lift (λ _, None) (on_connect_error self data)
  | Pushed EventTracker.Created data => some (on_batch_quizzes_created self tracker data)
  | Pushed EventTracker.Finished data => some (on_batch_quizzes_finished self tracker data)
  | Pushed EventTracker.Disclosed data => some (on_batch_quizzes_disclosed self tracker data)
  | Pushed EventTracker.Closed data => some (on_batch_quizzes_closed self tracker data)
  | Pushed EventTracker.Points data => some (on_student_points self tracker data)
  | AnyOther event => lift Some (on_any_event self event)
  end.

(** *** Handlers run while a coroutine is suspended *)

Definition deliver (evs : list socket_event) (self : t) (tracker : EventTracker.t)
    : outcome (t * EventTracker.t) unit :=
  foldl (λ (acc : outcome (t * EventTracker.t) unit) ev,
           let o := handle ev (after acc).1 (after acc).2 in
           Out (Return tt) (after o) (logged acc ++ logged o) (effects acc ++ effects o))
        (Out (Return tt) (self, tracker) [] []) evs.

(** *** Operations *)

(** The polling loop of [connect_socket]: [fuel] polls are left, [j]
    suspensions have passed.  [rounds j] gives the handlers run during
    suspension [j] and what the library reports right after it. *)
Fixpoint connect_poll (rounds : nat → list socket_event * Sio.view)
    (fuel j : nat) (self : t) (tracker : EventTracker.t)
    : outcome (t * EventTracker.t) bool :=
  match fuel with
  | O =>
      Out (Return false) (self, tracker)
        [mkLog ERROR "Student {self.student_number} connection timeout" []] []
  | S fuel' =>
      let namespace_sid := Sio.get_sid (rounds j).2 in
      if connected self && Py.truthy namespace_sid then
        Out (Return true) (set_sid namespace_sid self, tracker)
          [mkLog INFO "Student {self.student_id} connected with SID: {self.sid} (namespace: {PARTICIPANT_NS})" []]
          []
      else
        let d := deliver (rounds (S j)).1 self tracker in
        let o := connect_poll rounds fuel' (S j) (after d).1 (after d).2 in
        Out (ret o) (after o) (logged d ++ logged o)
            (Sleep 100 :: effects d ++ effects o)
  end.

(** [connect_socket]; [connect_error] is the exception of
    [sio.connect], if it raises. *)
Definition connect_socket (self : t) (tracker : EventTracker.t)
    (connect_error : option string)
    (rounds : nat → list socket_event * Sio.view)
    : outcome (t * EventTracker.t) bool :=
  let base_url := Py.rstrip_slash (socket_url self) in
  let connect_url := base_url +:+ "?role=student&postman=true" in
  let log0 := [mkLog INFO "Student {self.student_number} connecting to: {connect_url}" [connect_url]] in
  match connect_error with
  | Some e =>
      Out (Return false) (self, tracker)
        (log0 ++ [mkLog ERROR "Student {self.student_number} connection error: {e}" [e];
                  mkLog ERROR "{traceback.format_exc()}" []])
        [SioConnect connect_url]
  | None =>
      let d := deliver (rounds O).1 self tracker in
      let o := connect_poll rounds 50 O (after d).1 (after d).2 in
      Out (ret o) (after o) (log0 ++ logged d ++ logged o)
          (SioConnect connect_url :: effects d ++ effects o)
  end.

(** [choose_seat]; [sio] is what the library reports on entry,
    [sio_settled] what it reports after the 0.5 s wait. *)
Definition choose_seat (self : t) (lesson : string) (sio : Sio.view)
    (reply : Http.reply (gmap string string)) (sio_settled : Sio.view)
    : outcome t bool :=
  let current_sid := if Sio.connected sio then Sio.get_sid sio else None in
  if negb (Py.truthy current_sid) then
    Out (Return false) self
      [mkLog ERROR "Student {self.student_number} has no SID" []] []
  else if negb (Sio.connected sio) then
    Out (Return false) self
      [mkLog ERROR "Student {self.student_number} socket disconnected before choosing seat" []] []
  else
    let url := api_url self +:+ "/api/v3/lessons/" +:+ lesson +:+ "/choose_seat" in
    let sent := [HttpRequest (Http.Request "POST" url None
                   (Http.SeatBody (student_number self) (default "" current_sid)
                      (device_id self) false))] in
    let log0 := [mkLog INFO "Student {self.student_id} choosing seat with SID: {current_sid}" []] in
    let failure e :=
      Out (Return false) self
        (log0 ++ log_request_exception "Student {self.student_number} failed to choose seat: {e}" [] e)
        sent in
    match Http.checked reply with
    | inl e => failure e
    | inr response =>
        match Http.decoded response with
        | inl e => failure e
        | inr data =>
            match data !! "student_id" with
            | None => Out (Raise (KeyError "student_id")) self log0 sent
            | Some id =>
                let self1 :=
                  set_seat (Some id) (data !! "socket_token") (Some lesson) self in
                Out (Return true) self1
                  (log0
                   ++ [mkLog INFO "Student {self.student_id} chose seat - ID: {self.student_id}, Seat: {data.get('seat_number')}, Token: {..}..." [id]]
                   ++ (if negb (Sio.connected sio_settled) then
                         [mkLog WARNING "Student {self.student_number} socket disconnected after choosing seat" [];
                          mkLog WARNING "   This might be normal if server expects reconnection with token" []]
                       else
                         [mkLog INFO "Student {self.student_number} socket still connected after choosing seat" []]))
                  (sent ++ [Sleep 500])
            end
        end
    end.

Definition get_latest_batch_quiz (self : t) (lesson : string)
    (reply : Http.reply quiz_body) : outcome t (option quiz_body) :=
  if negb (Py.truthy (student_id self)) then
    Out (Return None) self
      [mkLog ERROR "Student {self.student_number} has no student_id" []] []
  else
    let url := api_url self +:+ "/api/v3/lessons/" +:+ lesson +:+ "/students/"
               +:+ default "" (student_id self) +:+ "/batch_quizzes/latest" in
    let sent := [HttpRequest (Http.Request "GET" url None Http.NoBody)] in
    let failure e :=
      Out (Return None) self
        (log_request_exception "Student {self.student_number} failed to get batch quiz: {e}" [] e)
        sent in
    match Http.checked reply with
    | inl e => failure e
    | inr response =>
        match Http.decoded response with
        | inl e => failure e
        | inr data =>
            Out (Return (Some data)) (set_quiz_data (Some data) self)
              [mkLog INFO "Student {self.student_number} fetched latest batch quiz" []]
              sent
        end
    end.

(** The draws of [random] for one quiz: the value of
    [random.choice([1, 2])], of [random.randint] and of
    [random.sample]. *)
Record draw := Draw { choice : Z; randint : Z; sample : list Z }.

(** [len(option_list)], with [option_list = quiz.get("option_list", [])] *)
Definition len_option_list (q : quiz) : res Z :=
  match option_list q with
  | None => Return 0
  | Some (Py.Is l) => Return (Z.of_nat (length l))
  | Some Py.IsNot => Raise (TypeError "len")
  end.

(** The body of the loop of [submit_answers]: [answer_data] of one quiz.
    [quiz.get] raises [AttributeError] on a quiz that is not an object,
    [len] raises [TypeError] on a value without a length, and
    [random.randint(1, 0)] raises [ValueError]. *)
Definition answer_data (q : Py.json quiz) (d : draw) : res (list Z) :=
  match q with
  | Py.IsNot => Raise (AttributeError "get")
  | Py.Is q =>
      if bool_decide (quiz_type q = Some "TRUE_FALSE") then Return [choice d]
      else if bool_decide (quiz_type q = Some "SINGLE_SELECT") then
        match len_option_list q with
        | Raise e => Raise e
        | Return n =>
            if (1 <=? n)%Z then Return [randint d]
            else Raise (ValueError "empty range in randrange(1, 1)")
        end
      else if bool_decide (quiz_type q = Some "MULTIPLE_SELECT") then
        match len_option_list q with
        | Raise e => Raise e
        | Return n =>
            let num_selections := randint d in
            Return (if (0 <? num_selections)%Z then sample d else [])
        end
      else Return []
  end.

(** [quiz.get("quiz_id")] *)
Definition id_of (q : Py.json quiz) : option string :=
  match q with
  | Py.Is q => quiz_id q
  | Py.IsNot => None
  end.

(** The loop [for quiz in quizzes], from the quiz drawn with [draws j]
    on. *)
Fixpoint answers_of (quizzes : list (Py.json quiz)) (draws : nat → draw)
    (j : nat) : res (list (option string * list Z)) :=
  match quizzes with
  | [] => Return []
  | q :: rest =>
      match answer_data q (draws j) with
      | Raise e => Raise e
      | Return a =>
          match answers_of rest draws (S j) with
          | Raise e => Raise e
          | Return l => Return ((id_of q, a) :: l)
          end
      end
  end.

(** The answers drawn for what was read as [quizzes]; an exception of the
    reading leaves before the loop. *)
Definition answers_from (quizzes : res (list (Py.json quiz)))
    (draws : nat → draw) (j : nat) : res (list (option string * list Z)) :=
  match quizzes with
  | Raise e => Raise e
  | Return l => answers_of l draws j
  end.

(** Truth value of [self.quiz_data]: [None] and an empty dict are
    false. *)
Definition truthy_body (o : option quiz_body) : bool :=
  match o with
  | Some (Body fields) => negb (bool_decide (fields = ∅))
  | Some (Other truth) => truth
  | None => false
  end.

(** [quizzes = self.quiz_data.get("data", {}).get("quizzes", [])], up to
    the start of the loop over it: [.get] raises [AttributeError] on a
    value that is not an object, iterating a value that is no sequence
    raises [TypeError]. *)
Definition quizzes_of (self : t) : res (list (Py.json quiz)) :=
  match quiz_data self with
  | None | Some (Other _) => Raise (AttributeError "get")
  | Some (Body fields) =>
      match fields !! "data" with
      | None => Return []
      | Some Py.IsNot => Raise (AttributeError "get")
      | Some (Py.Is data) =>
          match data !! "quizzes" with
          | None => Return []
          | Some Py.IsNot => Raise (TypeError "not iterable")
          | Some (Py.Is quizzes) => Return quizzes
          end
      end
  end.

Definition submit_answers {B} (self : t) (batch_quizzes_id : string)
    (draws : nat → draw) (reply : Http.reply B) : outcome t bool :=
  if negb (Py.truthy (student_id self)) || negb (truthy_body (quiz_data self)) then
    Out (Return false) self
      [mkLog ERROR "Student {self.student_number} missing data for submission" []] []
  else
    let url := api_url self +:+ "/api/v3/quizzes/batch_quizzes/" +:+ batch_quizzes_id
               +:+ "/batch_quizzes_result" in
    let quizzes := quizzes_of self in
    match answers_from quizzes draws O with
    | Raise e => Out (Raise e) self [] []
    | Return answers =>
        let sent := [HttpRequest (Http.Request "PUT" url None
                       (Http.AnswersBody (student_id self) answers))] in
        match Http.checked reply with
        | inl e =>
            Out (Return false) self
              (log_request_exception "Student {self.student_number} failed to submit answers: {e}" [] e)
              sent
        | inr _ =>
            Out (Return true) self
              [mkLog INFO "Student {self.student_number} submitted answers" []] sent
        end
    end.

(** [disconnect]; [error] is the exception of [sio.disconnect], if it
    raises. *)
Definition disconnect (self : t) (sio : Sio.view) (error : option string)
    : outcome t unit :=
  if Sio.connected sio then
    match error with
    | Some e => Out (Raise (OtherException e)) self [] [SioDisconnect]
    | None => Out (Return tt) self [] [SioDisconnect]
    end
  else Out (Return tt) self [] [].

End Student.

(** ** run_simulation *)

Module Simulation.

Record config := Config {
  api_url : string;
  socket_url : string;
  room_id : string;
  teacher_token : string;
  collection_id : string;
  num_students : Z;
  (** in milliseconds *)
  wait_before_create_batch_quizzes : Z
}.

(** The objects of a run: the tracker shared by all students, the
    teacher, and the list [students]; a student is referred to by its
    position in that list. *)
Record World := mkWorld {
  event_tracker : EventTracker.t;
  teacher : Teacher.t;
  students : list Student.t
}.

Definition set_tracker (v : EventTracker.t) (w : World) : World :=
  mkWorld v (teacher w) (students w).
Definition set_teacher (v : Teacher.t) (w : World) : World :=
  mkWorld (event_tracker w) v (students w).
Definition set_students (v : list Student.t) (w : World) : World :=
  mkWorld (event_tracker w) (teacher w) v.

(** The places where [run_simulation] is suspended and socket handlers
    may run. *)
Inductive await_point :=
| After_lesson
| Before_seats
| Seats_gathered (i : Z)
| Between_batches (i : Z)
| After_seats
| Before_batch_quizzes
| Wait_before_batch_quizzes
| After_batch_quizzes
| Quizzes_gathered
| After_quizzes
| Answers_gathered
| After_answers
| After_finish
| After_disclose
| After_close
| After_points
| Disconnects_gathered.

(** Everything outside the program. *)
Record Env := mkEnv {
  uuid : Z → string;
  lesson_reply : Http.reply Teacher.nested_body;
  connect_error : nat → option string;
  connect_rounds : nat → nat → list Student.socket_event * Sio.view;
  seat_sio : nat → Sio.view;
  seat_reply : nat → Http.reply (gmap string string);
  seat_settled : nat → Sio.view;
  batch_reply : Http.reply Teacher.nested_body;
  quiz_reply : nat → Http.reply Student.quiz_body;
  draws : nat → nat → Student.draw;
  answers_reply : nat → Http.reply unit;
  finish_reply : Http.reply unit;
  disclose_reply : Http.reply unit;
  close_reply : Http.reply unit;
  points : nat → Z;
  points_reply : Http.reply unit;
  disconnect_sio : nat → Sio.view;
  disconnect_error : nat → option string;
  during : await_point → list (nat * Student.socket_event)
}.

Inductive op :=
| Create_lesson
| Connect_socket
| Choose_seat
| Create_batch_quizzes
| Get_latest_batch_quiz
| Submit_answers
| Update_batch_quiz_status (status : string)
| Disclose_batch_quiz
| Add_student_points
| Disconnect.

(** What the run does, in order. *)
Inductive step :=
| Sleeping (ms : Z)
| Spawn (student_number : Z)
| Call (o : op)
| Gather (o : op) (members : list nat)
| Wire (o : op) (who : option nat) (e : effect)
| Handler (who : nat) (e : effect)
| Verify (event_name : string) (expected : gset string) (total : option Z)
| Summary.

(** How a piece of [run_simulation] ends: it goes on, it executes
    [return], or an exception leaves it. *)
Inductive flow (A : Type) :=
| Next (a : A)
| Returned
| Raised (e : exn).
Arguments Next {A} a.
Arguments Returned {A}.
Arguments Raised {A} e.

(** Each step is kept with the world in which it was taken. *)
Record run (A : Type) := Run {
  ending : flow A;
  world : World;
  log : list LogRec;
  trace : list (step * World)
}.
Arguments Run {A} ending world log trace.
Arguments ending {A} r.
Arguments world {A} r.
Arguments log {A} r.
Arguments trace {A} r.

Definition Sim (A : Type) : Type := World → run A.

Definition pure {A} (a : A) : Sim A := λ w, Run (Next a) w [] [].

Definition bind {A B} (m : Sim A) (k : A → Sim B) : Sim B :=
  λ w,
    let r := m w in
    match ending r with
    | Next a =>
        let r' := k a (world r) in
        Run (ending r') (world r') (log r ++ log r') (trace r ++ trace r')
    | Returned => Run Returned (world r) (log r) (trace r)
    | Raised e => Run (Raised e) (world r) (log r) (trace r)
    end.

Global Instance sim_ret : MRet Sim := @pure.
Global Instance sim_bind : MBind Sim := λ A B k m, bind m k.

Definition return_ {A} : Sim A := λ w, Run Returned w [] [].
Definition raise {A} (e : exn) : Sim A := λ w, Run (Raised e) w [] [].
Definition gets {A} (f : World → A) : Sim A := λ w, Run (Next (f w)) w [] [].
Definition modify (f : World → World) : Sim unit := λ w, Run (Next tt) (f w) [] [].
Definition logs (l : list LogRec) : Sim unit := λ w, Run (Next tt) w l [].
Definition info (f : string) : Sim unit := logs [mkLog INFO f []].
Definition does (st : step) : Sim unit := λ w, Run (Next tt) w [] [(st, w)].
Definition when (b : bool) (m : Sim unit) : Sim unit := if b then m else pure tt.

(** One handler call by the socket library, on the student at position
    [i]. *)
Definition dispatch (i : nat) (ev : Student.socket_event) : Sim unit :=
  λ w,
    match students w !! i with
    | None => Run (Next tt) w [] []
    | Some s =>
        let o := Student.handle ev s (event_tracker w) in
        Run (Next tt)
          (mkWorld (after o).2 (teacher w) (<[i := (after o).1]> (students w)))
          (logged o) ((λ e, (Handler i e, w)) <$> effects o)
    end.

Fixpoint tick (evs : list (nat * Student.socket_event)) : Sim unit :=
  match evs with
  | [] => pure tt
  | (i, ev) :: rest => dispatch i ev;; tick rest
  end.

(** [await asyncio.sleep(ms / 1000)] *)
Definition sleep (env : Env) (ms : Z) (pt : await_point) : Sim unit :=
  does (Sleeping ms);; tick (during env pt).

(** A method call on the teacher: an exception leaves
    [run_simulation]. *)
Definition teacher_call {A} (o : op) (f : Teacher.t → outcome Teacher.t A)
    : Sim A :=
  λ w,
    let r := f (teacher w) in
    Run (match ret r with Return a => Next a | Raise e => Raised e end)
        (set_teacher (after r) w) (logged r)
        ((Call o, w) :: ((λ e, (Wire o None e, w)) <$> effects r)).

(** A task of [asyncio.gather(..., return_exceptions=True)] on the
    student at position [i]: an exception becomes the task's result. *)
Definition student_task {A} (o : op) (i : nat)
    (f : Student.t → outcome Student.t A) : Sim (res A) :=
  λ w,
    match students w !! i with
    | None => Run (Next (Raise (OtherException "IndexError"))) w [] []
    | Some s =>
        let r := f s in
        Run (Next (ret r)) (set_students (<[i := after r]> (students w)) w)
            (logged r) ((λ e, (Wire o (Some i) e, w)) <$> effects r)
    end.

(** The same for a task whose handlers reach the tracker. *)
Definition student_task_tracker {A} (o : op) (i : nat)
    (f : Student.t → EventTracker.t → outcome (Student.t * EventTracker.t) A)
    : Sim (res A) :=
  λ w,
    match students w !! i with
    | None => Run (Next (Raise (OtherException "IndexError"))) w [] []
    | Some s =>
        let r := f s (event_tracker w) in
        Run (Next (ret r))
            (mkWorld (after r).2 (teacher w) (<[i := (after r).1]> (students w)))
            (logged r) ((λ e, (Wire o (Some i) e, w)) <$> effects r)
    end.

Fixpoint tasks {A} (task : nat → Sim (res A)) (members : list nat)
    : Sim (list (res A)) :=
  match members with
  | [] => pure []
  | i :: rest =>
      r ← task i;
      rs ← tasks task rest;
      pure (r :: rs)
  end.

Definition gather {A} (o : op) (members : list nat)
    (task : nat → Sim (res A)) : Sim (list (res A)) :=
  does (Gather o members);; tasks task members.

(** [sum(1 for result in results if result is True)] *)
Definition is_True (r : res bool) : bool :=
  match r with Return true => true | _ => false end.

Definition count_true (results : list (res bool)) : Z :=
  Z.of_nat (length (filter (λ r, is_True r = true) results)).

(** The positions of the students that satisfy [p], in list order:
    [[s for s in students if p(s)]]. *)
Definition positions (p : Student.t → bool) (l : list Student.t) : list nat :=
  (λ x, x.1) <$> filter (λ x, p x.2 = true) (imap (λ i s, (i, s)) l).

(** [{s.student_id for s in students if s.student_id}] *)
Definition seated_ids (l : list Student.t) : gset string :=
  list_to_set
    (omap (λ s, if Py.truthy (Student.student_id s)
                then Student.student_id s else None) l).

(** A method call on the tracker. *)
Definition tracker_call {A} (f : EventTracker.t → outcome EventTracker.t A)
    : Sim A :=
  λ w,
    let r := f (event_tracker w) in
    Run (match ret r with Return a => Next a | Raise e => Raised e end)
        (set_tracker (after r) w) (logged r) [].

(** [event_tracker.assert_all_received(event_name, expected_student_ids,
    total_students)] *)
Definition assert_all_received (event_name : string)
    (expected_student_ids : gset string) (total_students : option Z)
    : Sim bool :=
  does (Verify event_name expected_student_ids total_students);;
  tracker_call (λ t, EventTracker.assert_all_received t event_name
                       expected_student_ids total_students).

Definition batch_size : Z := 10.

(** The loop [for i in range(0, len(connected_students), batch_size)],
    on the values of [i] still to come. *)
Fixpoint seat_batches (env : Env) (lesson_id : string)
    (connected_students : list nat) (starts : list Z) (seated_count : Z)
    : Sim Z :=
  match starts with
  | [] => pure seated_count
  | i :: rest =>
      let batch := Py.slice connected_students i (i + batch_size) in
      let batch_num := i / batch_size + 1 in
      logs [LogLine INFO "Processing batch {batch_num} ({len(batch)} students)..." []
              [batch_num; Z.of_nat (length batch)]];;
      seat_results ←
        gather Choose_seat batch
          (λ j, student_task Choose_seat j
                  (λ s, Student.choose_seat s lesson_id (seat_sio env j)
                          (seat_reply env j) (seat_settled env j)));
      tick (during env (Seats_gathered i));;
      let batch_seated := count_true seat_results in
      let seated_count := seated_count + batch_seated in
      logs [LogLine INFO "  Batch {batch_num}: {batch_seated}/{len(batch)} students seated" []
              [batch_num; batch_seated; Z.of_nat (length batch)]];;
      when (i + batch_size <? Z.of_nat (length connected_students))%Z
        (sleep env 1000 (Between_batches i));;
      seat_batches env lesson_id connected_students rest seated_count
  end.

Definition choose_seats (env : Env) (lesson_id : string)
    (connected_students : list nat) : Sim Z :=
  seat_batches env lesson_id connected_students
    (Py.range 0 (Z.of_nat (length connected_students)) batch_size) 0.

(** [students.append(Student(i, api_url, socket_url, event_tracker))] *)
Definition spawn (cfg : config) (env : Env) (i : Z) : Sim unit :=
  does (Spawn i);;
  modify (λ w, set_students
                 (students w ++ [Student.init i (api_url cfg) (socket_url cfg) (uuid env i)])
                 w).

Fixpoint spawn_all (cfg : config) (env : Env) (numbers : list Z) : Sim unit :=
  match numbers with
  | [] => pure tt
  | i :: rest => spawn cfg env i;; spawn_all cfg env rest
  end.

(** The world before the first statement: [EventTracker()],
    [Teacher(...)], no students. *)
Definition initial (cfg : config) : World :=
  mkWorld EventTracker.new
    (Teacher.init (api_url cfg) (teacher_token cfg) (room_id cfg) (collection_id cfg))
    [].

Definition has_id (s : Student.t) : bool := Py.truthy (Student.student_id s).

(** The warnings about students without a seat, after the loop. *)
Definition log_not_seated (cfg : config) : Sim unit :=
  seated_student_numbers ←
    gets (λ w, Student.student_number <$> filter (λ s, has_id s = true) (students w));
  let not_seated :=
    filter (λ n, n ∉ seated_student_numbers) (Py.range 1 (num_students cfg + 1) 1) in
  when (negb (bool_decide (not_seated = [])))
    (logs (LogLine WARNING "Students who didn't choose seats: {sorted(not_seated)}" [] not_seated
           :: ((λ n, LogLine WARNING "   Student {student_num}: {', '.join(status) if status else 'unknown reason'}" [] [n])
                 <$> not_seated))).

Definition run_simulation (cfg : config) (env : Env) : Sim unit :=
  logs [mkLog INFO "Starting Comprehensive Classroom Simulation"
          [api_url cfg; socket_url cfg; room_id cfg]];;
  info "Step 1: Teacher creating lesson...";;
  lesson_id ← teacher_call Create_lesson
                (λ t, Teacher.create_lesson t (lesson_reply env));
  if negb (Py.truthy lesson_id) then
    logs [mkLog ERROR "Failed to create lesson. Aborting simulation." []];;
    return_
  else
  let lesson_id := default "" lesson_id in
  sleep env 2000 After_lesson;;

  info "Step 2: Connecting {num_students} students...";;
  spawn_all cfg env (Py.range 1 (num_students cfg + 1) 1);;
  everyone ← gets (λ w, seq 0 (length (students w)));
  connect_results ←
    gather Connect_socket everyone
      (λ i, student_task_tracker Connect_socket i
              (λ s t, Student.connect_socket s t (connect_error env i)
                        (connect_rounds env i)));
  let connected_count := count_true connect_results in
  logs [LogLine INFO "Connected: {connected_count}/{num_students} students" []
          [connected_count; num_students cfg]];;
  if (connected_count =? 0)%Z then
    logs [mkLog ERROR "No students connected. Check socket URL and configuration." []];;
    return_
  else
  sleep env 2000 Before_seats;;

  info "Step 3: Students choosing seats...";;
  connected_students ← gets (λ w, positions Student.connected (students w));
  logs [LogLine INFO "Students still connected before seat selection: {len(connected_students)}/{len(students)}" []
          [Z.of_nat (length connected_students)]];;
  seated_count ← choose_seats env lesson_id connected_students;
  logs [LogLine INFO "Total seated: {seated_count}/{len(connected_students)} students (out of {num_students} total)" []
          [seated_count; Z.of_nat (length connected_students); num_students cfg]];;
  log_not_seated cfg;;
  sleep env 2000 After_seats;;
  still_connected ←
    gets (λ w, Z.of_nat (length (filter (λ s, Student.connected s = true) (students w))));
  logs [LogLine INFO "Students still connected after seat selection: {still_connected}/{len(students)}" []
          [still_connected]];;
  when (still_connected <? seated_count)%Z
    (disconnected_after_seat ←
       gets (λ w, Student.student_number
                    <$> filter (λ s, has_id s && negb (Student.connected s) = true) (students w));
     logs (LogLine WARNING "{seated_count - still_connected} students disconnected after choosing seat" []
             [seated_count - still_connected]
           :: log_if (negb (bool_decide (disconnected_after_seat = [])))
                [LogLine WARNING "   Disconnected students (had seat): {sorted(disconnected_after_seat)}" []
                   disconnected_after_seat]));;
  sleep env 2000 Before_batch_quizzes;;
  when (0 <? wait_before_create_batch_quizzes cfg)%Z
    (info "Waiting {wait_before_create_batch_quizzes}s before teacher creates batch quizzes...";;
     sleep env (wait_before_create_batch_quizzes cfg) Wait_before_batch_quizzes);;

  info "Step 4: Teacher creating batch quizzes...";;
  batch_quizzes_id ← teacher_call Create_batch_quizzes
                       (λ t, Teacher.create_batch_quizzes t lesson_id (batch_reply env));
  if negb (Py.truthy batch_quizzes_id) then
    logs [mkLog ERROR "Failed to create batch quizzes. Aborting." []];;
    return_
  else
  let batch_quizzes_id := default "" batch_quizzes_id in
  sleep env 3000 After_batch_quizzes;;
  seated_student_ids ← gets (λ w, seated_ids (students w));
  assert_all_received "batch_quizzes_created" seated_student_ids
    (Some (num_students cfg));;

  info "Step 5: Students fetching quiz and submitting answers...";;
  with_id ← gets (λ w, positions has_id (students w));
  gather Get_latest_batch_quiz with_id
    (λ i, student_task Get_latest_batch_quiz i
            (λ s, Student.get_latest_batch_quiz s lesson_id (quiz_reply env i)));;
  tick (during env Quizzes_gathered);;
  sleep env 1000 After_quizzes;;
  with_quiz ←
    gets (λ w, positions (λ s, Student.truthy_body (Student.quiz_data s)) (students w));
  submit_results ←
    gather Submit_answers with_quiz
      (λ i, student_task Submit_answers i
              (λ s, Student.submit_answers s batch_quizzes_id (draws env i)
                      (answers_reply env i)));
  tick (during env Answers_gathered);;
  let submitted_count := count_true submit_results in
  logs [LogLine INFO "Submitted: {submitted_count} students" [] [submitted_count]];;
  sleep env 2000 After_answers;;

  info "Step 6: Teacher finishing quiz...";;
  teacher_call (Update_batch_quiz_status "FINISH")
    (λ t, Teacher.update_batch_quiz_status t lesson_id batch_quizzes_id "FINISH"
            (finish_reply env));;
  sleep env 3000 After_finish;;
  seated_student_ids ← gets (λ w, seated_ids (students w));
  assert_all_received "batch_quizzes_finished" seated_student_ids
    (Some (num_students cfg));;

  info "Step 7: Teacher disclosing quiz answers...";;
  teacher_call Disclose_batch_quiz
    (λ t, Teacher.disclose_batch_quiz t lesson_id batch_quizzes_id (disclose_reply env));;
  sleep env 3000 After_disclose;;
  seated_student_ids ← gets (λ w, seated_ids (students w));
  assert_all_received "batch_quizzes_disclosed" seated_student_ids
    (Some (num_students cfg));;

  info "Step 8: Teacher closing quiz...";;
  teacher_call (Update_batch_quiz_status "CLOSE")
    (λ t, Teacher.update_batch_quiz_status t lesson_id batch_quizzes_id "CLOSE"
            (close_reply env));;
  sleep env 3000 After_close;;
  seated_student_ids ← gets (λ w, seated_ids (students w));
  assert_all_received "batch_quizzes_closed" seated_student_ids
    (Some (num_students cfg));;

  info "Step 9: Teacher adding points to students...";;
  student_points ←
    gets (λ w, (λ x, (Student.student_id x.2, points env x.1))
                 <$> filter (λ x, has_id x.2 = true) (imap (λ i s, (i, s)) (students w)));
  teacher_call Add_student_points
    (λ t, Teacher.add_student_points t lesson_id student_points (points_reply env));;
  sleep env 3000 After_points;;
  seated_student_ids ← gets (λ w, seated_ids (students w));
  assert_all_received "student_points" seated_student_ids
    (Some (num_students cfg));;

  info "Step 10: Disconnecting students...";;
  everyone ← gets (λ w, seq 0 (length (students w)));
  gather Disconnect everyone
    (λ i, student_task Disconnect i
            (λ s, Student.disconnect s (disconnect_sio env i) (disconnect_error env i)));;
  tick (during env Disconnects_gathered);;

  does Summary;;
  tracker ← gets event_tracker;
  logs [mkLog INFO "Simulation Completed!" [lesson_id; batch_quizzes_id];
        LogLine INFO "Students connected: {connected_count}/{num_students}" [] [connected_count];
        LogLine INFO "Students seated: {seated_count}/{num_students}" [] [seated_count];
        LogLine INFO "Students submitted answers: {submitted_count}/{num_students}" [] [submitted_count];
        LogLine INFO "  batch_quizzes_created:  {len(event_tracker.batch_quizzes_created)}/{seated_count}" []
          [Z.of_nat (size (EventTracker.batch_quizzes_created tracker))];
        LogLine INFO "  batch_quizzes_finished: {len(event_tracker.batch_quizzes_finished)}/{seated_count}" []
          [Z.of_nat (size (EventTracker.batch_quizzes_finished tracker))];
        LogLine INFO "  batch_quizzes_disclosed: {len(event_tracker.batch_quizzes_disclosed)}/{seated_count}" []
          [Z.of_nat (size (EventTracker.batch_quizzes_disclosed tracker))];
        LogLine INFO "  batch_quizzes_closed:   {len(event_tracker.batch_quizzes_closed)}/{seated_count}" []
          [Z.of_nat (size (EventTracker.batch_quizzes_closed tracker))];
        LogLine INFO "  student_points:         {len(event_tracker.student_points)}/{seated_count}" []
          [Z.of_nat (size (EventTracker.student_points tracker))]].

(** A whole run: [asyncio.run(run_simulation(...))]. *)
Definition simulate (cfg : config) (env : Env) : run unit :=
  run_simulation cfg env (initial cfg).

End Simulation.

(** ** Vocabulary of the properties *)

Module Vocabulary.

Import Simulation.

(** A statement about a piece of the run started in a world that satisfies
    [Pre]: every step it takes, with the world in which it is taken,
    satisfies [P], and if it goes on, its value and the world it leaves
    satisfy [Post]. *)
Definition holds {A} (Pre : World → Prop) (m : Sim A)
    (P : step * World → Prop) (Post : A → World → Prop) : Prop :=
  ∀ w, Pre w →
    Forall P (trace (m w))
    ∧ ∀ a, ending (m w) = Next a → Post a (world (m w)).

(** Steps whose content alone decides [P]. *)
Definition always (P : step * World → Prop) (st : step) : Prop :=
  ∀ w, P (st, w).

(** The order of the operations in a run. *)
Definition op_phase (o : op) : nat :=
  match o with
  | Create_lesson => 1
  | Connect_socket => 2
  | Choose_seat => 3
  | Create_batch_quizzes => 4
  | Get_latest_batch_quiz => 5
  | Submit_answers => 6
  | Update_batch_quiz_status _ => 7
  | Disclose_batch_quiz => 8
  | Add_student_points => 9
  | Disconnect => 10
  end%nat.

(** The steps of the first operation: the call that creates the lesson
    and its request. *)
Definition lesson_step (st : step) : bool :=
  match st with
  | Call Create_lesson | Wire Create_lesson None _ => true
  | _ => false
  end.

(** The steps a run can take up to and including the operations of phase
    [k]; verifications and the summary come after the fourth. *)
Definition upto (k : nat) (st : step) : bool :=
  match st with
  | Call o | Gather o _ | Wire o _ _ => (op_phase o <=? k)%nat
  | Verify _ _ _ | Summary => (5 <=? k)%nat
  | Sleeping _ | Spawn _ | Handler _ _ => true
  end.

(** A verification is given the identities of the students seated in the
    world in which it is made, and the size of the population. *)
Definition verifies_seated (cfg : config) (x : step * World) : Prop :=
  match x.1 with
  | Verify _ expected total =>
      expected = seated_ids (students x.2) ∧ total = Some (num_students cfg)
  | _ => True
  end.

(** The student [Student(i + 1, ...)] as [run_simulation] creates it. *)
Definition fresh (cfg : config) (env : Env) (i : nat) : Student.t :=
  Student.init (Z.of_nat i + 1) (api_url cfg) (socket_url cfg)
    (uuid env (Z.of_nat i + 1)).

(** Whether the [connect_socket] of the student at position [i] returns
    [True] in the environment [env]. *)
Definition connects (cfg : config) (env : Env) (i : nat) : bool :=
  is_True (ret (Student.connect_socket (fresh cfg env i) EventTracker.new
                  (connect_error env i) (connect_rounds env i))).


(** The rhythm of the seat phase: the gathers of [choose_seat] and the
    sleeps of [run_simulation] itself, in order. *)
Inductive beat :=
| Batch (members : list nat)
| Pause (ms : Z).

Definition beat_of (x : step * World) : option beat :=
  match x.1 with
  | Gather Choose_seat members => Some (Batch members)
  | Sleeping ms => Some (Pause ms)
  | _ => None
  end.

Definition rhythm {A} (r : run A) : list beat := omap beat_of (trace r).

Definition batches (l : list beat) : list (list nat) :=
  omap (λ b, match b with Batch members => Some members | Pause _ => None end) l.

(** What the loop of the seat phase does on one value of [i]: a gather
    on the slice, and a sleep of one second if the next slice starts
    inside the list. *)
Definition round (connected_students : list nat) (i : Z) : list beat :=
  Batch (Py.slice connected_students i (i + batch_size))
  :: (if (i + batch_size <? Z.of_nat (length connected_students))%Z
      then [Pause 1000] else []).

(** The slice [l[10 * j : 10 * j + 10]]. *)
Definition chunk (l : list nat) (j : nat) : list nat := take 10 (drop (10 * j) l).

(** [sep] between any two neighbours of [l], and nowhere else. *)
Fixpoint between {A} (sep : A) (l : list A) : list A :=
  match l with
  | [] => []
  | x :: rest =>
      match rest with
      | [] => [x]
      | _ => x :: sep :: between sep rest
      end
  end.

(** Every identity in the tracker is the identity of a student of the
    run. *)
Definition tracked_are_seated (w : World) : Prop :=
  ∀ k id, id ∈ EventTracker.field (event_tracker w) k →
    ∃ s, s ∈ students w ∧ Student.student_id s = Some id.

(** The tracker of the example of the specification: A, B and D have
    received the event. *)
Definition tracker_ABD (k : EventTracker.kind) : EventTracker.t :=
  EventTracker.add k "A" (EventTracker.add k "B" (EventTracker.add k "D" EventTracker.new)).

(** A student that has claimed a slot. *)
Definition seated_student : Student.t :=
  Student.set_connected true
    (Student.set_seat (Some "id-1") (Some "token-1") (Some "lesson-1")
       (Student.init 1 "http://api" "http://socket" "device-1")).

(** The call fails inside the [requests] library: no response, or a
    response with a 4xx or 5xx status. *)
Definition refused {B} (reply : Http.reply B) : Prop :=
  ∃ e, Http.checked reply = inl e.

(** The same, or the body of the response is not JSON. *)
Definition unreadable {B} (reply : Http.reply B) : Prop :=
  refused reply ∨ ∃ r, Http.checked reply = inr r ∧ Http.json r = None.

Definition logs_error (l : list LogRec) : Prop := Exists (λ r, lvl r = ERROR) l.
Definition logs_warning (l : list LogRec) : Prop := Exists (λ r, lvl r = WARNING) l.


Definition ok_reply {B} (body : B) : Http.reply B :=
  Http.Replied (Http.Response 200 "OK" (Some body)).

Definition some_teacher : Teacher.t :=
  Teacher.init "http://api/" "teacher-token" "room-1" "collection-1".

(** The identities of the students whose [student_id] is not [None]. *)
Definition nonnull_ids (l : list Student.t) : gset string :=
  list_to_set (omap Student.student_id l).

(** Example runs.  [tag i] names the student at position [i]. *)
Definition tag (i : nat) : string :=
  String (Ascii.ascii_of_nat (97 + i)) EmptyString.

Definition classroom (n : Z) : config :=
  Config "http://api/" "http://socket/" "room-1" "teacher-token" "collection-1" n 0.

(** An environment in which every call succeeds, the students for which
    [online] holds connect at once, a student gets the identity [seat i],
    and every seated student is pushed each event in time. *)
Definition example_env (lesson batch : Http.reply Teacher.nested_body)
    (online : nat → bool) (seat : nat → string) (n : nat) : Env :=
  let everyone (k : EventTracker.kind) := (λ i, (i, Student.Pushed k ∅)) <$> seq 0 n in
  {| uuid := λ i, "device";
     lesson_reply := lesson;
     connect_error := λ _, None;
     connect_rounds := λ i j,
       if online i then
         (match j with
          | O => [Student.Connect (Some ("sid-" +:+ tag i)) None]
          | _ => []
          end, Sio.View true (Some ("sid-" +:+ tag i)))
       else ([], Sio.View false None);
     seat_sio := λ i, Sio.View true (Some ("sid-" +:+ tag i));
     seat_reply := λ i,
       ok_reply {[ "student_id" := seat i; "socket_token" := "token-" +:+ tag i ]};
     seat_settled := λ i, Sio.View true (Some ("sid-" +:+ tag i));
     batch_reply := batch;
     quiz_reply := λ _,
       ok_reply (Student.Body {[ "data" := Py.Is {[ "quizzes" := Py.Is
         [Py.Is (Student.Quiz (Some "q1") (Some "TRUE_FALSE") (Some (Py.Is [1; 2])));
          Py.Is (Student.Quiz (Some "q2") (Some "SINGLE_SELECT") (Some (Py.Is [1; 2; 3])));
          Py.Is (Student.Quiz (Some "q3") (Some "MULTIPLE_SELECT")
                   (Some (Py.Is [1; 2; 3; 4])))] ]} ]});
     draws := λ _ _, Student.Draw 1 2 [1; 3];
     answers_reply := λ _, ok_reply ();
     finish_reply := ok_reply ();
     disclose_reply := ok_reply ();
     close_reply := ok_reply ();
     points := λ _, 15;
     points_reply := ok_reply ();
     disconnect_sio := λ i, Sio.View true (Some ("sid-" +:+ tag i));
     disconnect_error := λ _, None;
     during := λ pt,
       match pt with
       | After_batch_quizzes => everyone EventTracker.Created
       | After_finish => everyone EventTracker.Finished
       | After_disclose => everyone EventTracker.Disclosed
       | After_close => everyone EventTracker.Closed
       | After_points => everyone EventTracker.Points
       | _ => []
       end |}.

Definition lesson_ok : Http.reply Teacher.nested_body :=
  ok_reply (Py.Is {[ "data" := Py.Is {[ "lesson_id" := "lesson-1" ]} ]}).
Definition batch_ok : Http.reply Teacher.nested_body :=
  ok_reply (Py.Is {[ "data" := Py.Is {[ "batch_quizzes_id" := "batch-1" ]} ]}).

(** The steps of a run, without the worlds. *)
Definition steps {A} (r : run A) : list step := (λ x, x.1) <$> trace r.

(** For each verification of a run: the event name, how many identities
    were expected, and whether the expected set is the set of all
    non-null identities of that moment. *)
Definition verifications {A} (r : run A) : list (string * nat * bool) :=
  omap (λ x, match x.1 with
             | Verify event_name expected _ =>
                 Some (event_name, size expected,
                       bool_decide (expected = nonnull_ids (students x.2)))
             | _ => None
             end) (trace r).

(** The student and the tracker as poll [j] of [connect_socket] finds
    them: after the handlers run during [sio.connect] and during the first
    [j] suspensions of the loop. *)
Fixpoint at_poll (rounds : nat → list Student.socket_event * Sio.view)
    (self : Student.t) (tracker : EventTracker.t) (j : nat)
    : Student.t * EventTracker.t :=
  match j with
  | O => after (Student.deliver (rounds O).1 self tracker)
  | S j' =>
      let st := at_poll rounds self tracker j' in
      after (Student.deliver (rounds (S j')).1 st.1 st.2)
  end.

(** Poll [j] finds the student connected and the library has a namespace
    sid for it. *)
Definition poll_succeeds (rounds : nat → list Student.socket_event * Sio.view)
    (self : Student.t) (tracker : EventTracker.t) (j : nat) : bool :=
  Student.connected (at_poll rounds self tracker j).1
  && Py.truthy (Sio.get_sid (rounds j).2).

(** A quiz on which the loop of [submit_answers] raises: it is no object
    ([quiz.get]), it asks for a selection among options that have no
    length ([len(option_list)]), or for a single selection among no
    options ([random.randint(1, 0)]). *)
Definition unanswerable (q : Py.json Student.quiz) : Prop :=
  match q with
  | Py.IsNot => True
  | Py.Is q =>
      (Student.quiz_type q = Some "SINGLE_SELECT"
       ∨ Student.quiz_type q = Some "MULTIPLE_SELECT")
      ∧ Student.option_list q = Some Py.IsNot
      ∨ Student.quiz_type q = Some "SINGLE_SELECT"
        ∧ Student.len_option_list q = Return 0
  end.

(** A single selection among no options. *)
Definition empty_choice (q : Py.json Student.quiz) : Prop :=
  ∃ q', q = Py.Is q'
        ∧ Student.quiz_type q' = Some "SINGLE_SELECT"
        ∧ Student.len_option_list q' = Return 0.

(** A quiz that is answered by exactly one selection. *)
Definition single_answer (q : Py.json Student.quiz) : Prop :=
  ∃ q', q = Py.Is q'
        ∧ (Student.quiz_type q' = Some "TRUE_FALSE"
           ∨ Student.quiz_type q' = Some "SINGLE_SELECT").

(** The exceptions of reading the stored body and of drawing. *)
Definition drawing_error (e : exn) : Prop :=
  (∃ d, e = ValueError d) ∨ (∃ d, e = TypeError d) ∨ (∃ d, e = AttributeError d).

(** The handler of an event of kind [k] calls [data.get], and [data] is
    not an object. *)
Definition unreadable_payload (k : EventTracker.kind) (data : Sio.payload)
    : bool :=
  match k, data with
  | (EventTracker.Created | EventTracker.Points), Sio.NotObject => true
  | _, _ => false
  end.

(** The HTTP requests among the effects of a call. *)
Definition requests (l : list effect) : list Http.request :=
  omap (λ e, match e with HttpRequest r => Some r | _ => None end) l.

(** The call sends exactly one request, and it carries the teacher's
    token. *)
Definition authorized (t : Teacher.t) (l : list effect) : Prop :=
  ∃ r, l = [HttpRequest r] ∧ Http.bearer r = Some (Teacher.access_token t).

(** The operations and the verifications of a run, in order.  The gathers
    of [choose_seat] are left out: their number depends on how many
    students are connected. *)
Inductive action :=
| Did (o : op)
| Checked (event_name : string).

Definition action_of (x : step * World) : option action :=
  match x.1 with
  | Call o => Some (Did o)
  | Gather Choose_seat _ => None
  | Gather o _ => Some (Did o)
  | Verify event_name _ _ => Some (Checked event_name)
  | _ => None
  end.

Definition actions {A} (r : run A) : list action := omap action_of (trace r).

(** What [run_simulation] does when nothing stops it. *)
Definition script : list action :=
  [Did Create_lesson; Did Connect_socket; Did Create_batch_quizzes;
   Checked "batch_quizzes_created";
   Did Get_latest_batch_quiz; Did Submit_answers;
   Did (Update_batch_quiz_status "FINISH"); Checked "batch_quizzes_finished";
   Did Disclose_batch_quiz; Checked "batch_quizzes_disclosed";
   Did (Update_batch_quiz_status "CLOSE"); Checked "batch_quizzes_closed";
   Did Add_student_points; Checked "student_points";
   Did Disconnect].

(** The piece [m] of a run does the actions [l], in order, or stops
    somewhere on the way; it does them all when it goes on. *)
Definition follows {A} (m : Sim A) (l : list action) : Prop :=
  ∀ w, actions (m w) `prefix_of` l
       ∧ ∀ a, ending (m w) = Next a → actions (m w) = l.

(** What a student is created with and never assigns again. *)
Definition badge (s : Student.t) : Z * string * string * string :=
  (Student.student_number s, Student.api_url s, Student.socket_url s,
   Student.device_id s).

(** The student at position [i] is still student number [i + 1], with the
    addresses and the device id it was created with. *)
Definition enrolled (cfg : config) (env : Env) (l : list Student.t) : Prop :=
  ∀ i s, l !! i = Some s → badge s = badge (fresh cfg env i).

Definition population (cfg : config) (env : Env) (n : nat) (w : World) : Prop :=
  enrolled cfg env (students w) ∧ length (students w) = n.

(** At a step of a run every student is in its place, and a gather is
    made when the population is complete and addresses students of the
    list only. *)
Definition in_place (cfg : config) (env : Env) (x : step * World) : Prop :=
  enrolled cfg env (students x.2)
  ∧ match x.1 with
    | Gather _ members =>
        length (students x.2) = Z.to_nat (num_students cfg)
        ∧ Forall (λ i, (i < length (students x.2))%nat) members
    | _ => True
    end.

End Vocabulary.

(** * Properties *)

(** ** Python idioms *)

Section PyFacts.

Lemma truthy_Some (o : option string) :
  Py.truthy o = true ↔ ∃ s, o = Some s ∧ s ≠ "".
Proof.
  destruct o as [s|]; simpl.
  - rewrite negb_true_iff, String.eqb_neq. split.
    + intros Hs. exists s. by split.
    + intros (s' & [= <-] & Hs). done.
  - split; [done | intros (s & Hs & _); done].
Qed.

Lemma truthy_default (o : option string) :
  Py.truthy o = true → o = Some (default "" o).
Proof. intros (s & -> & _)%truthy_Some. done. Qed.

Lemma sorted_Permutation (X : gset string) : Py.sorted X ≡ₚ elements X.
Proof. apply merge_sort_Permutation. Qed.

Lemma sorted_Sorted (X : gset string) : Sorted Py.str_le (Py.sorted X).
Proof. apply (Sorted_merge_sort Py.str_le). Qed.

Lemma list_to_set_sorted (X : gset string) : list_to_set (Py.sorted X) = X.
Proof.
  apply set_eq. intros x.
  rewrite elem_of_list_to_set, sorted_Permutation. apply elem_of_elements.
Qed.

End PyFacts.

(** ** EventTracker.assert_all_received *)

Section TrackerFacts.

Import EventTracker.

Lemma getattr_name (self : t) (k : kind) :
  getattr self (name k) = Some (field self k).
Proof. destruct k; reflexivity. Qed.

Lemma getattr_Some (self : t) (event_name : string) (X : gset string) :
  getattr self event_name = Some X →
  ∃ k, event_name = name k ∧ X = field self k.
Proof.
  unfold getattr, kind_of_name. intros H.
  destruct (list_find _ all_kinds) as [[i k]|] eqn:Hf; [|done].
  apply list_find_Some in Hf as (_ & <- & _).
  injection H as <-. by exists k.
Qed.

Lemma reported_app (f : string) (l1 l2 : list LogRec) :
  reported f (l1 ++ l2) = reported f l1 ∪ reported f l2.
Proof.
  unfold reported. rewrite filter_app, fmap_app, concat_app.
  apply list_to_set_app_L.
Qed.

Lemma reported_nil (f : string) : reported f [] = ∅.
Proof. reflexivity. Qed.

Lemma reported_other (f : string) (r : LogRec) :
  fmt r ≠ f → reported f [r] = ∅.
Proof.
  intros Hne. unfold reported. rewrite filter_cons_False by done. reflexivity.
Qed.

Lemma reported_same (f : string) (r : LogRec) :
  fmt r = f → reported f [r] = list_to_set (ids r).
Proof.
  intros He. unfold reported. rewrite filter_cons_True by done. simpl.
  rewrite app_nil_r. reflexivity.
Qed.

Lemma reported_log_if (f : string) (b : bool) (l : list LogRec) :
  reported f (log_if b l) = if b then reported f l else ∅.
Proof. by destruct b. Qed.

Lemma reported_cons (f : string) (r : LogRec) (l : list LogRec) :
  reported f (r :: l) = reported f [r] ∪ reported f l.
Proof. apply (reported_app f [r] l). Qed.

Ltac reported_norm :=
  repeat first
    [ rewrite reported_app
    | match goal with
      | |- context [reported ?f (?r :: ?l)] =>
          lazymatch l with
          | [] => fail
          | _ => rewrite (reported_cons f r l)
          end
      end
    | rewrite reported_log_if
    | rewrite reported_nil
    | rewrite reported_other by (apply String.eqb_neq; vm_compute; reflexivity)
    | rewrite reported_same by reflexivity ];
  cbn [ids mkLog].

(** The result and the two reported differences of a verification, for
    an event name that is a field. *)
Lemma assert_all_received_spec (self : t) (k : kind)
    (expected : gset string) (total : option Z) :
  let o := assert_all_received self (name k) expected total in
  ret o = Return (bool_decide (field self k = expected))
  ∧ reported fmt_missing (logged o) = expected ∖ field self k
  ∧ reported fmt_unexpected (logged o) = field self k ∖ expected.
Proof.
  unfold assert_all_received. rewrite getattr_name.
  destruct (decide (field self k = expected)) as [Heq|Hne].
  - rewrite (bool_decide_eq_true_2 _ Heq), Heq, Z.eqb_refl. simpl.
    split; [done|].
    rewrite !difference_diag_L.
    split; reported_norm; repeat case_match; set_solver.
  - rewrite (bool_decide_eq_false_2 _ Hne), andb_false_r. simpl.
    split; [done|].
    split; reported_norm; rewrite ?list_to_set_sorted;
      repeat case_bool_decide; simpl; repeat case_match; set_solver.
Qed.

End TrackerFacts.

(** C1. For each of the five event kinds and every expected set,
    [assert_all_received] returns [True] exactly when the recorded set
    equals the expected set, [False] otherwise (so also for a strict subset
    or superset), and when it returns [False] the identities it logs as
    missing are the expected ones not recorded and those it logs as
    unexpected are the recorded ones not expected. *)
Theorem assert_all_received_exact (self : EventTracker.t)
    (k : EventTracker.kind) (expected : gset string) (total : option Z) :
  let o := EventTracker.assert_all_received self (EventTracker.name k) expected total in
  (ret o = Return true ↔ EventTracker.field self k = expected)
  ∧ (ret o = Return false ↔ EventTracker.field self k ≠ expected)
  ∧ (ret o = Return false →
       EventTracker.reported EventTracker.fmt_missing (logged o)
         = expected ∖ EventTracker.field self k
       ∧ EventTracker.reported EventTracker.fmt_unexpected (logged o)
         = EventTracker.field self k ∖ expected).
Proof.
  intros o.
  destruct (assert_all_received_spec self k expected total) as (Hret & Hm & Hu).
  fold o in Hret, Hm, Hu. rewrite Hret.
  repeat split.
  - intros [= H]. by apply bool_decide_eq_true in H.
  - intros H. by rewrite bool_decide_eq_true_2.
  - intros [= H]. by apply bool_decide_eq_false in H.
  - intros H. by rewrite bool_decide_eq_false_2.
  - done.
  - done.
Qed.

(** The example of the specification: expected A, B, C and recorded
    A, B, D. *)
Lemma assert_all_received_exact_witness :
  let o := EventTracker.assert_all_received
             (Vocabulary.tracker_ABD EventTracker.Closed) "batch_quizzes_closed"
             {[ "A"; "B"; "C" ]} (Some 5) in
  ret o = Return false
  ∧ EventTracker.reported EventTracker.fmt_missing (logged o) = {[ "C" ]}
  ∧ EventTracker.reported EventTracker.fmt_unexpected (logged o) = {[ "D" ]}.
Proof.
  intros o.
  pose proof (assert_all_received_exact
                (Vocabulary.tracker_ABD EventTracker.Closed) EventTracker.Closed
                {[ "A"; "B"; "C" ]} (Some 5)) as (_ & _ & H).
  assert (Hf : ret o = Return false) by (vm_compute; reflexivity).
  destruct (H Hf) as [Hm Hu].
  split; [exact Hf|]. split.
  - etransitivity; [exact Hm|]. vm_compute. reflexivity.
  - etransitivity; [exact Hu|]. vm_compute. reflexivity.
Defined.


(** ** The socket handlers *)

Section HandlerFacts.

Import Student.

Lemma field_add (k k' : EventTracker.kind) (id : string) (tr : EventTracker.t) :
  EventTracker.field (EventTracker.add k id tr) k'
  = if decide (k = k') then {[id]} ∪ EventTracker.field tr k'
    else EventTracker.field tr k'.
Proof. destruct k, k'; reflexivity. Qed.

Lemma record_event_unseated (k : EventTracker.kind) (self : t)
    (tr : EventTracker.t) :
  Py.truthy (student_id self) = false → record_event k self tr = tr.
Proof. unfold record_event. by intros ->. Qed.

Lemma elem_of_record_event (k k' : EventTracker.kind) (self : t)
    (tr : EventTracker.t) (id : string) :
  id ∈ EventTracker.field (record_event k self tr) k'
  ↔ id ∈ EventTracker.field tr k'
    ∨ (k = k' ∧ student_id self = Some id ∧ id ≠ "").
Proof.
  unfold record_event.
  destruct (Py.truthy (student_id self)) eqn:Ht.
  - apply truthy_Some in Ht as (s & Hs & Hne). rewrite Hs. simpl.
    rewrite field_add. case_decide; set_solver.
  - split; [by left|]. intros [H|(_ & Hs & Hne)]; [done|].
    rewrite Hs in Ht. simpl in Ht.
    apply negb_false_iff, String.eqb_eq in Ht. done.
Qed.

(** Only the five event handlers touch the tracker, through
    [record_event]. *)
Lemma handle_tracker (ev : socket_event) (self : t) (tr : EventTracker.t) :
  (after (handle ev self tr)).2
  = match ev with
    | Pushed k _ => record_event k self tr
    | _ => tr
    end.
Proof. destruct ev as [| | |[] []|]; reflexivity. Qed.

(** No handler assigns the identity, the credential or the lesson. *)
Lemma handle_seat (ev : socket_event) (self : t) (tr : EventTracker.t) :
  let s' := (after (handle ev self tr)).1 in
  student_id s' = student_id self
  ∧ socket_token s' = socket_token self
  ∧ lesson_id s' = lesson_id self.
Proof.
  destruct ev as [sid e| | |[] []|]; try done.
  simpl. unfold on_connect.
  repeat (case_match; simpl); done.
Qed.

Lemma deliver_snoc (evs : list socket_event) (ev : socket_event)
    (self : t) (tr : EventTracker.t) :
  deliver (evs ++ [ev]) self tr
  = let acc := deliver evs self tr in
    let o := handle ev (after acc).1 (after acc).2 in
    Out (Return tt) (after o) (logged acc ++ logged o) (effects acc ++ effects o).
Proof. unfold deliver. by rewrite foldl_app. Qed.

Lemma deliver_seat (evs : list socket_event) (self : t) (tr : EventTracker.t) :
  let s' := (after (deliver evs self tr)).1 in
  student_id s' = student_id self
  ∧ socket_token s' = socket_token self
  ∧ lesson_id s' = lesson_id self.
Proof.
  induction evs as [|ev evs IH] using rev_ind; [done|].
  rewrite deliver_snoc. cbn zeta. simpl.
  destruct IH as (H1 & H2 & H3).
  destruct (handle_seat ev (after (deliver evs self tr)).1
              (after (deliver evs self tr)).2) as (G1 & G2 & G3).
  cbn zeta in *. by rewrite G1, G2, G3.
Qed.

(** The effects of a handler: a wait and possibly an emit, never a
    request. *)
Lemma handle_effects (ev : socket_event) (self : t) (tr : EventTracker.t)
    (e : effect) :
  e ∈ effects (handle ev self tr) →
  e = Sleep 100 ∨ ∃ data, e = Emit "join_lesson" data PARTICIPANT_NS.
Proof.
  destruct ev as [sid err| | |[] []|]; simpl; try (by intros ?%elem_of_nil).
  unfold on_connect. repeat (case_match; simpl); set_solver.
Qed.

Lemma deliver_effects (evs : list socket_event) (self : t)
    (tr : EventTracker.t) (e : effect) :
  e ∈ effects (deliver evs self tr) →
  e = Sleep 100 ∨ ∃ data, e = Emit "join_lesson" data PARTICIPANT_NS.
Proof.
  induction evs as [|ev evs IH] using rev_ind; [by intros ?%elem_of_nil|].
  rewrite deliver_snoc. cbn zeta. simpl.
  rewrite elem_of_app. intros [H|H]; [by apply IH|].
  by apply handle_effects in H.
Qed.

End HandlerFacts.

(** C9. Whatever a handler is called with, the tracker changes only by the
    identity of the receiving student: if that identity is still [None]
    nothing is recorded, whatever is newly in a set is the student's
    (non-null) [student_id] and not its [sid], and a world in which every
    tracked identity belongs to a student stays such a world. *)
Theorem handlers_record_only_identities (ev : Student.socket_event)
    (self : Student.t) (tracker : EventTracker.t) :
  let tracker' := (after (Student.handle ev self tracker)).2 in
  (Student.student_id self = None → tracker' = tracker)
  ∧ (∀ k id, id ∈ EventTracker.field tracker' k →
       id ∈ EventTracker.field tracker k ∨ Student.student_id self = Some id)
  ∧ (∀ i w, Simulation.students w !! i = Some self →
       Simulation.event_tracker w = tracker →
       Vocabulary.tracked_are_seated w →
       Vocabulary.tracked_are_seated
         (Simulation.world (Simulation.dispatch i ev w))).
Proof.
  intros tracker'.
  assert (Hnew : ∀ k id, id ∈ EventTracker.field tracker' k →
            id ∈ EventTracker.field tracker k ∨ Student.student_id self = Some id).
  { intros k id. unfold tracker'. rewrite handle_tracker.
    destruct ev; try by left.
    rewrite elem_of_record_event. naive_solver. }
  split; [|split; [exact Hnew|]].
  - intros Hnone. unfold tracker'. rewrite handle_tracker.
    destruct ev; try done.
    apply record_event_unseated. by rewrite Hnone.
  - intros i w Hi Htr Hinv k id.
    unfold Simulation.dispatch. rewrite Hi, Htr. simpl.
    fold tracker'. intros Hin.
    destruct (handle_seat ev self tracker) as (Hid & _ & _). cbn zeta in Hid.
    destruct (Hnew k id Hin) as [Hold|Hself].
    + rewrite <- Htr in Hold.
      destruct (Hinv k id Hold) as (s & Hs & Hsid).
      apply list_elem_of_lookup in Hs as [j Hj].
      destruct (decide (i = j)) as [<-|Hne].
      * exists (after (Student.handle ev self tracker)).1. split.
        -- apply list_elem_of_lookup. exists i.
           apply list_lookup_insert_eq. by eapply lookup_lt_Some.
        -- rewrite Hid. congruence.
      * exists s. split; [|done].
        apply list_elem_of_lookup. exists j.
        by rewrite list_lookup_insert_ne.
    + exists (after (Student.handle ev self tracker)).1. split.
      * apply list_elem_of_lookup. exists i.
        apply list_lookup_insert_eq. by eapply lookup_lt_Some.
      * by rewrite Hid.
Qed.

(** C10. A verification changes nothing: the tracker after the call is
    the tracker before it, no effect is performed, repeating the call
    gives the same outcome, the world of the run is left as it was, and
    the handlers, the only writers, never remove an identity. *)
Theorem verification_is_read_only (self : EventTracker.t)
    (event_name : string) (expected : gset string) (total : option Z) :
  let o := EventTracker.assert_all_received self event_name expected total in
  after o = self
  ∧ effects o = []
  ∧ EventTracker.assert_all_received (after o) event_name expected total = o
  ∧ (∀ w, Simulation.world
            (Simulation.assert_all_received event_name expected total w) = w)
  ∧ (∀ ev s k, EventTracker.field self k
               ⊆ EventTracker.field (after (Student.handle ev s self)).2 k).
Proof.
  intros o.
  assert (Hafter : ∀ t, after (EventTracker.assert_all_received t event_name expected total) = t).
  { intros t. unfold EventTracker.assert_all_received.
    destruct (EventTracker.getattr t event_name); [|done].
    by case_match. }
  assert (Heff : effects o = []).
  { unfold o, EventTracker.assert_all_received.
    destruct (EventTracker.getattr self event_name); [|done].
    by case_match. }
  repeat split.
  - apply Hafter.
  - exact Heff.
  - unfold o. by rewrite Hafter.
  - intros w. unfold Simulation.assert_all_received, mbind, Simulation.sim_bind,
      Simulation.bind, Simulation.tracker_call.
    cbn -[EventTracker.assert_all_received].
    rewrite Hafter. by destruct w.
  - intros ev s k id Hin. rewrite handle_tracker.
    destruct ev; try done. apply elem_of_record_event. by left.
Qed.


(** ** Reconnecting *)

(** C4, as stated, fails.  A student that has claimed a slot is
    disconnected and connected again, but the library has no namespace sid
    when [on_connect] asks for it after its wait: the three fields are
    kept, and nothing is emitted. *)
Lemma reconnect_without_sid_is_silent :
  let s := after (Student.on_disconnect Vocabulary.seated_student
                    [Some "transport close"] ∅) in
  Student.student_id s = Some "id-1"
  ∧ Student.socket_token s = Some "token-1"
  ∧ Student.lesson_id s = Some "lesson-1"
  ∧ effects (Student.on_connect s None None) = [Sleep 100].
Proof. vm_compute. done. Qed.

(** C4, amended.  Let a student hold a non-empty identity, credential and
    lesson id.  Whatever handlers run afterwards (a disconnect among them)
    leave the three fields as they are and send no HTTP request; and a
    later [on_connect] that finds a namespace sid calls [sio.emit] once,
    with [join_lesson] and the stored lesson, identity and credential, and
    sends no HTTP request either; an [on_connect] for which the library
    has no namespace sid ([None] or empty) emits nothing, after its wait,
    and logs a warning. *)
Theorem reconnect_resumes_with_stored_identity
    (self : Student.t) (tracker : EventTracker.t)
    (id token lesson namespace_sid : string)
    (evs : list Student.socket_event) (emit_error : option string) :
  Student.student_id self = Some id → id ≠ "" →
  Student.socket_token self = Some token → token ≠ "" →
  Student.lesson_id self = Some lesson → lesson ≠ "" →
  namespace_sid ≠ "" →
  let d := Student.deliver evs self tracker in
  let s' := (after d).1 in
  Student.student_id s' = Some id
  ∧ Student.socket_token s' = Some token
  ∧ Student.lesson_id s' = Some lesson
  ∧ (∀ r, HttpRequest r ∉ effects d)
  ∧ effects (Student.on_connect s' (Some namespace_sid) emit_error)
    = [Sleep 100;
       Emit "join_lesson" (Student.join_lesson_data lesson id token)
         Student.PARTICIPANT_NS]
  ∧ (∀ no_sid, Py.truthy no_sid = false →
       effects (Student.on_connect s' no_sid emit_error) = [Sleep 100]
       ∧ Vocabulary.logs_warning
           (logged (Student.on_connect s' no_sid emit_error))).
Proof.
  intros Hid Hid' Htok Htok' Hles Hles' Hsid d s'.
  destruct (deliver_seat evs self tracker) as (H1 & H2 & H3).
  fold d in H1, H2, H3. fold s' in H1, H2, H3.
  rewrite Hid in H1. rewrite Htok in H2. rewrite Hles in H3.
  repeat split; try done.
  - intros r Hr. apply deliver_effects in Hr as [Hr|[data Hr]]; done.
  - unfold Student.on_connect.
    assert (Ht : ∀ x, x ≠ "" → Py.truthy (Some x) = true).
    { intros x Hx. apply truthy_Some. by exists x. }
    rewrite (Ht _ Hsid). simpl.
    rewrite H1, H2, H3, (Ht _ Hid'), (Ht _ Htok'), (Ht _ Hles'). simpl.
    by destruct emit_error.
  - unfold Student.on_connect. by rewrite H.
  - unfold Student.on_connect. rewrite H. by apply Exists_cons_hd.
Qed.

Lemma reconnect_resumes_with_stored_identity_witness :
  let s' := (after (Student.deliver
                      [Student.Disconnect [Some "transport close"] ∅;
                       Student.Pushed EventTracker.Closed ∅]
                      Vocabulary.seated_student EventTracker.new)).1 in
  effects (Student.on_connect s' (Some "sid-2") None)
  = [Sleep 100;
     Emit "join_lesson" (Student.join_lesson_data "lesson-1" "id-1" "token-1")
       Student.PARTICIPANT_NS].
Proof.
  intros s'.
  refine (proj1 (proj2 (proj2 (proj2 (proj2
    (reconnect_resumes_with_stored_identity Vocabulary.seated_student
       EventTracker.new "id-1" "token-1" "lesson-1" "sid-2"
       [Student.Disconnect [Some "transport close"] ∅;
        Student.Pushed EventTracker.Closed ∅] None
       _ _ _ _ _ _ _)))))); first [reflexivity | discriminate].
Defined.

(** ** Failing calls *)

Section SentinelFacts.

Import Vocabulary.

Lemma logs_error_request_exception (l : list LogRec) (f : string)
    (who : list string) (e : exn) :
  logs_error (l ++ log_request_exception f who e).
Proof. apply Exists_app. right. by apply Exists_cons_hd. Qed.

Lemma unreadable_cases {B} (reply : Http.reply B) :
  unreadable reply →
  (∃ e, Http.checked reply = inl e)
  ∨ (∃ r e, Http.checked reply = inr r ∧ Http.decoded r = inl e).
Proof.
  intros [[e He]|(r & Hr & Hj)]; [left; by exists e|].
  right. exists r. unfold Http.decoded. rewrite Hj. eauto.
Qed.

End SentinelFacts.

(** C5, as stated, fails: the lesson request is answered 200 with a JSON
    object that has no ["data"], and [create_lesson] raises [KeyError]. *)
Lemma create_lesson_raises_on_missing_field :
  ret (Teacher.create_lesson Vocabulary.some_teacher (Vocabulary.ok_reply ∅))
  = Raise (KeyError "data").
Proof. reflexivity. Qed.

(** C5, amended.  When the call fails inside the [requests] library (no
    response, a 4xx or 5xx status or, where the body is read, a body that
    is not JSON), every operation returns its sentinel, logs an error and
    leaves its object as it was.  For [submit_answers] this is so once the
    answers have been drawn, which happens before the request. *)
Theorem operations_return_sentinel_on_request_failure
    {B : Type}
    (nested : Http.reply Teacher.nested_body)
    (flat : Http.reply (gmap string string))
    (quizzes : Http.reply Student.quiz_body)
    (plain : Http.reply B) :
  Vocabulary.unreadable nested →
  Vocabulary.unreadable flat →
  Vocabulary.unreadable quizzes →
  Vocabulary.refused plain →
  (∀ t, let o := Teacher.create_lesson t nested in
        ret o = Return None ∧ after o = t ∧ Vocabulary.logs_error (logged o))
  ∧ (∀ t lesson,
        let o := Teacher.create_batch_quizzes t lesson nested in
        ret o = Return None ∧ after o = t ∧ Vocabulary.logs_error (logged o))
  ∧ (∀ t lesson batch status,
        let o := Teacher.update_batch_quiz_status t lesson batch status plain in
        ret o = Return false ∧ after o = t ∧ Vocabulary.logs_error (logged o))
  ∧ (∀ t lesson batch,
        let o := Teacher.disclose_batch_quiz t lesson batch plain in
        ret o = Return false ∧ after o = t ∧ Vocabulary.logs_error (logged o))
  ∧ (∀ t lesson students,
        let o := Teacher.add_student_points t lesson students plain in
        ret o = Return false ∧ after o = t ∧ Vocabulary.logs_error (logged o))
  ∧ (∀ s lesson sio settled,
        let o := Student.choose_seat s lesson sio flat settled in
        ret o = Return false ∧ after o = s ∧ Vocabulary.logs_error (logged o))
  ∧ (∀ s lesson,
        let o := Student.get_latest_batch_quiz s lesson quizzes in
        ret o = Return None ∧ after o = s ∧ Vocabulary.logs_error (logged o))
  ∧ (∀ s batch draws answers,
        Student.answers_from (Student.quizzes_of s) draws O = Return answers →
        let o := Student.submit_answers s batch draws plain in
        ret o = Return false ∧ after o = s ∧ Vocabulary.logs_error (logged o)).
Proof.
  intros Hn%unreadable_cases Hf%unreadable_cases Hq%unreadable_cases [e He].
  destruct Hn as [[en Hn]|(rn & en & Hn & Hdn)],
           Hf as [[ef Hf]|(rf & ef & Hf & Hdf)],
           Hq as [[eq Hq]|(rq & eq & Hq & Hdq)].
  all: repeat split; intros.
  all: unfold Teacher.create_lesson, Teacher.create_batch_quizzes,
         Teacher.update_batch_quiz_status, Teacher.disclose_batch_quiz,
         Teacher.add_student_points, Student.choose_seat,
         Student.get_latest_batch_quiz, Student.submit_answers.
  all: try match goal with
           | H : Student.answers_from _ _ _ = _ |- _ => rewrite H
           end.
  all: rewrite ?Hn, ?Hf, ?Hq, ?He; cbn beta iota zeta;
       rewrite ?Hdn, ?Hdf, ?Hdq; cbn beta iota zeta.
  all: repeat case_match; cbn [ret after logged].
  all: first [ done
             | apply logs_error_request_exception
             | apply (logs_error_request_exception [])
             | by apply Exists_cons_hd ].
Qed.

Lemma operations_return_sentinel_on_request_failure_witness :
  ret (Teacher.create_lesson Vocabulary.some_teacher (Http.Failed "ConnectionError"))
    = Return None
  ∧ ret (Student.get_latest_batch_quiz Vocabulary.seated_student "lesson-1"
           (Http.Replied (Http.Response 200 "<html>" None)))
    = Return None.
Proof.
  pose proof (operations_return_sentinel_on_request_failure (B := unit)
    (Http.Failed "ConnectionError")
    (Http.Replied (Http.Response 500 "Internal Server Error" None))
    (Http.Replied (Http.Response 200 "<html>" None))
    (Http.Replied (Http.Response 404 "Not Found" None))) as H.
  destruct H as (H1 & _ & _ & _ & _ & _ & H7 & _).
  - left. eexists. reflexivity.
  - left. eexists. reflexivity.
  - right. eexists. split; reflexivity.
  - eexists. reflexivity.
  - split.
    + apply (H1 Vocabulary.some_teacher).
    + apply (H7 Vocabulary.seated_student "lesson-1").
Defined.

(** ** choose_seat *)



(** ** Reasoning about pieces of a run *)

Section RunFacts.

Import Simulation Vocabulary.

Context {P : step * World → Prop}.

Lemma bind_unfold {A B} (m : Sim A) (k : A → Sim B) (w : World) :
  (m ≫= k) w = bind m k w.
Proof. reflexivity. Qed.

Lemma holds_weaken {A} (Pre Pre' : World → Prop) (m : Sim A)
    (Post Post' : A → World → Prop) :
  holds Pre m P Post →
  (∀ w, Pre' w → Pre w) → (∀ a w, Post a w → Post' a w) →
  holds Pre' m P Post'.
Proof.
  intros H Hpre Hpost w Hw. destruct (H w (Hpre w Hw)) as [Ht Hp].
  split; [done|]. intros a Ha. by apply Hpost, Hp.
Qed.

Lemma holds_bind {A B} (Pre : World → Prop) (m : Sim A) (k : A → Sim B)
    (Q : A → World → Prop) (R : B → World → Prop) :
  holds Pre m P Q → (∀ a, holds (Q a) (k a) P R) →
  holds Pre (m ≫= k) P R.
Proof.
  intros Hm Hk w Hw. rewrite bind_unfold. unfold bind.
  destruct (Hm w Hw) as [Ht Hq].
  destruct (ending (m w)) as [a| |e] eqn:He; simpl; [|done..].
  destruct (Hk a (world (m w)) (Hq a eq_refl)) as [Ht' Hr].
  split; [by apply Forall_app|done].
Qed.

Lemma holds_assume {A} (φ : Prop) (m : Sim A) (Post : A → World → Prop) :
  (φ → holds (λ _, True) m P Post) → holds (λ _, φ) m P Post.
Proof. intros H w Hφ. by apply H. Qed.

Lemma holds_pure {A} (Pre : World → Prop) (a : A) :
  holds Pre (pure a) P (λ b w, b = a ∧ Pre w).
Proof. intros w Hw. split; [constructor|]. intros b Hb. by simplify_eq/=. Qed.

Lemma holds_gets {A} (Pre : World → Prop) (f : World → A) :
  holds Pre (gets f) P (λ a w, a = f w ∧ Pre w).
Proof. intros w Hw. split; [constructor|]. intros b Hb. by simplify_eq/=. Qed.

Lemma holds_logs (Pre : World → Prop) (l : list LogRec) :
  holds Pre (logs l) P (λ _ w, Pre w).
Proof. intros w Hw. split; [constructor|]. intros b Hb. by simplify_eq/=. Qed.

Lemma holds_info (Pre : World → Prop) (f : string) :
  holds Pre (info f) P (λ _ w, Pre w).
Proof. apply holds_logs. Qed.

Lemma holds_return_ {A} (Pre : World → Prop) (Post : A → World → Prop) :
  holds Pre return_ P Post.
Proof. intros w Hw. split; [constructor|done]. Qed.

Lemma holds_does (Pre : World → Prop) (st : step) :
  (∀ w, Pre w → P (st, w)) → holds Pre (does st) P (λ _ w, Pre w).
Proof.
  intros H w Hw. split; [by repeat constructor; apply H|].
  intros b Hb. by simplify_eq/=.
Qed.

Lemma holds_modify (Pre : World → Prop) (f : World → World) :
  holds Pre (modify f) P (λ _ w, ∃ w0, Pre w0 ∧ w = f w0).
Proof.
  intros w Hw. split; [constructor|]. intros b Hb. simplify_eq/=. by exists w.
Qed.

Lemma holds_when (Pre : World → Prop) (b : bool) (m : Sim unit)
    (Post : unit → World → Prop) :
  (b = true → holds Pre m P Post) → (b = false → ∀ w, Pre w → Post tt w) →
  holds Pre (when b m) P Post.
Proof.
  intros Hm Hskip. destruct b; simpl; [by apply Hm|].
  intros w Hw. split; [constructor|]. intros [] _. by apply Hskip.
Qed.

Local Abbreviation always := (Vocabulary.always P).

Lemma Forall_stamped (f : effect → step) (w : World) (l : list effect) :
  (∀ e, always (f e)) → Forall P ((λ e, (f e, w)) <$> l).
Proof. intros H. apply Forall_fmap, Forall_forall. intros e _. apply H. Qed.

Lemma holds_dispatch (I : World → Prop) (i : nat) (ev : Student.socket_event) :
  (∀ e, always (Handler i e)) →
  (∀ w, I w → I (world (dispatch i ev w))) →
  holds I (dispatch i ev) P (λ _ w, I w).
Proof.
  intros HP HI w Hw. split.
  - unfold dispatch. destruct (students w !! i); simpl; [|constructor].
    by apply Forall_stamped.
  - intros [] _. by apply HI.
Qed.

Lemma holds_tick (I : World → Prop) (evs : list (nat * Student.socket_event)) :
  (∀ i e, always (Handler i e)) →
  (∀ i ev w, I w → I (world (dispatch i ev w))) →
  holds I (tick evs) P (λ _ w, I w).
Proof.
  intros HP HI. induction evs as [|[i ev] evs IH]; simpl.
  - eapply holds_weaken; [apply holds_pure|done|by intros ? ? [_ ?]].
  - eapply holds_bind; [apply holds_dispatch; [apply HP|apply HI]|].
    intros ?. apply IH.
Qed.

Lemma holds_sleep (I : World → Prop) (env : Env) (ms : Z) (pt : await_point) :
  always (Sleeping ms) →
  (∀ i e, always (Handler i e)) →
  (∀ i ev w, I w → I (world (dispatch i ev w))) →
  holds I (sleep env ms pt) P (λ _ w, I w).
Proof.
  intros Hs HP HI. unfold sleep.
  eapply holds_bind; [apply holds_does; intros; apply Hs|].
  intros ?. by apply holds_tick.
Qed.

Lemma holds_teacher_call {A} (Pre : World → Prop) (o : op)
    (f : Teacher.t → outcome Teacher.t A) :
  always (Call o) → (∀ e, always (Wire o None e)) →
  holds Pre (teacher_call o f) P
    (λ a w, ∃ w0, Pre w0 ∧ ret (f (teacher w0)) = Return a
                  ∧ w = set_teacher (after (f (teacher w0))) w0).
Proof.
  intros Hc Hw w Hpre. split.
  - unfold teacher_call. simpl. constructor; [apply Hc|].
    by apply Forall_stamped.
  - unfold teacher_call. simpl. intros a Ha. exists w.
    destruct (ret (f (teacher w))); by simplify_eq.
Qed.

Lemma holds_tracker_call {A} (Pre : World → Prop)
    (f : EventTracker.t → outcome EventTracker.t A) :
  holds Pre (tracker_call f) P (λ _ _, True).
Proof. intros w Hw. split; [constructor|done]. Qed.

Lemma holds_student_task {A} (I : World → Prop) (o : op) (i : nat)
    (f : Student.t → outcome Student.t A) :
  (∀ e, always (Wire o (Some i) e)) →
  (∀ w s, I w → students w !! i = Some s →
     I (set_students (<[i := after (f s)]> (students w)) w)) →
  holds I (student_task o i f) P (λ _ w, I w).
Proof.
  intros HP HI w Hw. unfold student_task.
  destruct (students w !! i) as [s|] eqn:Hs; simpl.
  - split; [by apply Forall_stamped|]. intros _ _. by apply HI.
  - split; [constructor|done].
Qed.

Lemma holds_student_task_tracker {A} (I : World → Prop) (o : op) (i : nat)
    (f : Student.t → EventTracker.t → outcome (Student.t * EventTracker.t) A) :
  (∀ e, always (Wire o (Some i) e)) →
  (∀ w s, I w → students w !! i = Some s →
     I (mkWorld (after (f s (event_tracker w))).2 (teacher w)
          (<[i := (after (f s (event_tracker w))).1]> (students w)))) →
  holds I (student_task_tracker o i f) P (λ _ w, I w).
Proof.
  intros HP HI w Hw. unfold student_task_tracker.
  destruct (students w !! i) as [s|] eqn:Hs; simpl.
  - split; [by apply Forall_stamped|]. intros _ _. by apply HI.
  - split; [constructor|done].
Qed.

Lemma holds_tasks {A} (I : World → Prop) (task : nat → Sim (res A))
    (members : list nat) :
  (∀ i, holds I (task i) P (λ _ w, I w)) →
  holds I (tasks task members) P (λ _ w, I w).
Proof.
  intros Ht. induction members as [|i rest IH]; simpl.
  - eapply holds_weaken; [apply holds_pure|done|by intros ? ? [_ ?]].
  - eapply holds_bind; [apply Ht|]. intros r.
    eapply holds_bind; [apply IH|]. intros rs.
    eapply holds_weaken; [apply holds_pure|done|by intros ? ? [_ ?]].
Qed.

Lemma holds_gather {A} (I : World → Prop) (o : op) (members : list nat)
    (task : nat → Sim (res A)) :
  always (Gather o members) →
  (∀ i, holds I (task i) P (λ _ w, I w)) →
  holds I (gather o members task) P (λ _ w, I w).
Proof.
  intros Hg Ht. unfold gather.
  eapply holds_bind; [apply holds_does; intros; apply Hg|].
  intros ?. by apply holds_tasks.
Qed.

(** Pieces that take no step. *)
Lemma holds_silent {A} (Pre : World → Prop) (m : Sim A) :
  (∀ w, trace (m w) = []) → holds Pre m P (λ _ _, True).
Proof. intros H w _. rewrite H. by split. Qed.

Lemma holds_trivially {A} (Pre : World → Prop) (m : Sim A) :
  holds (λ _, True) m P (λ _ _, True) → holds Pre m P (λ _ _, True).
Proof. intros H. by eapply holds_weaken. Qed.

Lemma holds_then {A B} (Pre : World → Prop) (m : Sim A) (k : A → Sim B)
    (R : B → World → Prop) :
  holds (λ _, True) m P (λ _ _, True) →
  (∀ a, holds (λ _, True) (k a) P R) →
  holds Pre (m ≫= k) P R.
Proof.
  intros Hm Hk. eapply holds_bind; [by apply holds_trivially|done].
Qed.

Lemma holds_step (Pre : World → Prop) (st : step) :
  always st → holds Pre (does st) P (λ _ _, True).
Proof.
  intros H w _. split; [by repeat constructor|done].
Qed.

Lemma holds_abort {A} (Pre : World → Prop) (l : list LogRec)
    (R : A → World → Prop) :
  holds Pre (logs l;; return_) P R.
Proof. intros w _. split; [constructor|done]. Qed.

Lemma holds_spawn_all (Pre : World → Prop) (cfg : config) (env : Env)
    (numbers : list Z) :
  (∀ n, always (Spawn n)) →
  holds Pre (spawn_all cfg env numbers) P (λ _ _, True).
Proof.
  intros HP. apply holds_trivially.
  induction numbers as [|n rest IH]; simpl.
  - by apply holds_silent.
  - apply holds_then; [|done]. unfold spawn.
    apply holds_then; [|intros ?; by apply holds_silent].
    by apply holds_step.
Qed.

Lemma holds_seat_batches (Pre : World → Prop) (env : Env) (lesson : string)
    (connected_students : list nat) (starts : list Z) (seated_count : Z) :
  (∀ l, always (Gather Choose_seat l)) →
  (∀ i e, always (Wire Choose_seat (Some i) e)) →
  (∀ i e, always (Handler i e)) →
  (∀ ms, always (Sleeping ms)) →
  holds Pre (seat_batches env lesson connected_students starts seated_count)
    P (λ _ _, True).
Proof.
  intros Hg Hw Hh Hs. apply holds_trivially.
  revert seated_count. induction starts as [|i rest IH]; intros seated_count; simpl.
  - by apply holds_silent.
  - apply holds_then; [by apply holds_silent|intros ?].
    apply holds_then; [|intros seat_results].
    { apply (holds_gather (λ _, True)); [apply Hg|]. intros j.
      apply (holds_student_task (λ _, True)); [apply Hw|done]. }
    apply holds_then; [by apply (holds_tick (λ _, True))|intros ?].
    apply holds_then; [by apply holds_silent|intros ?].
    apply holds_then; [|intros ?; apply IH].
    apply holds_when; [|done]. intros _.
    by apply (holds_sleep (λ _, True)).
Qed.

Lemma holds_log_not_seated (Pre : World → Prop) (cfg : config) :
  holds Pre (log_not_seated cfg) P (λ _ _, True).
Proof.
  apply holds_silent. intros w. unfold log_not_seated.
  rewrite bind_unfold. unfold bind. simpl. unfold when. by destruct (negb _).
Qed.

Lemma holds_assert_all_received (Pre : World → Prop)
    (event_name : string) (expected : gset string) (total : option Z) :
  (∀ w, Pre w → P (Verify event_name expected total, w)) →
  holds Pre (Simulation.assert_all_received event_name expected total)
    P (λ _ _, True).
Proof.
  intros H. unfold Simulation.assert_all_received.
  eapply holds_bind; [apply holds_does, H|]. intros ?.
  apply holds_tracker_call.
Qed.

End RunFacts.

(** ** The phases of run_simulation *)

Ltac always_tac := intros; intro; first [reflexivity | exact I | done].

Ltac quiet := apply holds_silent; intros; reflexivity.

Ltac hrule :=
  first
    [ apply (holds_sleep (λ _, True)); [always_tac | always_tac | done]
    | apply (holds_tick (λ _, True)); [always_tac | done]
    | apply holds_spawn_all; always_tac
    | apply holds_seat_batches; always_tac
    | apply holds_log_not_seated
    | apply holds_step; always_tac
    | apply (holds_gather (λ _, True));
      [ always_tac
      | intros;
        first [ apply (holds_student_task (λ _, True)); [always_tac | done]
              | apply (holds_student_task_tracker (λ _, True)); [always_tac | done] ] ]
    | apply holds_when;
      [ intros _; first [ quiet | apply (holds_then (λ _, True)); [quiet | intros ?; hrule] ]
      | done ]
    | quiet ].

Ltac hstep := apply holds_then; [ hrule | intros ? ].

(** A call on the teacher whose value is not needed. *)
Ltac tcall :=
  apply holds_then;
  [ eapply (holds_weaken (λ _, True)); [apply holds_teacher_call; always_tac | done | done]
  | intros ? ].

Ltac branch :=
  lazymatch goal with
  | |- Vocabulary.holds _ (if negb ?b then _ else _) _ _ =>
      destruct b eqn:?; cbn [negb]; cbv beta iota zeta; [| apply holds_abort]
  | |- Vocabulary.holds _ (if ?b then _ else _) _ _ =>
      destruct b eqn:?; cbv beta iota zeta; [apply holds_abort |]
  end.

(** When the creation of the batch returns [None], the run takes only
    steps of the first four operations and never runs to its end. *)
Lemma run_upto_batch_creation (cfg : Simulation.config) (env : Simulation.Env) :
  (∀ t lesson,
     ret (Teacher.create_batch_quizzes t lesson (Simulation.batch_reply env))
     = Return None) →
  Vocabulary.holds (λ _, True) (Simulation.run_simulation cfg env)
    (λ x, Vocabulary.upto 4 x.1 = true) (λ _ _, False).
Proof.
  intros Hfail.
  unfold Simulation.run_simulation, Simulation.choose_seats.
  repeat hstep. tcall. branch.
  repeat hstep. branch.
  repeat hstep.
  eapply holds_bind; [apply holds_teacher_call; always_tac|].
  intros batch_quizzes_id w (w0 & _ & Hret & _).
  cbv beta in Hret. rewrite Hfail in Hret. injection Hret as <-.
  cbn [negb Py.truthy]. split; [constructor|done].
Qed.

(** C3, as stated, fails.  Both students connect and claim a slot, the
    creation of the batch fails: the run returns right after logging the
    failure, nothing of the later phases is done (not even the
    disconnects), and no verification is made. *)
Lemma batch_failure_ends_the_run :
  let r := Simulation.simulate (Vocabulary.classroom 2)
             (Vocabulary.example_env Vocabulary.lesson_ok (Http.Failed "ConnectionError")
                (λ _, true) (λ i, "id-" +:+ Vocabulary.tag i) 2) in
  Simulation.ending r = Simulation.Returned
  ∧ last (Simulation.log r)
    = Some (mkLog ERROR "Failed to create batch quizzes. Aborting." [])
  ∧ last (Vocabulary.steps r)
    = Some (Simulation.Wire Simulation.Create_batch_quizzes None
              (HttpRequest (Http.Request "POST"
                 "http://api/api/v3/lessons/lesson-1/quizzes/batch_quizzes"
                 (Some "teacher-token")
                 (Http.QuizzesBody "lesson-1" "collection-1"))))
  ∧ filter (λ st, Vocabulary.upto 4 st = false) (Vocabulary.steps r) = []
  ∧ Vocabulary.verifications r = [].
Proof. vm_compute. done. Qed.

(** C3, amended.  When the creation of the batch returns [None], the run
    ends there: it takes no step of a later phase (no verification, no
    fetch or submit, no finish, disclose, close or award, no disconnect, no
    summary) and does not reach its end. *)
Theorem batch_failure_aborts_the_run (cfg : Simulation.config)
    (env : Simulation.Env) :
  (∀ t lesson,
     ret (Teacher.create_batch_quizzes t lesson (Simulation.batch_reply env))
     = Return None) →
  let r := Simulation.simulate cfg env in
  Forall (λ x, Vocabulary.upto 4 x.1 = true) (Simulation.trace r)
  ∧ Simulation.ending r ≠ Simulation.Next ().
Proof.
  intros Hfail r.
  destruct (run_upto_batch_creation cfg env Hfail (Simulation.initial cfg) I)
    as [Htrace Hend].
  split; [exact Htrace|]. intros Hnext. by apply (Hend () Hnext).
Qed.

Lemma batch_failure_aborts_the_run_witness :
  Simulation.ending
    (Simulation.simulate (Vocabulary.classroom 2)
       (Vocabulary.example_env Vocabulary.lesson_ok (Http.Failed "ConnectionError")
          (λ _, true) (λ i, "id-" +:+ Vocabulary.tag i) 2))
  ≠ Simulation.Next ().
Proof.
  apply (batch_failure_aborts_the_run (Vocabulary.classroom 2)
           (Vocabulary.example_env Vocabulary.lesson_ok (Http.Failed "ConnectionError")
              (λ _, true) (λ i, "id-" +:+ Vocabulary.tag i) 2)).
  intros t lesson. reflexivity.
Defined.


(** ** The audience of a verification *)

Ltac vstep :=
  lazymatch goal with
  | |- Vocabulary.holds _
         (Simulation.gets (λ w, Simulation.seated_ids (Simulation.students w)) ≫= _) _ _ =>
      eapply holds_bind; [apply holds_gets | intros ?];
      eapply holds_bind;
        [ apply holds_assert_all_received; intros ? [-> _]; split; reflexivity
        | intros ? ];
      apply holds_trivially
  end.

(** C2, as stated, fails.  The only student is answered
    [{"student_id": ""}] when it claims its slot: its identity is not
    [None], but it is no member of any expected set. *)
Lemma empty_identity_is_not_expected :
  Vocabulary.verifications
    (Simulation.simulate (Vocabulary.classroom 1)
       (Vocabulary.example_env Vocabulary.lesson_ok Vocabulary.batch_ok
          (λ _, true) (λ _, "") 1))
  = [("batch_quizzes_created", 0%nat, false);
     ("batch_quizzes_finished", 0%nat, false);
     ("batch_quizzes_disclosed", 0%nat, false);
     ("batch_quizzes_closed", 0%nat, false);
     ("student_points", 0%nat, false)].
Proof. vm_compute. reflexivity. Qed.

(** C2, amended.  At every verification of a run the expected set is the
    set of the identities, at that moment, of the students whose
    [student_id] is neither [None] nor empty, and the total is the size of
    the population; neither depends on who is connected. *)
Theorem verifications_expect_the_seated (cfg : Simulation.config)
    (env : Simulation.Env) :
  Forall (Vocabulary.verifies_seated cfg)
    (Simulation.trace (Simulation.simulate cfg env)).
Proof.
  assert (H : Vocabulary.holds (λ _, True) (Simulation.run_simulation cfg env)
                (Vocabulary.verifies_seated cfg) (λ _ _, True)).
  { unfold Simulation.run_simulation, Simulation.choose_seats.
    repeat hstep. tcall. branch.
    repeat hstep. branch.
    repeat hstep. tcall. branch.
    repeat first [vstep | tcall | hstep].
    quiet. }
  apply (H (Simulation.initial cfg) I).
Qed.

(** A run of five students that all connect and claim a slot: five
    verifications, each expecting five identities. *)
Example five_students_five_verifications :
  let r := Simulation.simulate (Vocabulary.classroom 5)
             (Vocabulary.example_env Vocabulary.lesson_ok Vocabulary.batch_ok
                (λ _, true) (λ i, "id-" +:+ Vocabulary.tag i) 5) in
  Simulation.ending r = Simulation.Next ()
  ∧ Vocabulary.verifications r
    = [("batch_quizzes_created", 5%nat, true);
       ("batch_quizzes_finished", 5%nat, true);
       ("batch_quizzes_disclosed", 5%nat, true);
       ("batch_quizzes_closed", 5%nat, true);
       ("student_points", 5%nat, true)]
  ∧ filter (λ l, lvl l = ERROR) (Simulation.log r) = [].
Proof. vm_compute. done. Qed.

(** ** The two fatal preconditions *)

Section FatalFacts.

Import Simulation Vocabulary.

Lemma bind_eq {A B} (m : Sim A) (k : A → Sim B) (w w' : World) (a : A)
    (l : list LogRec) (t : list (step * World)) :
  m w = Run (Next a) w' l t →
  (m ≫= k) w
  = Run (ending (k a w')) (world (k a w')) (l ++ log (k a w')) (t ++ trace (k a w')).
Proof. intros H. rewrite bind_unfold. unfold bind. by rewrite H. Qed.

(** What a student becomes under handlers, and so whether its
    [connect_socket] succeeds, does not depend on the tracker. *)
Lemma handle_student_indep (ev : Student.socket_event) (s : Student.t)
    (tr tr' : EventTracker.t) :
  (after (Student.handle ev s tr)).1 = (after (Student.handle ev s tr')).1.
Proof. destruct ev as [| | |[] []|]; reflexivity. Qed.

Lemma deliver_student_indep (evs : list Student.socket_event) (s : Student.t)
    (tr tr' : EventTracker.t) :
  (after (Student.deliver evs s tr)).1 = (after (Student.deliver evs s tr')).1.
Proof.
  induction evs as [|ev evs IH] using rev_ind; [done|].
  rewrite !deliver_snoc. cbn zeta. cbn [after].
  rewrite IH. apply handle_student_indep.
Qed.

Lemma connect_poll_ret_indep (rounds : nat → list Student.socket_event * Sio.view)
    (fuel j : nat) (s : Student.t) (tr tr' : EventTracker.t) :
  ret (Student.connect_poll rounds fuel j s tr)
  = ret (Student.connect_poll rounds fuel j s tr').
Proof.
  revert j s tr tr'. induction fuel as [|fuel IH]; intros j s tr tr'; [done|].
  cbn [Student.connect_poll]. case_match; [done|]. cbn [ret].
  rewrite (deliver_student_indep _ s tr tr'). apply IH.
Qed.

Lemma connect_socket_ret_indep (s : Student.t) (tr tr' : EventTracker.t)
    (err : option string) (rounds : nat → list Student.socket_event * Sio.view) :
  ret (Student.connect_socket s tr err rounds)
  = ret (Student.connect_socket s tr' err rounds).
Proof.
  unfold Student.connect_socket. generalize 50%nat. intros fuel.
  destruct err as [e|]; [reflexivity|].
  cbv beta iota zeta delta [ret].
  rewrite (deliver_student_indep _ s tr tr'). apply connect_poll_ret_indep.
Qed.

Lemma range_from_one (n : Z) :
  Py.range 1 (n + 1) 1 = (λ j : nat, Z.of_nat j + 1) <$> seq 0 (Z.to_nat n).
Proof.
  unfold Py.range. replace (n + 1 - 1 + 1 - 1) with n by lia.
  rewrite Z.div_1_r. apply list_fmap_ext. intros _ j _. lia.
Qed.

Lemma spawn_run (cfg : config) (env : Env) (i : Z) (w : World) :
  spawn cfg env i w
  = Run (Next ())
      (set_students
         (students w ++ [Student.init i (api_url cfg) (socket_url cfg) (uuid env i)]) w)
      [] [(Spawn i, w)].
Proof. reflexivity. Qed.

Lemma spawn_all_world (cfg : config) (env : Env) (numbers : list Z) (w : World) :
  let r := spawn_all cfg env numbers w in
  ending r = Next ()
  ∧ world r
    = set_students
        (students w
         ++ ((λ i, Student.init i (api_url cfg) (socket_url cfg) (uuid env i))
               <$> numbers)) w.
Proof.
  revert w. induction numbers as [|i rest IH]; intros w.
  - simpl. rewrite app_nil_r. by destruct w.
  - cbn [spawn_all]. cbv zeta.
    rewrite (bind_eq _ _ _ _ _ _ _ (spawn_run cfg env i w)). cbn [ending world].
    destruct (IH (set_students
      (students w ++ [Student.init i (api_url cfg) (socket_url cfg) (uuid env i)]) w))
      as [He Hw].
    cbv zeta in He, Hw. rewrite He, Hw.
    split; [done|]. cbn. by rewrite <- app_assoc.
Qed.

Lemma count_true_cons (r : res bool) (rs : list (res bool)) :
  count_true (r :: rs) = (if is_True r then 1 else 0) + count_true rs.
Proof.
  unfold count_true. destruct (is_True r) eqn:Hr.
  - rewrite filter_cons_True by done. cbn [length]. lia.
  - rewrite filter_cons_False; [lia|]. by rewrite Hr.
Qed.

(** The students none of which connects: the gather returns no [True]. *)
Lemma connect_tasks_none (cfg : config) (env : Env) (members : list nat)
    (w : World) :
  NoDup members →
  (∀ i, i ∈ members →
     students w !! i = Some (fresh cfg env i) ∧ connects cfg env i = false) →
  ∃ rs,
    ending (tasks (λ i, student_task_tracker Connect_socket i
                          (λ s t, Student.connect_socket s t (connect_error env i)
                                    (connect_rounds env i))) members w)
    = Next rs
    ∧ count_true rs = 0.
Proof.
  revert w. induction members as [|i rest IH]; intros w Hnd Hall.
  - exists []. by split.
  - apply NoDup_cons in Hnd as [Hi Hnd].
    destruct (Hall i) as [Hs Hc]; [by left|].
    set (o := Student.connect_socket (fresh cfg env i) (event_tracker w)
                (connect_error env i) (connect_rounds env i)).
    set (w' := mkWorld (after o).2 (teacher w) (<[i := (after o).1]> (students w))).
    assert (Htask :
      student_task_tracker Connect_socket i
        (λ s t, Student.connect_socket s t (connect_error env i) (connect_rounds env i)) w
      = Run (Next (ret o)) w' (logged o)
          ((λ e, (Wire Connect_socket (Some i) e, w)) <$> effects o)).
    { unfold student_task_tracker. rewrite Hs. reflexivity. }
    destruct (IH w' Hnd) as (rs & He & Hrs).
    { intros j Hj. destruct (Hall j) as [Hsj Hcj]; [by right|].
      split; [|done]. unfold w'. cbn [students].
      rewrite list_lookup_insert_ne; [done|]. intros ->. done. }
    cbn [tasks]. rewrite (bind_eq _ _ _ _ _ _ _ Htask). cbn [ending].
    rewrite bind_unfold. unfold bind. rewrite He. cbn [ending pure].
    eexists. split; [reflexivity|].
    rewrite count_true_cons, Hrs.
    unfold connects in Hc. unfold o.
    rewrite (connect_socket_ret_indep _ _ EventTracker.new), Hc. done.
Qed.

Lemma holds_value {A} (P : step * World → Prop) (Pre : World → Prop)
    (m : Sim A) (Post : A → World → Prop) (V : A → Prop) :
  holds Pre m P Post →
  (∀ w a, Pre w → ending (m w) = Next a → V a) →
  holds Pre m P (λ a _, V a).
Proof.
  intros H HV w Hw. destruct (H w Hw) as [Ht _].
  split; [done|]. intros a Ha. by eapply HV.
Qed.

Lemma holds_pre {A} (P : step * World → Prop) (Pre Pre' : World → Prop)
    (m : Sim A) (Post : A → World → Prop) :
  holds Pre m P Post → (∀ w, Pre' w → Pre w) → holds Pre' m P Post.
Proof. intros H Hpre. by eapply holds_weaken. Qed.

Lemma dispatch_no_students (i : nat) (ev : Student.socket_event) (w : World) :
  students w = [] → students (world (dispatch i ev w)) = [].
Proof. intros Hw. unfold dispatch. by rewrite Hw. Qed.

Lemma holds_spawn_population (P : step * World → Prop) (cfg : config) (env : Env) :
  (∀ n, always P (Spawn n)) →
  holds (λ w, students w = [])
    (spawn_all cfg env (Py.range 1 (num_students cfg + 1) 1)) P
    (λ _ w, students w = fresh cfg env <$> seq 0 (Z.to_nat (num_students cfg))).
Proof.
  intros HP w Hw. split.
  - by apply (holds_spawn_all (λ _, True) cfg env _ HP w).
  - intros _ _.
    destruct (spawn_all_world cfg env (Py.range 1 (num_students cfg + 1) 1) w)
      as [_ Hworld].
    cbv zeta in Hworld. rewrite Hworld, Hw, range_from_one. cbn [students set_students].
    rewrite app_nil_l, <- list_fmap_compose. reflexivity.
Qed.

End FatalFacts.

(** When the creation of the lesson returns nothing usable ([None], or an
    empty id), the run returns at once: its only steps are that call and
    its request, no student exists, and the last thing logged is the
    abort. *)
Theorem lesson_failure_stops_the_run (cfg : Simulation.config)
    (env : Simulation.Env) (v : option string) :
  ret (Teacher.create_lesson (Simulation.teacher (Simulation.initial cfg))
         (Simulation.lesson_reply env)) = Return v →
  Py.truthy v = false →
  let r := Simulation.simulate cfg env in
  Simulation.ending r = Simulation.Returned
  ∧ Simulation.students (Simulation.world r) = []
  ∧ Forall (λ x, Vocabulary.lesson_step x.1 = true) (Simulation.trace r)
  ∧ last (Simulation.log r)
    = Some (mkLog ERROR "Failed to create lesson. Aborting simulation." []).
Proof.
  intros Hret Hv r. unfold r, Simulation.simulate, Simulation.run_simulation.
  erewrite bind_eq by reflexivity.
  erewrite bind_eq by reflexivity.
  erewrite bind_eq;
    [|unfold Simulation.teacher_call; rewrite Hret; reflexivity].
  rewrite Hv. cbn [negb].
  cbn [Simulation.ending Simulation.world Simulation.log Simulation.trace].
  repeat split.
  - rewrite app_nil_r. constructor; [done|].
    apply Forall_fmap, Forall_forall. by intros e _.
  - rewrite !app_assoc. apply last_snoc.
Qed.

Lemma lesson_failure_stops_the_run_witness :
  let r := Simulation.simulate (Vocabulary.classroom 3)
             (Vocabulary.example_env (Http.Failed "ConnectionError") Vocabulary.batch_ok
                (λ _, true) (λ i, "id-" +:+ Vocabulary.tag i) 3) in
  Simulation.ending r = Simulation.Returned
  ∧ Simulation.students (Simulation.world r) = [].
Proof.
  intros r.
  pose proof (lesson_failure_stops_the_run (Vocabulary.classroom 3)
    (Vocabulary.example_env (Http.Failed "ConnectionError") Vocabulary.batch_ok
       (λ _, true) (λ i, "id-" +:+ Vocabulary.tag i) 3) None
    eq_refl eq_refl) as (H1 & H2 & _).
  split; [exact H1|exact H2].
Defined.

(** When no [connect_socket] returns [True], the run stops before the
    seats: it takes only steps of the creation of the lesson and of the
    connection phase, and does not reach its end. *)
Theorem no_connection_stops_the_run (cfg : Simulation.config)
    (env : Simulation.Env) :
  (∀ i, (i < Z.to_nat (Simulation.num_students cfg))%nat →
        Vocabulary.connects cfg env i = false) →
  let r := Simulation.simulate cfg env in
  Forall (λ x, Vocabulary.upto 2 x.1 = true) (Simulation.trace r)
  ∧ Simulation.ending r ≠ Simulation.Next ().
Proof.
  intros Hnone r.
  assert (H : Vocabulary.holds (λ w, Simulation.students w = [])
                (Simulation.run_simulation cfg env)
                (λ x, Vocabulary.upto 2 x.1 = true) (λ _ _, False)).
  { unfold Simulation.run_simulation.
    eapply holds_bind; [apply holds_logs|intros ?].
    eapply holds_bind; [apply holds_info|intros ?].
    eapply holds_bind; [apply holds_teacher_call; always_tac|intros lesson_id].
    eapply (holds_pre _ (λ w, Simulation.students w = []));
      [|intros w (w0 & H0 & _ & ->); exact H0].
    branch.
    eapply holds_bind;
      [apply (holds_sleep (λ w, Simulation.students w = []));
         [always_tac|always_tac|intros; by apply dispatch_no_students]
      |intros ?].
    eapply holds_bind; [apply holds_info|intros ?].
    eapply holds_bind; [apply holds_spawn_population; always_tac|intros ?].
    eapply holds_bind; [apply holds_gets|intros everyone].
    eapply holds_bind; [|intros connect_results].
    { eapply (holds_value _ _ _ (λ _ _, True) (λ rs, Simulation.count_true rs = 0)).
      - apply holds_trivially.
        apply (holds_gather (λ _, True)); [always_tac|]. intros.
        apply (holds_student_task_tracker (λ _, True)); [always_tac|done].
      - intros w rs [-> Hw] Hend.
        unfold Simulation.gather in Hend.
        erewrite bind_eq in Hend by reflexivity. cbn [Simulation.ending] in Hend.
        destruct (connect_tasks_none cfg env
                    (seq 0 (length (Simulation.students w))) w)
          as (rs' & Hrs' & Hcount).
        + apply NoDup_seq.
        + intros i Hi. apply elem_of_seq in Hi as [_ Hi].
          rewrite Hw, length_fmap, length_seq in Hi. simpl in Hi.
          split; [|by apply Hnone].
          rewrite Hw, list_lookup_fmap, lookup_seq_lt by done. done.
        + rewrite Hrs' in Hend. by injection Hend as <-. }
    cbv beta. apply holds_assume. intros Hcount.
    hstep. rewrite Hcount. cbv iota. change (0 =? 0)%Z with true. cbv iota.
    apply holds_abort. }
  destruct (H (Simulation.initial cfg) eq_refl) as [Htrace Hend].
  split; [exact Htrace|]. intros Hnext. by apply (Hend () Hnext).
Qed.

Lemma no_connection_stops_the_run_witness :
  Simulation.ending
    (Simulation.simulate (Vocabulary.classroom 2)
       (Vocabulary.example_env Vocabulary.lesson_ok Vocabulary.batch_ok
          (λ _, false) (λ i, "id-" +:+ Vocabulary.tag i) 2))
  ≠ Simulation.Next ().
Proof.
  apply (no_connection_stops_the_run (Vocabulary.classroom 2)
           (Vocabulary.example_env Vocabulary.lesson_ok Vocabulary.batch_ok
              (λ _, false) (λ i, "id-" +:+ Vocabulary.tag i) 2)).
  intros i Hi. vm_compute. reflexivity.
Defined.


(** ** The seat phase *)

Section SeatFacts.

Import Simulation Vocabulary.

Lemma rhythm_bind {A B} (m : Sim A) (k : A → Sim B) (w : World) (a : A) :
  ending (m w) = Next a →
  rhythm ((m ≫= k) w) = rhythm (m w) ++ rhythm (k a (world (m w))).
Proof.
  intros H. rewrite bind_unfold. unfold bind. rewrite H.
  unfold rhythm. cbn [trace]. apply omap_app.
Qed.

Lemma ending_bind {A B} (m : Sim A) (k : A → Sim B) (w : World) (a : A) :
  ending (m w) = Next a →
  ending ((m ≫= k) w) = ending (k a (world (m w))).
Proof. intros H. rewrite bind_unfold. unfold bind. by rewrite H. Qed.

Lemma dispatch_quiet (i : nat) (ev : Student.socket_event) (w : World) :
  ending (dispatch i ev w) = Next () ∧ rhythm (dispatch i ev w) = [].
Proof.
  unfold dispatch. destruct (students w !! i); [|done].
  split; [done|]. unfold rhythm. cbn [trace].
  induction (effects _) as [|e l IH]; [done|]. exact IH.
Qed.

Lemma tick_quiet (evs : list (nat * Student.socket_event)) (w : World) :
  ending (tick evs w) = Next () ∧ rhythm (tick evs w) = [].
Proof.
  revert w. induction evs as [|[i ev] evs IH]; intros w; [done|].
  cbn [tick]. destruct (dispatch_quiet i ev w) as [He Hr].
  rewrite (ending_bind _ _ _ _ He), (rhythm_bind _ _ _ _ He), Hr.
  apply IH.
Qed.

Lemma student_task_quiet {A} (o : op) (i : nat)
    (f : Student.t → outcome Student.t A) (w : World) :
  (∃ r, ending (student_task o i f w) = Next r)
  ∧ rhythm (student_task o i f w) = [].
Proof.
  unfold student_task. destruct (students w !! i); [|by eauto].
  split; [by eauto|]. unfold rhythm. cbn [trace].
  induction (effects _) as [|e l IH]; [done|]. exact IH.
Qed.

Lemma tasks_quiet {A} (o : op) (f : nat → Student.t → outcome Student.t A)
    (members : list nat) (w : World) :
  (∃ rs, ending (tasks (λ i, student_task o i (f i)) members w) = Next rs)
  ∧ rhythm (tasks (λ i, student_task o i (f i)) members w) = [].
Proof.
  revert w. induction members as [|i rest IH]; intros w; [by eauto|].
  cbn [tasks]. destruct (student_task_quiet o i (f i) w) as [[r He] Hr].
  rewrite (ending_bind _ _ _ _ He), (rhythm_bind _ _ _ _ He), Hr.
  destruct (IH (world (student_task o i (f i) w))) as [[rs He'] Hr'].
  rewrite (ending_bind _ _ _ _ He'), (rhythm_bind _ _ _ _ He'), Hr'.
  split; [by eauto|done].
Qed.

Lemma rhythm_logs_bind {B} (l : list LogRec) (k : () → Sim B) (w : World) :
  rhythm ((logs l ≫= k) w) = rhythm (k () w).
Proof. by rewrite (rhythm_bind (logs l) k w () eq_refl). Qed.

Lemma rhythm_pure_bind {A B} (a : A) (k : A → Sim B) (w : World) :
  rhythm ((pure a ≫= k) w) = rhythm (k a w).
Proof. by rewrite (rhythm_bind (pure a) k w a eq_refl). Qed.

Lemma rhythm_tick_bind {B} (evs : list (nat * Student.socket_event))
    (k : () → Sim B) (w : World) :
  rhythm ((tick evs ≫= k) w) = rhythm (k () (world (tick evs w))).
Proof.
  destruct (tick_quiet evs w) as [He Hr].
  by rewrite (rhythm_bind _ _ _ _ He), Hr.
Qed.

Lemma sleep_rhythm (env : Env) (ms : Z) (pt : await_point) (w : World) :
  ending (sleep env ms pt w) = Next () ∧ rhythm (sleep env ms pt w) = [Pause ms].
Proof.
  unfold sleep. destruct (tick_quiet (during env pt) w) as [He Hr].
  rewrite (ending_bind (does (Sleeping ms)) _ w () eq_refl).
  rewrite (rhythm_bind (does (Sleeping ms)) _ w () eq_refl).
  cbn [world does]. by rewrite He, Hr.
Qed.

Lemma gather_seats_rhythm (env : Env) (lesson : string) (batch : list nat)
    (w : World) :
  let g := gather Choose_seat batch
             (λ j, student_task Choose_seat j
                     (λ s, Student.choose_seat s lesson (seat_sio env j)
                             (seat_reply env j) (seat_settled env j))) in
  (∃ rs, ending (g w) = Next rs) ∧ rhythm (g w) = [Batch batch].
Proof.
  intros g. unfold g, gather.
  destruct (tasks_quiet Choose_seat
              (λ j s, Student.choose_seat s lesson (seat_sio env j)
                        (seat_reply env j) (seat_settled env j)) batch w)
    as [[rs He] Hr].
  rewrite (ending_bind (does (Gather Choose_seat batch)) _ w () eq_refl).
  rewrite (rhythm_bind (does (Gather Choose_seat batch)) _ w () eq_refl).
  cbn [world does]. rewrite Hr. split; [by eauto|done].
Qed.

Lemma seat_batches_rhythm (env : Env) (lesson : string)
    (connected_students : list nat) (starts : list Z) (seated_count : Z)
    (w : World) :
  rhythm (seat_batches env lesson connected_students starts seated_count w)
  = starts ≫= round connected_students.
Proof.
  revert seated_count w.
  induction starts as [|i rest IH]; intros seated_count w; [done|].
  cbn [seat_batches]. cbv zeta.
  rewrite rhythm_logs_bind.
  destruct (gather_seats_rhythm env lesson
              (Py.slice connected_students i (i + batch_size)) w)
    as [[rs He] Hr].
  cbv zeta in He, Hr.
  rewrite (rhythm_bind _ _ _ _ He), Hr.
  rewrite rhythm_tick_bind, rhythm_logs_bind.
  change (mbind (round connected_students) (i :: rest))
    with (round connected_students i ++ (rest ≫= round connected_students)).
  unfold round at 1. cbn [app]. f_equal.
  destruct (i + batch_size <? Z.of_nat (length connected_students))%Z;
    cbn [when].
  - match goal with
    | |- rhythm ((sleep env 1000 ?pt ≫= _) ?w0) = _ =>
        destruct (sleep_rhythm env 1000 pt w0) as [Hes Hrs]
    end.
    rewrite (rhythm_bind _ _ _ _ Hes), Hrs. cbn [app]. by rewrite IH.
  - rewrite rhythm_pure_bind. cbn [app]. apply IH.
Qed.

(** The arithmetic of the chunks. *)
Lemma ceil_tenth (k : nat) :
  ∃ q r, ((k + 9) / 10 = q ∧ k + 9 = 10 * q + r ∧ r < 10)%nat.
Proof.
  exists ((k + 9) / 10)%nat, ((k + 9) mod 10)%nat. split; [done|]. split.
  - apply Nat.div_mod_eq.
  - apply Nat.mod_upper_bound. lia.
Qed.

Lemma range_tens (k : nat) :
  Py.range 0 (Z.of_nat k) batch_size
  = (λ j : nat, Z.of_nat (10 * j)) <$> seq 0 ((k + 9) / 10).
Proof.
  unfold Py.range, batch_size.
  replace ((Z.of_nat k - 0 + 10 - 1) / 10) with (Z.of_nat ((k + 9) / 10)).
  - rewrite Nat2Z.id. apply list_fmap_ext. intros _ j _. lia.
  - rewrite Nat2Z.inj_div. f_equal. lia.
Qed.

Lemma round_tens (l : list nat) (j : nat) :
  round l (Z.of_nat (10 * j))
  = Batch (chunk l j)
    :: (if (10 * j + 10 <? length l)%nat then [Pause 1000] else []).
Proof.
  unfold round, Py.slice, batch_size, chunk.
  replace (Z.to_nat (Z.of_nat (10 * j) + 10 - Z.of_nat (10 * j))) with 10%nat by lia.
  rewrite Nat2Z.id. f_equal.
  destruct (10 * j + 10 <? length l)%nat eqn:Hn.
  - apply Nat.ltb_lt in Hn. rewrite (proj2 (Z.ltb_lt _ _)); [done|lia].
  - apply Nat.ltb_ge in Hn. rewrite (proj2 (Z.ltb_ge _ _)); [done|lia].
Qed.

Lemma rounds_between (l : list nat) (a m : nat) :
  (a + m = (length l + 9) / 10)%nat →
  (seq a m ≫= λ j, round l (Z.of_nat (10 * j)))
  = between (Pause 1000) (Batch <$> (chunk l <$> seq a m)).
Proof.
  destruct (ceil_tenth (length l)) as (q & r & -> & Hq & Hr).
  revert a. induction m as [|m IH]; intros a Ham; [done|].
  cbn [seq]. rewrite bind_cons, round_tens, IH by lia.
  destruct m as [|m].
  - rewrite (proj2 (Nat.ltb_ge _ _)) by lia. reflexivity.
  - rewrite (proj2 (Nat.ltb_lt _ _)) by lia. reflexivity.
Qed.

Lemma batches_between (bs : list (list nat)) :
  batches (between (Pause 1000) (Batch <$> bs)) = bs.
Proof.
  induction bs as [|b bs IH]; [done|].
  destruct bs as [|b' bs]; [done|].
  change (batches (Batch b :: Pause 1000 :: between (Pause 1000) (Batch <$> b' :: bs))
          = b :: b' :: bs).
  change (b :: batches (between (Pause 1000) (Batch <$> b' :: bs)) = b :: b' :: bs).
  by rewrite IH.
Qed.

Lemma concat_chunks (l : list nat) (a m : nat) :
  concat (chunk l <$> seq a m) = take (10 * m) (drop (10 * a) l).
Proof.
  revert a. induction m as [|m IH]; intros a.
  - by rewrite Nat.mul_0_r.
  - cbn [seq fmap list_fmap concat]. rewrite IH. unfold chunk.
    replace (10 * S a)%nat with (10 * a + 10)%nat by lia.
    rewrite <- drop_drop, take_take_drop. f_equal. lia.
Qed.

End SeatFacts.

(** In the seat phase the students still connected are gathered ten at a
    time, each exactly once and in order: [ceil(k / 10)] batches for [k]
    students, all of ten but possibly a smaller last one, with a sleep of
    one second between two batches and none after the last. *)
Theorem seats_are_claimed_in_chunks (env : Simulation.Env) (lesson : string)
    (connected_students : list nat) (w : Simulation.World) :
  let k := length connected_students in
  let beats := Vocabulary.rhythm
                 (Simulation.choose_seats env lesson connected_students w) in
  let groups := Vocabulary.batches beats in
  beats = Vocabulary.between (Vocabulary.Pause 1000) (Vocabulary.Batch <$> groups)
  ∧ concat groups = connected_students
  ∧ length groups = ((k + 9) / 10)%nat
  ∧ (∀ j b, groups !! j = Some b → length b = (10 `min` (k - 10 * j))%nat)
  ∧ Forall (λ b, (1 ≤ length b ≤ 10)%nat) groups.
Proof.
  intros k beats groups.
  assert (Hbeats : beats
    = Vocabulary.between (Vocabulary.Pause 1000)
        (Vocabulary.Batch <$> (Vocabulary.chunk connected_students
                                 <$> seq 0 ((k + 9) / 10)))).
  { unfold beats, Simulation.choose_seats.
    rewrite seat_batches_rhythm, range_tens, list_fmap_bind.
    by rewrite <- rounds_between by (unfold k; lia). }
  assert (Hgroups : groups
    = Vocabulary.chunk connected_students <$> seq 0 ((k + 9) / 10)).
  { unfold groups. by rewrite Hbeats, batches_between. }
  assert (Hlen : ∀ j b, groups !! j = Some b →
            (j < (k + 9) / 10)%nat
            ∧ length b = (10 `min` (k - 10 * j))%nat).
  { intros j b. rewrite Hgroups, list_lookup_fmap.
    intros Hj. apply fmap_Some in Hj as (j' & Hj' & ->).
    apply lookup_seq in Hj' as [-> Hlt]. split; [done|].
    unfold Vocabulary.chunk. by rewrite length_take, length_drop. }
  destruct (ceil_tenth k) as (q & r & Hq & Hk & Hr).
  split; [by rewrite Hgroups at 1; rewrite <- Hgroups, Hbeats, <- Hgroups|].
  split; [|split; [|split]].
  - rewrite Hgroups, concat_chunks. cbn [drop Nat.mul].
    apply take_ge. fold k. lia.
  - by rewrite Hgroups, length_fmap, length_seq.
  - intros j b Hj. by apply Hlen.
  - apply Forall_lookup. intros j b Hj.
    destruct (Hlen j b Hj) as [Hlt ->]. lia.
Qed.

(** Twenty-five connected students: three batches, of ten, ten and five,
    and two sleeps, none after the last batch. *)
Example twenty_five_students_three_batches :
  let cfg := Vocabulary.classroom 25 in
  let env := Vocabulary.example_env Vocabulary.lesson_ok Vocabulary.batch_ok
               (λ _, true) (λ i, "id-" +:+ Vocabulary.tag i) 25 in
  let w := Simulation.world
             (Simulation.spawn_all cfg env (Py.range 1 26 1) (Simulation.initial cfg)) in
  (λ b, match b with
        | Vocabulary.Batch members => inl (length members)
        | Vocabulary.Pause ms => inr ms
        end)
    <$> Vocabulary.rhythm (Simulation.choose_seats env "lesson-1" (seq 0 25) w)
  = [inl 10%nat; inr 1000; inl 10%nat; inr 1000; inl 5%nat].
Proof. vm_compute. reflexivity. Qed.

(** ** More about the tracker and the handlers *)

Section RecordingFacts.

Import Student.

Lemma tracker_eq (t t' : EventTracker.t) :
  (∀ k, EventTracker.field t k = EventTracker.field t' k) → t = t'.
Proof.
  intros H. destruct t, t'.
  pose proof (H EventTracker.Created). pose proof (H EventTracker.Finished).
  pose proof (H EventTracker.Disclosed). pose proof (H EventTracker.Closed).
  pose proof (H EventTracker.Points). simpl in *. by subst.
Qed.

End RecordingFacts.

(** Recording is idempotent and the order of two recordings does not
    matter: an event delivered twice to a student, or two events delivered
    in either order, leave the same tracker. *)
Theorem recording_is_idempotent_and_commutative
    (k k' : EventTracker.kind) (s s' : Student.t) (tracker : EventTracker.t) :
  Student.record_event k s (Student.record_event k s tracker)
    = Student.record_event k s tracker
  ∧ Student.record_event k s (Student.record_event k' s' tracker)
    = Student.record_event k' s' (Student.record_event k s tracker)
  ∧ (∀ j, size (EventTracker.field
                  (Student.record_event k s (Student.record_event k s tracker)) j)
          = size (EventTracker.field (Student.record_event k s tracker) j)).
Proof.
  assert (H1 : Student.record_event k s (Student.record_event k s tracker)
               = Student.record_event k s tracker).
  { apply tracker_eq. intros j. apply set_eq. intros id.
    rewrite !elem_of_record_event. naive_solver. }
  split; [exact H1|]. split.
  - apply tracker_eq. intros j. apply set_eq. intros id.
    rewrite !elem_of_record_event. naive_solver.
  - intros j. by rewrite H1.
Qed.

(** ** What the handlers keep *)

Section AudienceFacts.

Import Simulation Vocabulary.

Lemma seated_ids_insert (l : list Student.t) (i : nat) (s s' : Student.t) :
  l !! i = Some s → Student.student_id s' = Student.student_id s →
  seated_ids (<[i := s']> l) = seated_ids l.
Proof.
  intros Hl Hid. unfold seated_ids. f_equal.
  revert i Hl. induction l as [|x l IH]; intros i Hl; [done|].
  destruct i as [|i]; simpl in *.
  - injection Hl as ->. by rewrite Hid.
  - fold (@omap list _ Student.t string). by rewrite (IH i Hl).
Qed.

Lemma dispatch_keeps (i : nat) (ev : Student.socket_event) (w : World) :
  let w' := world (dispatch i ev w) in
  seated_ids (students w') = seated_ids (students w)
  ∧ length (students w') = length (students w)
  ∧ teacher w' = teacher w
  ∧ ∀ k, EventTracker.field (event_tracker w) k
         ⊆ EventTracker.field (event_tracker w') k.
Proof.
  unfold dispatch. destruct (students w !! i) as [s|] eqn:Hs; [|done].
  cbn [world students teacher event_tracker].
  destruct (handle_seat ev s (event_tracker w)) as (Hid & _ & _).
  cbv zeta in Hid.
  split; [by eapply seated_ids_insert|].
  split; [by rewrite length_insert|]. split; [done|].
  intros k id Hin. rewrite handle_tracker.
  destruct ev; try done. apply elem_of_record_event. by left.
Qed.

End AudienceFacts.

(** The handlers run during a suspension keep the audience: the set of
    seated identities, the number of students and the teacher are as
    before, and no identity leaves the tracker. *)
Theorem suspensions_keep_the_audience
    (evs : list (nat * Student.socket_event)) (w : Simulation.World) :
  let w' := Simulation.world (Simulation.tick evs w) in
  Simulation.seated_ids (Simulation.students w')
    = Simulation.seated_ids (Simulation.students w)
  ∧ length (Simulation.students w') = length (Simulation.students w)
  ∧ Simulation.teacher w' = Simulation.teacher w
  ∧ ∀ k, EventTracker.field (Simulation.event_tracker w) k
         ⊆ EventTracker.field (Simulation.event_tracker w') k.
Proof.
  revert w. induction evs as [|[i ev] evs IH]; intros w; [done|].
  cbn [Simulation.tick]. cbv zeta.
  rewrite bind_unfold. unfold Simulation.bind.
  destruct (dispatch_quiet i ev w) as [He _]. rewrite He.
  cbn [Simulation.world].
  destruct (dispatch_keeps i ev w) as (H1 & H2 & H3 & H4).
  destruct (IH (Simulation.world (Simulation.dispatch i ev w)))
    as (G1 & G2 & G3 & G4).
  cbv zeta in *. rewrite G1, G2, G3, H1, H2, H3.
  repeat split. intros k. etransitivity; [apply H4|apply G4].
Qed.

(** ** Disconnecting and acknowledging *)

(** [on_disconnect] always leaves a non-empty reason: the first positional
    argument if it is one, else the keyword argument [reason] if it is
    one, else ["Unknown"]; it marks the student disconnected and touches
    nothing else. *)
Theorem on_disconnect_records_a_reason (self : Student.t)
    (args : list (option string)) (kwargs : gmap string (option string)) :
  let o := Student.on_disconnect self args kwargs in
  let first := default None (head args) in
  let named := default None (kwargs !! "reason") in
  Student.disconnect_reason (after o)
    = Some (if Py.truthy first then default "" first
            else if Py.truthy named then default "" named
            else "Unknown")
  ∧ Py.truthy (Student.disconnect_reason (after o)) = true
  ∧ Student.connected (after o) = false
  ∧ after o
    = Student.set_connected false
        (Student.set_disconnect_reason (Student.disconnect_reason (after o)) self)
  ∧ effects o = [].
Proof.
  intros o first named.
  assert (Hreason : Student.disconnect_reason (after o)
            = Some (if Py.truthy first then default "" first
                    else if Py.truthy named then default "" named
                    else "Unknown")).
  { unfold o, Student.on_disconnect.
    cbn [after Student.disconnect_reason Student.set_connected
         Student.set_disconnect_reason].
    replace (match args with a :: _ => a | [] => None end) with first
      by (unfold first; by destruct args).
    fold named.
    destruct (Py.truthy first) eqn:H1; cbn [negb andb].
    - rewrite H1. by apply truthy_default.
    - case_bool_decide as Hk.
      + destruct (Py.truthy named) eqn:H2; [by apply truthy_default|done].
      + rewrite H1. unfold named.
        destruct (kwargs !! "reason"); [by destruct Hk|done]. }
  split; [exact Hreason|]. split; [|split; [|split]].
  - rewrite Hreason. apply truthy_Some. eexists. split; [done|].
    destruct (Py.truthy first) eqn:H1.
    + apply truthy_Some in H1 as (x & -> & Hx). done.
    + destruct (Py.truthy named) eqn:H2; [|done].
      apply truthy_Some in H2 as (x & -> & Hx). done.
  - done.
  - done.
  - done.
Qed.

(** A pushed event of one of the five kinds is acknowledged with status
    ["received"] and the student's identity, unless its handler reads the
    payload ([batch_quizzes_created], [student_points]) and the payload is
    not an object: then [data.get] raises [AttributeError] after the
    identity has been recorded, nothing is acknowledged or logged and the
    student is unchanged.  An event of another name is acknowledged with
    the status alone and changes neither the student nor the tracker.  The
    connection handlers return nothing. *)
Theorem handlers_acknowledge (ev : Student.socket_event) (self : Student.t)
    (tracker : EventTracker.t) :
  let o := Student.handle ev self tracker in
  match ev with
  | Student.Pushed k data =>
      if Vocabulary.unreadable_payload k data then
        ret o = Raise (AttributeError "get")
        ∧ after o = (self, Student.record_event k self tracker)
        ∧ logged o = []
      else
        ∃ ack, ret o = Return (Some ack)
               ∧ ack !! "status" = Some (Some "received")
               ∧ ack !! "student_id" = Some (Student.student_id self)
  | Student.AnyOther _ =>
      ret o = Return (Some {[ "status" := Some "received" ]})
      ∧ after o = (self, tracker)
  | _ => ret o = Return None
  end.
Proof.
  destruct ev as [sid e|args kwargs|data|k data|event]; cbn zeta.
  - unfold Student.handle, Student.on_connect.
    repeat (case_match; try done).
  - done.
  - done.
  - destruct k, data; cbn [Vocabulary.unreadable_payload]; try done.
    all: eexists; (split; [reflexivity|]);
      unfold Student.received_ack; split; by simplify_map_eq.
  - done.
Qed.

(** ** connect_socket *)

Section ConnectFacts.

Import Vocabulary.

Lemma connect_poll_spec (rounds : nat → list Student.socket_event * Sio.view)
    (self : Student.t) (tracker : EventTracker.t) (fuel j : nat) :
  let st := at_poll rounds self tracker j in
  let o := Student.connect_poll rounds fuel j st.1 st.2 in
  (ret o = Return true
   ↔ ∃ k, (j ≤ k < j + fuel)%nat ∧ poll_succeeds rounds self tracker k = true)
  ∧ (ret o = Return true ∨ ret o = Return false ∧ logs_error (logged o))
  ∧ (ret o = Return true →
     Student.connected (after o).1 = true
     ∧ Py.truthy (Student.sid (after o).1) = true).
Proof.
  revert j. induction fuel as [|fuel IH]; intros j st o.
  - subst o st. simpl. split; [|split].
    + split; [done|]. intros (k & Hk & _). lia.
    + right. split; [done|]. by apply Exists_cons_hd.
    + done.
  - subst o st. cbn [Student.connect_poll].
    destruct (Student.connected (at_poll rounds self tracker j).1
              && Py.truthy (Sio.get_sid (rounds j).2))
      eqn:Hnow; cbn [ret after logged fst].
    + split; [|split].
      * split; [|done]. intros _. exists j. split; [lia|exact Hnow].
      * by left.
      * intros _. apply andb_true_iff in Hnow as [Hc Ht]. by split.
    + destruct (IH (S j)) as (IH1 & IH2 & IH3). cbn zeta in IH1, IH2, IH3.
      cbn [at_poll] in IH1, IH2, IH3.
      split; [|split].
      * rewrite IH1. split.
        -- intros (k & Hk & Hs). exists k. split; [lia|done].
        -- intros (k & Hk & Hs). exists k. split; [|done].
           destruct (decide (k = j)) as [->|]; [|lia].
           unfold poll_succeeds in Hs. congruence.
      * destruct IH2 as [?|[? Herr]]; [by left|right]. split; [done|].
        apply Exists_app. by right.
      * exact IH3.
Qed.

End ConnectFacts.

(** [connect_socket] returns [True] exactly when [sio.connect] does not
    raise and one of the fifty polls finds the student connected while the
    library has a namespace sid.  It never raises: otherwise it returns
    [False] and logs an error.  When it returns [True] the student is
    connected and has a non-empty sid. *)
Theorem connect_socket_succeeds_iff_a_poll_does
    (self : Student.t) (tracker : EventTracker.t) (connect_error : option string)
    (rounds : nat → list Student.socket_event * Sio.view) :
  let o := Student.connect_socket self tracker connect_error rounds in
  (ret o = Return true
   ↔ connect_error = None
     ∧ ∃ j, (j < 50)%nat ∧ Vocabulary.poll_succeeds rounds self tracker j = true)
  ∧ (ret o = Return true
     ∨ ret o = Return false ∧ Vocabulary.logs_error (logged o))
  ∧ (ret o = Return true →
     Student.connected (after o).1 = true
     ∧ Py.truthy (Student.sid (after o).1) = true).
Proof.
  intros o. subst o. unfold Student.connect_socket.
  generalize 50%nat. intros fuel.
  destruct connect_error as [e|]; cbn [ret after logged].
  - split; [|split]; [|right|done].
    + split; [done|]. by intros [? _].
    + split; [done|]. apply Exists_cons_tl. by apply Exists_cons_hd.
  - destruct (connect_poll_spec rounds self tracker fuel 0) as (H1 & H2 & H3).
    cbn zeta in H1, H2, H3. cbn [Vocabulary.at_poll] in H1, H2, H3.
    split; [|split].
    + rewrite H1. split.
      * intros (k & Hk & Hs). split; [done|]. exists k. split; [lia|done].
      * intros (_ & k & Hk & Hs). exists k. split; [lia|done].
    + destruct H2 as [?|[? Herr]]; [by left|right]. split; [done|].
      apply Exists_cons_tl, Exists_app. by right.
    + exact H3.
Qed.

(** ** on_connect *)

(** [on_connect] never raises, not even when [sio.emit] does: it always
    ends with the student marked connected, the sid taken from the library
    when it has one and kept otherwise, and nothing else changed; a failing
    emit is logged as an error and leaves the same student as a successful
    one.  It first waits 0.1 s. *)
Theorem on_connect_survives_a_failing_emit (self : Student.t)
    (namespace_sid emit_error : option string) :
  let o := Student.on_connect self namespace_sid emit_error in
  ret o = Return ()
  ∧ after o
    = Student.set_sid (if Py.truthy namespace_sid then namespace_sid
                       else Student.sid self)
        (Student.set_connected true self)
  ∧ after o = after (Student.on_connect self namespace_sid None)
  ∧ head (effects o) = Some (Sleep 100)
  ∧ (Vocabulary.requests (effects o) = [])
  ∧ (∀ e data, emit_error = Some e →
       Emit "join_lesson" data Student.PARTICIPANT_NS ∈ effects o →
       Vocabulary.logs_error (logged o)).
Proof.
  intros o. subst o. unfold Student.on_connect.
  destruct self as [num api sock dev sid0 student_id0 socket_token0 conn0
                    latest0 quiz0 lesson_id0 reason0].
  cbn [Student.set_connected Student.set_sid Student.sid
    Student.lesson_id Student.student_id Student.socket_token
    Student.student_number Student.api_url Student.socket_url Student.device_id
    Student.connected Student.latest_batch_quizzes_id Student.quiz_data
    Student.disconnect_reason].
  destruct (Py.truthy namespace_sid) eqn:Hn.
  - destruct (Py.truthy lesson_id0 && Py.truthy student_id0
              && Py.truthy socket_token0) eqn:Hj.
    + destruct emit_error as [e|]; cbn [ret after effects logged head].
      * repeat split; try done. intros e' data _ _.
        apply Exists_app. right. apply Exists_app. right.
        by apply Exists_cons_hd.
      * repeat split; done.
    + cbn [ret after effects logged head]. repeat split; try done.
      intros e data _ Hin. set_solver.
  - cbn [ret after effects logged head]. repeat split; try done.
    intros e data _ Hin. set_solver.
Qed.

(** ** get_latest_batch_quiz and submit_answers *)

Section QuizFacts.

Import Vocabulary.

Lemma len_option_list_nonneg (q : Student.quiz) (n : Z) :
  Student.len_option_list q = Return n → (0 ≤ n)%Z.
Proof.
  unfold Student.len_option_list.
  destruct (Student.option_list q) as [[l|]|]; intros [= <-]; lia.
Qed.

Lemma len_option_list_raises (q : Student.quiz) (e : exn) :
  Student.len_option_list q = Raise e ↔
  Student.option_list q = Some Py.IsNot ∧ e = TypeError "len".
Proof.
  unfold Student.len_option_list.
  destruct (Student.option_list q) as [[l|]|]; naive_solver.
Qed.

Lemma answer_data_raises (q : Py.json Student.quiz) (d : Student.draw) :
  (∃ e, Student.answer_data q d = Raise e) ↔ unanswerable q.
Proof.
  destruct q as [q|]; [|split; [done|by eexists]].
  unfold Student.answer_data, unanswerable.
  destruct (Student.len_option_list q) as [n|e] eqn:Hn.
  - pose proof (len_option_list_nonneg q n Hn) as Hpos.
    assert (Hnot : Student.option_list q ≠ Some Py.IsNot).
    { intros Hl. unfold Student.len_option_list in Hn. by rewrite Hl in Hn. }
    repeat case_bool_decide.
    all: try (split; [by intros [? ?]|intros [[_ ?]|[? _]]; congruence]).
    destruct (1 <=? n)%Z eqn:Hle.
    + apply Z.leb_le in Hle. split; [by intros [? ?]|].
      intros [[_ ?]|[_ [= ->]]]; [done|lia].
    + apply Z.leb_gt in Hle. split; [|by eexists].
      intros _. right. split; [done|]. f_equal. lia.
  - apply len_option_list_raises in Hn as [Hl ->].
    repeat case_bool_decide.
    all: try (split; [by intros [? ?]|intros [[[?|?] _]|[? _]]; congruence]).
    all: split; [|by eexists]; intros _; left; split; [|done]; eauto.
Qed.

Lemma answer_data_error (q : Py.json Student.quiz) (d : Student.draw) (e : exn) :
  Student.answer_data q d = Raise e → drawing_error e.
Proof.
  unfold Student.answer_data, Student.len_option_list, drawing_error.
  repeat case_match; intros [= <-]; simplify_eq; eauto.
Qed.

Lemma answer_data_value_error (q : Py.json Student.quiz) (d : Student.draw)
    (detail : string) :
  Student.answer_data q d = Raise (ValueError detail) → empty_choice q.
Proof.
  destruct q as [q|]; [|done].
  unfold Student.answer_data, empty_choice.
  case_bool_decide; [done|]. case_bool_decide as Hs.
  - destruct (Student.len_option_list q) as [n|e] eqn:Hn.
    + pose proof (len_option_list_nonneg q n Hn) as Hpos.
      destruct (1 <=? n)%Z eqn:Hle; [done|]. apply Z.leb_gt in Hle.
      intros _. exists q. repeat split; [done|]. rewrite Hn. f_equal. lia.
    + apply len_option_list_raises in Hn as [_ ->]. done.
  - case_bool_decide; [|done].
    destruct (Student.len_option_list q) as [n|e] eqn:Hn; [done|].
    apply len_option_list_raises in Hn as [_ ->]. done.
Qed.

Lemma answer_data_single (q : Py.json Student.quiz) (d : Student.draw)
    (a : list Z) :
  Student.answer_data q d = Return a → single_answer q → length a = 1%nat.
Proof.
  intros Ha (q' & -> & Ht). revert Ha. unfold Student.answer_data.
  repeat case_bool_decide; repeat case_match; intros [= <-]; try done.
  all: destruct Ht; congruence.
Qed.

Lemma answers_of_raises (quizzes : list (Py.json Student.quiz))
    (draws : nat → Student.draw) (j : nat) :
  (∃ e, Student.answers_of quizzes draws j = Raise e)
  ↔ Exists unanswerable quizzes.
Proof.
  revert j. induction quizzes as [|q rest IH]; intros j; simpl.
  - split; [by intros [? ?]|by intros ?%Exists_nil].
  - rewrite Exists_cons, <- (IH (S j)), <- (answer_data_raises q (draws j)).
    destruct (Student.answer_data q (draws j)) as [a|e].
    + destruct (Student.answers_of rest draws (S j)) as [l|e'].
      * split; [by intros [? ?]|]. intros [[? ?]|[? ?]]; done.
      * split; [intros _; right; by eexists|intros _; by eexists].
    + split; [intros _; left; by eexists|intros _; by eexists].
Qed.

Lemma answers_of_error (quizzes : list (Py.json Student.quiz))
    (draws : nat → Student.draw) (j : nat) (e : exn) :
  Student.answers_of quizzes draws j = Raise e →
  drawing_error e
  ∧ ∀ detail, e = ValueError detail → Exists empty_choice quizzes.
Proof.
  revert j. induction quizzes as [|q rest IH]; intros j; simpl; [done|].
  destruct (Student.answer_data q (draws j)) as [a|e'] eqn:Ha.
  - destruct (Student.answers_of rest draws (S j)) as [l|e''] eqn:Hr; [done|].
    intros [= <-]. destruct (IH _ Hr) as [H1 H2]. split; [done|].
    intros detail Hd. apply Exists_cons_tl. by eapply H2.
  - intros [= <-]. split; [by eapply answer_data_error|].
    intros detail ->. apply Exists_cons_hd. by eapply answer_data_value_error.
Qed.

Lemma answers_of_shape (quizzes : list (Py.json Student.quiz))
    (draws : nat → Student.draw) (j : nat)
    (answers : list (option string * list Z)) :
  Student.answers_of quizzes draws j = Return answers →
  answers.*1 = Student.id_of <$> quizzes
  ∧ Forall2 (λ q a, single_answer q → length a.2 = 1%nat) quizzes answers.
Proof.
  revert j answers. induction quizzes as [|q rest IH]; intros j answers; simpl.
  - intros [= <-]. by split.
  - destruct (Student.answer_data q (draws j)) as [a|e] eqn:Ha; [|done].
    destruct (Student.answers_of rest draws (S j)) as [l|e] eqn:Hr; [|done].
    intros [= <-]. destruct (IH _ _ Hr) as [H1 H2]. split.
    + rewrite !fmap_cons. by rewrite H1.
    + constructor; [|done]. simpl. by apply (answer_data_single q (draws j)).
Qed.

Lemma quizzes_of_error (self : Student.t) (e : exn) :
  Student.quizzes_of self = Raise e →
  (∃ d, e = TypeError d) ∨ (∃ d, e = AttributeError d).
Proof.
  unfold Student.quizzes_of. repeat case_match; intros [= <-]; eauto.
Qed.

End QuizFacts.


(** [submit_answers] raises exactly when the student has an identity and
    quiz data and either reading the quizzes out of the stored body raises
    (the body, or what it holds under ["data"], is no object, or what is
    under ["quizzes"] cannot be iterated) or the loop meets a quiz it
    cannot answer: all of this is outside the [try].  The exception is a
    [ValueError], a [TypeError] or an [AttributeError], and a [ValueError]
    only with a single selection among no options; no request has been
    sent and nothing is logged.  The student is never changed. *)
Theorem submit_answers_raises_iff_unanswerable {B : Type} (self : Student.t)
    (batch_quizzes_id : string) (draws : nat → Student.draw)
    (reply : Http.reply B) :
  let o := Student.submit_answers self batch_quizzes_id draws reply in
  (Py.raises (ret o)
   ↔ Py.truthy (Student.student_id self) = true
     ∧ Student.truthy_body (Student.quiz_data self) = true
     ∧ (Py.raises (Student.quizzes_of self)
        ∨ ∃ quizzes, Student.quizzes_of self = Return quizzes
                     ∧ Exists Vocabulary.unanswerable quizzes))
  ∧ (∀ e, ret o = Raise e →
          Vocabulary.drawing_error e ∧ effects o = [] ∧ logged o = [])
  ∧ (∀ detail, ret o = Raise (ValueError detail) →
       ∃ quizzes, Student.quizzes_of self = Return quizzes
                  ∧ Exists Vocabulary.empty_choice quizzes)
  ∧ after o = self.
Proof.
  intros o. subst o. unfold Student.submit_answers, Student.answers_from.
  destruct (Py.truthy (Student.student_id self)) eqn:Hid; cbn [negb orb];
    [destruct (Student.truthy_body (Student.quiz_data self)) eqn:Hq; cbn [negb]|].
  - destruct (Student.quizzes_of self) as [quizzes|e0] eqn:Hqs.
    + pose proof (answers_of_raises quizzes draws 0) as Hr.
      destruct (Student.answers_of quizzes draws 0) as [answers|e] eqn:Ha.
      * assert (Hno : ¬ Exists Vocabulary.unanswerable quizzes).
        { intros Hex. apply Hr in Hex as [? ?]. done. }
        destruct (Http.checked reply); cbn [ret after effects logged Py.raises].
        all: split; [|split; [|split]]; try done.
        all: split; [done|].
        all: intros (_ & _ & [[]|(quizzes' & Heq & Hex)]).
        all: by simplify_eq.
      * cbn [ret after effects logged Py.raises].
        destruct (answers_of_error _ _ _ _ Ha) as [He1 He2].
        split; [|split; [|split]]; [| | |done].
        -- split; [|done]. intros _. repeat split.
           right. exists quizzes. split; [done|]. apply Hr. by eexists.
        -- intros e' Heq. by simplify_eq.
        -- intros detail Heq. exists quizzes. split; [done|].
           apply (He2 detail). by simplify_eq.
    + cbn [ret after effects logged Py.raises].
      apply quizzes_of_error in Hqs.
      split; [|split; [|split]]; [| | |done].
      * split; [|done]. intros _. repeat split. by left.
      * intros e' Heq. simplify_eq. repeat split.
        unfold Vocabulary.drawing_error. destruct Hqs; eauto.
      * intros detail Heq. simplify_eq. by destruct Hqs as [[? ?]|[? ?]].
  - cbn [ret after effects logged Py.raises].
    split; [|split; [|split]]; try done.
    split; [done|]. by intros (_ & ? & _).
  - cbn [ret after effects logged Py.raises].
    split; [|split; [|split]]; try done.
    split; [done|]. by intros (? & _).
Qed.

(** [submit_answers] returns [True] exactly when the student has an
    identity and quiz data, the quizzes can be read out of the stored body,
    every quiz can be answered and the request does not fail.  Whatever it
    returns, it sends at most one request: a [PUT] without credential that
    carries the student's identity and one answer per quiz, in the order
    of the quizzes and under their [quiz_id]s, with exactly one selection
    for a true/false and for a single-selection quiz. *)
Theorem submit_answers_sends_one_answer_per_quiz {B : Type} (self : Student.t)
    (batch_quizzes_id : string) (draws : nat → Student.draw)
    (reply : Http.reply B) :
  let o := Student.submit_answers self batch_quizzes_id draws reply in
  (ret o = Return true
   ↔ Py.truthy (Student.student_id self) = true
     ∧ Student.truthy_body (Student.quiz_data self) = true
     ∧ (∃ quizzes, Student.quizzes_of self = Return quizzes
                   ∧ ¬ Exists Vocabulary.unanswerable quizzes)
     ∧ ¬ Vocabulary.refused reply)
  ∧ (effects o = []
     ∨ ∃ url answers quizzes,
         effects o
         = [HttpRequest (Http.Request "PUT" url None
              (Http.AnswersBody (Student.student_id self) answers))]
         ∧ Student.quizzes_of self = Return quizzes
         ∧ answers.*1 = Student.id_of <$> quizzes
         ∧ Forall2 (λ q a, Vocabulary.single_answer q → length a.2 = 1%nat)
             quizzes answers).
Proof.
  intros o. subst o.
  unfold Student.submit_answers, Student.answers_from, Vocabulary.refused.
  destruct (Py.truthy (Student.student_id self)) eqn:Hid; cbn [negb orb];
    [destruct (Student.truthy_body (Student.quiz_data self)) eqn:Hq; cbn [negb]|].
  - destruct (Student.quizzes_of self) as [quizzes|e0] eqn:Hqs.
    + pose proof (answers_of_raises quizzes draws 0) as Hr.
      destruct (Student.answers_of quizzes draws 0) as [answers|e] eqn:Ha.
      * destruct (answers_of_shape _ _ _ _ Ha) as [Hs1 Hs2].
        assert (Hno : ¬ Exists Vocabulary.unanswerable quizzes).
        { intros Hex. apply Hr in Hex as [? ?]. done. }
        destruct (Http.checked reply) as [e|r]; cbn [ret after effects logged].
        -- split; [|right; by eauto 10].
           split; [done|]. intros (_ & _ & _ & Hnot). destruct Hnot. by eexists.
        -- split; [|right; by eauto 10].
           split; [|done]. intros _. repeat split; try done; [by eauto|].
           by intros [? ?].
      * cbn [ret after effects logged]. split; [|by left].
        split; [done|]. intros (_ & _ & (quizzes' & [= <-] & Hnot) & _).
        destruct Hnot. apply Hr. by eexists.
    + cbn [ret after effects logged]. split; [|by left].
      split; [done|]. by intros (_ & _ & (? & ? & _) & _).
  - cbn [ret after effects logged]. split; [|by left].
    split; [done|]. by intros (_ & ? & _).
  - cbn [ret after effects logged]. split; [|by left].
    split; [done|]. by intros (? & _).
Qed.

(** ** The teacher's requests *)

(** Every operation of the teacher sends exactly one request, whatever
    comes back, and the request carries the teacher's token.  Only
    [create_lesson] changes the teacher, only in its [lesson_id], and only
    to the value it returns; the three operations that return a boolean
    never raise. *)
Theorem teacher_changes_only_its_lesson {B : Type} (t : Teacher.t)
    (lesson batch status : string) (students : list (option string * Z))
    (nested : Http.reply Teacher.nested_body) (plain : Http.reply B) :
  let o1 := Teacher.create_lesson t nested in
  let o2 := Teacher.create_batch_quizzes t lesson nested in
  let o3 := Teacher.update_batch_quiz_status t lesson batch status plain in
  let o4 := Teacher.disclose_batch_quiz t lesson batch plain in
  let o5 := Teacher.add_student_points t lesson students plain in
  (Vocabulary.authorized t (effects o1) ∧ Vocabulary.authorized t (effects o2)
   ∧ Vocabulary.authorized t (effects o3) ∧ Vocabulary.authorized t (effects o4)
   ∧ Vocabulary.authorized t (effects o5))
  ∧ (after o2 = t ∧ after o3 = t ∧ after o4 = t ∧ after o5 = t)
  ∧ after o1
    = Teacher.set_lesson_id
        (match ret o1 with
         | Return (Some v) => Some v
         | _ => Teacher.lesson_id t
         end) t
  ∧ ((∃ b, ret o3 = Return b) ∧ (∃ b, ret o4 = Return b)
     ∧ (∃ b, ret o5 = Return b)).
Proof.
  intros o1 o2 o3 o4 o5. subst o1 o2 o3 o4 o5.
  unfold Teacher.create_lesson, Teacher.create_batch_quizzes,
    Teacher.update_batch_quiz_status, Teacher.disclose_batch_quiz,
    Teacher.add_student_points, Vocabulary.authorized.
  destruct t as [api token room collection lesson0].
  cbn [Teacher.access_token Teacher.lesson_id Teacher.set_lesson_id
       Teacher.api_url Teacher.room_id Teacher.collection_id].
  destruct (Http.checked nested) as [e|r];
    [|destruct (Http.decoded r) as [e|data];
      [|destruct (Teacher.subscript2 data "lesson_id");
        destruct (Teacher.subscript2 data "batch_quizzes_id")]];
    destruct (Http.checked plain); cbn [ret after effects logged].
  all: repeat split; eauto.
Qed.

(** ** The order of the phases *)

Section ScriptFacts.

Import Simulation Vocabulary.

Lemma follows_bind {A B} (m : Sim A) (k : A → Sim B) (l1 l2 : list action) :
  follows m l1 → (∀ a, follows (k a) l2) → follows (m ≫= k) (l1 ++ l2).
Proof.
  intros Hm Hk w. rewrite bind_unfold. unfold bind.
  destruct (Hm w) as [Hp Hn].
  destruct (ending (m w)) as [a| |e] eqn:He; unfold actions; cbn [trace ending].
  - rewrite omap_app. fold (actions (m w)). rewrite (Hn a eq_refl).
    destruct (Hk a (world (m w))) as [Hp' Hn']. split.
    + by apply prefix_app.
    + intros b Hb. f_equal. by apply (Hn' b).
  - split; [by apply prefix_app_r|done].
  - split; [by apply prefix_app_r|done].
Qed.

Lemma follows_eq {A} (m : Sim A) (l l' : list action) :
  follows m l → l = l' → follows m l'.
Proof. by intros H <-. Qed.

Lemma follows_quiet {A} (m : Sim A) :
  (∀ w, actions (m w) = []) → follows m [].
Proof. intros H w. by rewrite H. Qed.

Lemma follows_abort {A} (l : list LogRec) (l' : list action) :
  follows (A := A) (logs l;; return_) l'.
Proof. intros w. split; [apply prefix_nil|done]. Qed.

Lemma actions_wires (f : effect → step) (w : World) (l : list effect) :
  (∀ e, action_of (f e, w) = None) →
  omap action_of ((λ e, (f e, w)) <$> l) = [].
Proof.
  intros H. induction l as [|e l IH]; [done|].
  rewrite fmap_cons. cbn [omap list_omap]. by rewrite (H e).
Qed.

Lemma follows_dispatch (i : nat) (ev : Student.socket_event) :
  follows (dispatch i ev) [].
Proof.
  apply follows_quiet. intros w. unfold dispatch, actions.
  destruct (students w !! i); [|done]. cbn [trace]. by apply actions_wires.
Qed.

Lemma follows_tick (evs : list (nat * Student.socket_event)) :
  follows (tick evs) [].
Proof.
  induction evs as [|[i ev] evs IH]; [by apply follows_quiet|].
  cbn [tick]. apply (follows_bind _ _ [] []); [apply follows_dispatch|done].
Qed.

Lemma follows_sleep (env : Env) (ms : Z) (pt : await_point) :
  follows (sleep env ms pt) [].
Proof.
  unfold sleep. apply (follows_bind _ _ [] []); [by apply follows_quiet|].
  intros ?. apply follows_tick.
Qed.

Lemma follows_student_task {A} (o : op) (i : nat)
    (f : Student.t → outcome Student.t A) :
  follows (student_task o i f) [].
Proof.
  apply follows_quiet. intros w. unfold student_task, actions.
  destruct (students w !! i); [|done]. cbn [trace]. by apply actions_wires.
Qed.

Lemma follows_student_task_tracker {A} (o : op) (i : nat)
    (f : Student.t → EventTracker.t → outcome (Student.t * EventTracker.t) A) :
  follows (student_task_tracker o i f) [].
Proof.
  apply follows_quiet. intros w. unfold student_task_tracker, actions.
  destruct (students w !! i); [|done]. cbn [trace]. by apply actions_wires.
Qed.

Lemma follows_tasks {A} (task : nat → Sim (res A)) (members : list nat) :
  (∀ i, follows (task i) []) → follows (tasks task members) [].
Proof.
  intros Ht. induction members as [|i rest IH]; [by apply follows_quiet|].
  cbn [tasks]. apply (follows_bind _ _ [] []); [apply Ht|]. intros r.
  apply (follows_bind _ _ [] []); [apply IH|]. intros rs. by apply follows_quiet.
Qed.

Lemma follows_gather {A} (o : op) (members : list nat)
    (task : nat → Sim (res A)) :
  (∀ i, follows (task i) []) →
  follows (gather o members task)
    (match o with Choose_seat => [] | _ => [Did o] end).
Proof.
  intros Ht. unfold gather.
  eapply follows_eq; [|apply app_nil_r].
  apply (follows_bind _ _ (match o with Choose_seat => [] | _ => [Did o] end) []).
  - intros w. unfold actions. cbn. by destruct o.
  - intros _. by apply follows_tasks.
Qed.

Lemma follows_when (b : bool) (m : Sim ()) :
  follows m [] → follows (when b m) [].
Proof. intros H. destruct b; [done|by apply follows_quiet]. Qed.

Lemma follows_spawn_all (cfg : config) (env : Env) (numbers : list Z) :
  follows (spawn_all cfg env numbers) [].
Proof.
  induction numbers as [|n rest IH]; [by apply follows_quiet|].
  cbn [spawn_all]. apply (follows_bind _ _ [] []); [by apply follows_quiet|done].
Qed.

Lemma follows_seat_batches (env : Env) (lesson : string)
    (connected_students : list nat) (starts : list Z) (seated_count : Z) :
  follows (seat_batches env lesson connected_students starts seated_count) [].
Proof.
  revert seated_count. induction starts as [|i rest IH]; intros seated_count.
  - by apply follows_quiet.
  - cbn [seat_batches]. cbv zeta.
    apply (follows_bind _ _ [] []); [by apply follows_quiet|intros ?].
    apply (follows_bind _ _ [] []);
      [apply (follows_gather Choose_seat); intros; apply follows_student_task
      |intros ?].
    apply (follows_bind _ _ [] []); [apply follows_tick|intros ?].
    apply (follows_bind _ _ [] []); [by apply follows_quiet|intros ?].
    apply (follows_bind _ _ [] []); [apply follows_when, follows_sleep|intros ?].
    apply IH.
Qed.

Lemma follows_log_not_seated (cfg : config) : follows (log_not_seated cfg) [].
Proof.
  unfold log_not_seated.
  apply (follows_bind _ _ [] []); [by apply follows_quiet|intros ?].
  apply follows_when. by apply follows_quiet.
Qed.

Lemma follows_teacher_call {A} (o : op) (f : Teacher.t → outcome Teacher.t A) :
  follows (teacher_call o f) [Did o].
Proof.
  assert (H : ∀ w, actions (teacher_call o f w) = [Did o]).
  { intros w. unfold teacher_call, actions. cbn [trace omap list_omap action_of fst].
    by rewrite actions_wires. }
  intros w. by rewrite H.
Qed.

Lemma follows_assert_all_received (event_name : string)
    (expected : gset string) (total : option Z) :
  follows (Simulation.assert_all_received event_name expected total)
    [Checked event_name].
Proof.
  unfold Simulation.assert_all_received.
  apply (follows_bind _ _ [Checked event_name] []).
  - intros w. by unfold actions.
  - intros _. by apply follows_quiet.
Qed.

End ScriptFacts.

Ltac frule :=
  first
    [ apply follows_sleep
    | apply follows_tick
    | apply follows_spawn_all
    | apply follows_seat_batches
    | apply follows_log_not_seated
    | apply follows_teacher_call
    | apply follows_assert_all_received
    | apply (follows_gather Simulation.Connect_socket);
      intros; apply follows_student_task_tracker
    | apply (follows_gather Simulation.Get_latest_batch_quiz);
      intros; apply follows_student_task
    | apply (follows_gather Simulation.Submit_answers);
      intros; apply follows_student_task
    | apply (follows_gather Simulation.Disconnect);
      intros; apply follows_student_task
    | apply follows_when;
      first [ by apply follows_quiet
            | apply (follows_bind _ _ [] []); [by apply follows_quiet|intros ?];
              frule ]
    | by apply follows_quiet ].

Ltac fstep :=
  lazymatch goal with
  | |- Vocabulary.follows (if negb ?b then _ else _) _ =>
      destruct b; cbn [negb]; cbv beta iota zeta; [|apply follows_abort]
  | |- Vocabulary.follows (if ?b then _ else _) _ =>
      destruct b; cbv beta iota zeta; [apply follows_abort|]
  | |- Vocabulary.follows (_ ≫= _) _ => eapply follows_bind; [frule|intros ?]
  end.

(** Every run does the operations and the verifications in the order of
    the script: the lesson, the connections, the batch and its
    verification, the fetches, the submissions, the finish, the disclosure,
    the close and the points, each followed by its verification, and the
    disconnections.  A run that stops early has done a beginning of the
    script, a run that reaches its end has done all of it, each operation
    once. *)
Theorem run_follows_the_script (cfg : Simulation.config) (env : Simulation.Env) :
  let r := Simulation.simulate cfg env in
  Vocabulary.actions r `prefix_of` Vocabulary.script
  ∧ (Simulation.ending r = Simulation.Next () →
     Vocabulary.actions r = Vocabulary.script).
Proof.
  assert (H : Vocabulary.follows (Simulation.run_simulation cfg env)
                Vocabulary.script).
  { eapply follows_eq.
    - unfold Simulation.run_simulation, Simulation.choose_seats.
      repeat fstep. by apply follows_quiet.
    - reflexivity. }
  intros r. destruct (H (Simulation.initial cfg)) as [Hp Hn].
  split; [exact Hp|]. intros He. by apply (Hn ()).
Qed.

(** ** The population of a run *)

Section BadgeFacts.

Import Student Vocabulary.

Lemma handle_badge (ev : socket_event) (self : t) (tr : EventTracker.t) :
  badge (after (handle ev self tr)).1 = badge self.
Proof.
  destruct ev as [sid e| | |[] []|]; try done.
  simpl. unfold on_connect. by repeat (case_match; simpl).
Qed.

Lemma deliver_badge (evs : list socket_event) (self : t) (tr : EventTracker.t) :
  badge (after (deliver evs self tr)).1 = badge self.
Proof.
  induction evs as [|ev evs IH] using rev_ind; [done|].
  rewrite deliver_snoc. cbn zeta. cbn [after]. by rewrite handle_badge.
Qed.

Lemma connect_poll_badge (rounds : nat → list socket_event * Sio.view)
    (fuel j : nat) (self : t) (tr : EventTracker.t) :
  badge (after (connect_poll rounds fuel j self tr)).1 = badge self.
Proof.
  revert j self tr. induction fuel as [|fuel IH]; intros j self tr; [done|].
  cbn [connect_poll]. case_match; [done|].
  cbn [after]. by rewrite IH, deliver_badge.
Qed.

Lemma connect_socket_badge (self : t) (tr : EventTracker.t)
    (connect_error : option string)
    (rounds : nat → list socket_event * Sio.view) :
  badge (after (connect_socket self tr connect_error rounds)).1 = badge self.
Proof.
  unfold connect_socket. generalize 50%nat. intros fuel.
  destruct connect_error; [done|].
  cbn [after]. by rewrite connect_poll_badge, deliver_badge.
Qed.

Lemma choose_seat_badge (self : t) (lesson : string) (sio settled : Sio.view)
    (reply : Http.reply (gmap string string)) :
  badge (after (choose_seat self lesson sio reply settled)) = badge self.
Proof. unfold choose_seat. by repeat case_match. Qed.

Lemma get_latest_batch_quiz_badge (self : t) (lesson : string)
    (reply : Http.reply quiz_body) :
  badge (after (get_latest_batch_quiz self lesson reply)) = badge self.
Proof. unfold get_latest_batch_quiz. by repeat case_match. Qed.

Lemma submit_answers_badge {B} (self : t) (batch : string)
    (draws : nat → draw) (reply : Http.reply B) :
  badge (after (submit_answers self batch draws reply)) = badge self.
Proof. unfold submit_answers. by repeat case_match. Qed.

Lemma disconnect_badge (self : t) (sio : Sio.view) (error : option string) :
  badge (after (disconnect self sio error)) = badge self.
Proof. unfold disconnect. by repeat case_match. Qed.

End BadgeFacts.

Section PopulationFacts.

Import Simulation Vocabulary.

Context (cfg : config) (env : Env).

Local Abbreviation P := (in_place cfg env).

Lemma enrolled_insert (l : list Student.t) (i : nat) (s s' : Student.t) :
  enrolled cfg env l → l !! i = Some s → badge s' = badge s →
  enrolled cfg env (<[i := s']> l).
Proof.
  intros H Hl Hb j t [(-> & <- & _)|[_ Hj]]%list_lookup_insert_Some.
  - rewrite Hb. by apply H.
  - by apply H.
Qed.

Lemma enrolled_fresh (a : nat) : enrolled cfg env (fresh cfg env <$> seq 0 a).
Proof.
  intros i s. rewrite list_lookup_fmap.
  intros (j & [-> _]%lookup_seq & ->)%fmap_Some. done.
Qed.

Lemma positions_lt (p : Student.t → bool) (l : list Student.t) :
  Forall (λ i, (i < length l)%nat) (positions p l).
Proof.
  apply Forall_forall. intros i. unfold positions. rewrite list_elem_of_fmap.
  intros ([j s] & -> & Hin). apply list_elem_of_filter in Hin as [_ Hin].
  apply elem_of_lookup_imap in Hin as (j' & s' & [= -> ->] & Hl).
  by eapply lookup_lt_Some.
Qed.

Context (n : nat).

Local Abbreviation I := (population cfg env n).

Lemma pop_step (st : step) (w : World) :
  I w → (∀ o l, st ≠ Gather o l) → P (st, w).
Proof. intros [He _] Hst. split; [done|]. by destruct st; try done; destruct (Hst o members). Qed.

Lemma pop_stamped (f : effect → step) (w : World) (l : list effect) :
  I w → (∀ e o m, f e ≠ Gather o m) → Forall P ((λ e, (f e, w)) <$> l).
Proof.
  intros Hw Hf. apply Forall_fmap, Forall_forall. intros e _.
  apply pop_step; [done|]. intros o m. apply Hf.
Qed.

Lemma pop_does (st : step) :
  (∀ o l, st ≠ Gather o l) → holds I (does st) P (λ _ w, I w).
Proof. intros Hst. apply holds_does. intros w Hw. by apply pop_step. Qed.

Lemma pop_same {A} (m : Sim A) :
  (∀ w, trace (m w) = [] ∧ students (world (m w)) = students w) →
  holds I m P (λ _ w, I w).
Proof.
  intros H w Hw. destruct (H w) as [Ht Hs]. rewrite Ht. split; [constructor|].
  intros _ _. unfold population. by rewrite Hs.
Qed.

Lemma pop_dispatch (i : nat) (ev : Student.socket_event) :
  holds I (dispatch i ev) P (λ _ w, I w).
Proof.
  intros w Hw. unfold dispatch.
  destruct (students w !! i) as [s|] eqn:Hs; cbn [trace ending world].
  - split; [by apply pop_stamped|]. intros _ _. destruct Hw as [He Hl].
    split; cbn [students].
    + eapply enrolled_insert; [done..|]. apply handle_badge.
    + by rewrite length_insert.
  - split; [constructor|done].
Qed.

Lemma pop_tick (evs : list (nat * Student.socket_event)) :
  holds I (tick evs) P (λ _ w, I w).
Proof.
  induction evs as [|[i ev] evs IH]; [by apply pop_same|].
  cbn [tick]. eapply holds_bind; [apply pop_dispatch|]. intros ?. apply IH.
Qed.

Lemma pop_sleep (ms : Z) (pt : await_point) :
  holds I (sleep env ms pt) P (λ _ w, I w).
Proof.
  unfold sleep. eapply holds_bind; [by apply pop_does|]. intros ?. apply pop_tick.
Qed.

Lemma pop_student_task {A} (o : op) (i : nat)
    (f : Student.t → outcome Student.t A) :
  (∀ s, badge (after (f s)) = badge s) →
  holds I (student_task o i f) P (λ _ w, I w).
Proof.
  intros Hf w Hw. unfold student_task.
  destruct (students w !! i) as [s|] eqn:Hs; cbn [trace ending world].
  - split; [by apply pop_stamped|]. intros _ _. destruct Hw as [He Hl].
    split; cbn [students set_students].
    + eapply enrolled_insert; [done..|]. apply Hf.
    + by rewrite length_insert.
  - split; [constructor|done].
Qed.

Lemma pop_student_task_tracker {A} (o : op) (i : nat)
    (f : Student.t → EventTracker.t → outcome (Student.t * EventTracker.t) A) :
  (∀ s t, badge (after (f s t)).1 = badge s) →
  holds I (student_task_tracker o i f) P (λ _ w, I w).
Proof.
  intros Hf w Hw. unfold student_task_tracker.
  destruct (students w !! i) as [s|] eqn:Hs; cbn [trace ending world].
  - split; [by apply pop_stamped|]. intros _ _. destruct Hw as [He Hl].
    split; cbn [students].
    + eapply enrolled_insert; [done..|]. apply Hf.
    + by rewrite length_insert.
  - split; [constructor|done].
Qed.

Lemma pop_gather {A} (o : op) (members : list nat)
    (task : nat → Sim (res A)) :
  n = Z.to_nat (num_students cfg) →
  Forall (λ i, (i < n)%nat) members →
  (∀ i, holds I (task i) P (λ _ w, I w)) →
  holds I (gather o members task) P (λ _ w, I w).
Proof.
  intros Hn Hm Ht. unfold gather.
  eapply holds_bind; [|intros ?; by apply holds_tasks].
  apply holds_does. intros w [He Hl]. split; [done|].
  cbn [fst snd]. rewrite Hl. by split.
Qed.

Lemma pop_teacher_call {A} (o : op) (f : Teacher.t → outcome Teacher.t A) :
  holds I (teacher_call o f) P (λ _ w, I w).
Proof.
  intros w Hw. unfold teacher_call. cbn [trace ending world]. split.
  - constructor; [by apply pop_step|by apply pop_stamped].
  - intros _ _. exact Hw.
Qed.

Lemma pop_assert_all_received (event_name : string)
    (expected : gset string) (total : option Z) :
  holds I (Simulation.assert_all_received event_name expected total) P
    (λ _ w, I w).
Proof.
  unfold Simulation.assert_all_received.
  eapply holds_bind; [by apply pop_does|]. intros ?.
  intros w Hw. split; [constructor|]. intros ? _. exact Hw.
Qed.

Lemma pop_when (b : bool) (m : Sim ()) :
  holds I m P (λ _ w, I w) → holds I (when b m) P (λ _ w, I w).
Proof. intros H. destruct b; [done|by apply pop_same]. Qed.

Lemma pop_gets {A B} (f : World → A) (k : A → Sim B) (V : A → Prop)
    (R : B → World → Prop) :
  (∀ w, I w → V (f w)) → (∀ a, V a → holds I (k a) P R) →
  holds I (gets f ≫= k) P R.
Proof.
  intros HV Hk. eapply holds_bind; [apply holds_gets|].
  intros a w [-> Hw]. apply Hk; [by apply HV|done].
Qed.

Lemma pop_seat_batches (lesson : string) (connected_students : list nat)
    (starts : list Z) (seated_count : Z) :
  n = Z.to_nat (num_students cfg) →
  Forall (λ i, (i < n)%nat) connected_students →
  holds I (seat_batches env lesson connected_students starts seated_count) P
    (λ _ w, I w).
Proof.
  intros Hn Hm. revert seated_count.
  induction starts as [|i rest IH]; intros seated_count.
  - by apply pop_same.
  - cbn [seat_batches]. cbv zeta.
    eapply holds_bind; [by apply pop_same|intros ?].
    eapply holds_bind; [|intros ?].
    { apply pop_gather; [done|by apply Forall_take, Forall_drop|].
      intros j. apply pop_student_task. intros s. apply choose_seat_badge. }
    eapply holds_bind; [apply pop_tick|intros ?].
    eapply holds_bind; [by apply pop_same|intros ?].
    eapply holds_bind; [apply pop_when, pop_sleep|intros ?].
    apply IH.
Qed.

Lemma pop_log_not_seated : holds I (log_not_seated cfg) P (λ _ w, I w).
Proof.
  apply pop_same. intros w. unfold log_not_seated.
  rewrite bind_unfold. unfold bind. cbn. unfold when. by destruct (negb _).
Qed.

End PopulationFacts.

Section SpawnFacts.

Import Simulation Vocabulary.

Lemma pop_spawn_all (cfg : config) (env : Env) (m a : nat) (w : World) :
  students w = fresh cfg env <$> seq 0 a →
  let r := spawn_all cfg env ((λ j : nat, Z.of_nat j + 1) <$> seq a m) w in
  Forall (in_place cfg env) (trace r)
  ∧ students (world r) = fresh cfg env <$> seq 0 (a + m).
Proof.
  revert a w. induction m as [|m IH]; intros a w Hw r; subst r.
  - cbn. by rewrite Nat.add_0_r.
  - cbn [seq fmap list_fmap spawn_all].
    rewrite (bind_eq _ _ _ _ _ _ _ (spawn_run cfg env _ w)).
    cbn [trace world].
    destruct (IH (S a)
      (set_students
         (students w ++ [Student.init (Z.of_nat a + 1) (api_url cfg)
                           (socket_url cfg) (uuid env (Z.of_nat a + 1))]) w))
      as [Ht Hs].
    { cbn [students set_students]. rewrite Hw, seq_S, fmap_app. done. }
    cbv zeta in Ht, Hs. split.
    + constructor; [|exact Ht]. split; [|done].
      cbn [snd]. rewrite Hw. apply enrolled_fresh.
    + rewrite Hs. f_equal. f_equal. lia.
Qed.

Lemma pop_spawn_population (cfg : config) (env : Env) :
  holds (population cfg env 0)
    (spawn_all cfg env (Py.range 1 (num_students cfg + 1) 1))
    (in_place cfg env)
    (λ _ w, population cfg env (Z.to_nat (num_students cfg)) w).
Proof.
  intros w [_ Hl]. apply nil_length_inv in Hl.
  rewrite range_from_one.
  destruct (pop_spawn_all cfg env (Z.to_nat (num_students cfg)) 0 w Hl)
    as [Ht Hs].
  cbv zeta in Ht, Hs. split; [exact Ht|]. intros _ _.
  split; rewrite Hs.
  - apply enrolled_fresh.
  - by rewrite length_fmap, length_seq.
Qed.

End SpawnFacts.

Ltac prule :=
  first
    [ apply pop_sleep
    | apply pop_tick
    | apply pop_log_not_seated
    | apply pop_teacher_call
    | apply pop_assert_all_received
    | apply pop_gather;
      [ reflexivity
      | assumption
      | intros; first
          [ apply pop_student_task; intros;
            first [ apply choose_seat_badge | apply get_latest_batch_quiz_badge
                  | apply submit_answers_badge | apply disconnect_badge ]
          | apply pop_student_task_tracker; intros; apply connect_socket_badge ] ]
    | apply pop_seat_batches; [reflexivity | assumption]
    | apply pop_does; intros; discriminate
    | apply pop_when;
      first [ apply pop_same; intros; split; reflexivity
            | eapply holds_bind; [apply pop_same; intros; split; reflexivity|intros ?];
              prule ]
    | apply pop_same; intros; split; reflexivity ].

Ltac pstep :=
  lazymatch goal with
  | |- Vocabulary.holds _ (if negb ?b then _ else _) _ _ =>
      destruct b; cbn [negb]; cbv beta iota zeta; [|apply holds_abort]
  | |- Vocabulary.holds _ (if ?b then _ else _) _ _ =>
      destruct b; cbv beta iota zeta; [apply holds_abort|]
  | |- Vocabulary.holds _ (Simulation.gets _ ≫= _) _ _ =>
      lazymatch goal with
      | |- context [Vocabulary.population ?c _ _] =>
          first
            [ apply (pop_gets _ _ _ _ _
                       (λ a, Forall (λ i, (i < Z.to_nat (Simulation.num_students c))%nat) a));
              [ intros ? [_ <-];
                first [ apply Forall_seq; intros; lia | apply positions_lt ]
              | intros ? ? ]
            | apply (pop_gets _ _ _ _ _ (λ _, True)); [done | intros ? _] ]
      end
  | |- Vocabulary.holds _ (_ ≫= _) _ _ => eapply holds_bind; [prule|intros ?]
  end.

(** Throughout every run the student at position [i] of [students] is
    student number [i + 1], with the addresses and the device id it was
    created with: no handler and no operation assigns them.  Every gather
    is made on the complete population, [num_students] students, and
    addresses students of the list only. *)
Theorem students_stay_in_place (cfg : Simulation.config) (env : Simulation.Env) :
  Forall (Vocabulary.in_place cfg env)
    (Simulation.trace (Simulation.simulate cfg env)).
Proof.
  assert (H : Vocabulary.holds (Vocabulary.population cfg env 0)
                (Simulation.run_simulation cfg env)
                (Vocabulary.in_place cfg env) (λ _ _, True)).
  { unfold Simulation.run_simulation, Simulation.choose_seats.
    do 6 pstep.
    eapply holds_bind; [apply pop_spawn_population|intros ?].
    repeat pstep.
    apply holds_silent. intros; reflexivity. }
  apply (H (Simulation.initial cfg)). split; [|done].
  intros i s Hs. done.
Qed.
